(** * Shopify store insights fetcher: a shallow embedding of [src/main.py]

    The development follows the source file top to bottom.  Python values are
    modelled by the modules [PyStr] (the [str] methods the extractors call),
    [Re] (a backtracking matcher for the three compiled patterns), [Json]
    (decoded JSON documents and the dynamic operations applied to them) and
    [Bs4] (parsed markup with the BeautifulSoup queries that are used).  The
    methods of [ShopifyInsightsFetcher] keep their names.  The three tables
    are lists of rows; what the database server decides is the class
    [Engine].

    A string is a Python [str] whose characters have code points below 256;
    the classes of characters ([isspace], [\s], [\d], [\w], [\b], case
    mapping) are Python's on that range. *)

From Stdlib Require Import String Ascii List ZArith Lia Bool Arith.
From Stdlib Require Import Permutation DecimalString DecimalNat.
From Stdlib Require Import Floats.PrimFloat.
Import ListNotations.
Local Open Scope string_scope.
Local Open Scope list_scope.
Local Open Scope nat_scope.
#[local] Set Warnings "-register-all".

(* ================================================================= *)
(** ** Outcomes of a call: a value, a raised exception, or no answer *)

(** [HTTPException] is FastAPI's; every other exception class is kept by its
    name and its message ([str(e)]).  The messages of [IndexError],
    [AttributeError], [KeyError] and [TypeError] are Python's; those of a
    refused markup and of pydantic's [ValidationError] are shortened. *)
Inductive exn : Type :=
| HTTPException (status_code : Z) (detail : string)
| PyExn (cls : string) (msg : string).

Inductive outcome (A : Type) : Type :=
| Ok (a : A)
| Raise (e : exn)
| Diverge.
Arguments Ok {A} a.
Arguments Raise {A} e.
Arguments Diverge {A}.

Definition obind {A B} (o : outcome A) (k : A -> outcome B) : outcome B :=
  match o with
  | Ok a => k a
  | Raise e => Raise e
  | Diverge => Diverge
  end.

Declare Scope py_scope.
Delimit Scope py_scope with py.
Notation "x <- c ;; k" := (obind c (fun x => k))
  (at level 61, c at next level, right associativity) : py_scope.

Fixpoint omap {A B} (f : A -> outcome B) (l : list A) : outcome (list B) :=
  match l with
  | [] => Ok []
  | x :: l' =>
      match f x with
      | Ok y => match omap f l' with
                | Ok ys => Ok (y :: ys)
                | Raise e => Raise e
                | Diverge => Diverge
                end
      | Raise e => Raise e
      | Diverge => Diverge
      end
  end.

(** [for x in l: acc = f acc x], left when [f] raises. *)
Fixpoint ofold {A B} (f : B -> A -> outcome B) (l : list A) (acc : B) : outcome B :=
  match l with
  | [] => Ok acc
  | x :: l' =>
      match f acc x with
      | Ok acc' => ofold f l' acc'
      | Raise e => Raise e
      | Diverge => Diverge
      end
  end.

(** What a call into a library comes to: the value it returns, or the
    exception it raises, kept by class and message (an exception of the
    library, never an [HTTPException]). *)
Inductive result (A : Type) : Type :=
| Returns (a : A)
| Throws (cls msg : string).
Arguments Returns {A} a.
Arguments Throws {A} cls msg.

Definition outcome_of {A} (r : result A) : outcome A :=
  match r with
  | Returns a => Ok a
  | Throws cls msg => Raise (PyExn cls msg)
  end.

Definition AttributeError (what : string) : exn :=
  PyExn "AttributeError" (what ++ " object has no attribute 'get'").
Definition IndexError (what : string) : exn :=
  PyExn "IndexError" (what ++ " index out of range").
Definition TypeError (msg : string) : exn := PyExn "TypeError" msg.
Definition KeyError (msg : string) : exn := PyExn "KeyError" msg.
Definition ValueError (msg : string) : exn := PyExn "ValueError" msg.
Definition ValidationError (field : string) : exn :=
  PyExn "ValidationError" ("validation error for " ++ field).

(* ================================================================= *)
(** ** [str] *)

Module PyStr.

Definition code (c : ascii) : nat := nat_of_ascii c.

Definition between (lo hi : nat) (c : ascii) : bool :=
  (lo <=? code c) && (code c <=? hi).

(** The letters [A-Z] and [a-z] and the digits [0-9]. *)
Definition is_upper (c : ascii) : bool := between 65 90 c.
Definition is_lower (c : ascii) : bool := between 97 122 c.
Definition is_digit (c : ascii) : bool := between 48 57 c.
Definition is_alpha (c : ascii) : bool := is_upper c || is_lower c.

(** [str.isspace] on one character, which is also [\s]: tab, line feed,
    vertical tab, form feed, carriage return, the four separators 28..31, the
    space, the next-line control 133 and the no-break space 160. *)
Definition is_space (c : ascii) : bool :=
  between 9 13 c || between 28 31 c || (code c =? 32)
  || (code c =? 133) || (code c =? 160).

(** The letters above 127 that have a small form in the range, and those
    that have a capital in it. *)
Definition is_upper_high (c : ascii) : bool :=
  (between 192 214 c || between 216 222 c).
Definition is_lower_high (c : ascii) : bool :=
  (between 224 246 c || between 248 254 c).

(** [\w] of [re]: what [str.isalnum] accepts, and the underscore.  Above 127
    these are the letters, the ordinal indicators 170 and 186, the micro sign
    181, the superscripts 178, 179 and 185 and the fractions 188..190. *)
Definition is_word (c : ascii) : bool :=
  is_alpha c || is_digit c || (code c =? 95)
  || (code c =? 170) || between 178 179 c || (code c =? 181)
  || between 185 186 c || between 188 190 c
  || between 192 214 c || between 216 246 c || between 248 255 c.

(** [str.lower] on one character. *)
Definition to_lower (c : ascii) : ascii :=
  if is_upper c || is_upper_high c then ascii_of_nat (code c + 32) else c.

(** The title case of a character, which [str.capitalize] puts first: the
    capital of a small letter, [Ss] for the sharp s (223).  The capitals of
    the micro sign (181) and of the y with diaeresis (255) have code points
    above 255: a string that starts with one of the two is outside what
    [capitalize] describes, and the statements about it leave it out. *)
Definition to_title (c : ascii) : string :=
  if is_lower c || is_lower_high c
  then String (ascii_of_nat (code c - 32)) EmptyString
  else if code c =? 223 then "Ss"
  else String c EmptyString.

Fixpoint map (f : ascii -> ascii) (s : string) : string :=
  match s with
  | EmptyString => EmptyString
  | String c s' => String (f c) (map f s')
  end.

(** [s.lower()] *)
Definition lower (s : string) : string := map to_lower s.

(** [s.capitalize()] *)
Definition capitalize (s : string) : string :=
  match s with
  | EmptyString => EmptyString
  | String c s' => to_title c ++ lower s'
  end.


(** [s[:n]] *)
Fixpoint take (n : nat) (s : string) : string :=
  match n, s with
  | S n', String c s' => String c (take n' s')
  | _, _ => EmptyString
  end.

(** [s[n:]] *)
Fixpoint drop (n : nat) (s : string) : string :=
  match n, s with
  | S n', String _ s' => drop n' s'
  | _, _ => s
  end.

(** [s.startswith(p)] *)
Fixpoint startswith (p s : string) : bool :=
  match p, s with
  | EmptyString, _ => true
  | String a p', String b s' => Ascii.eqb a b && startswith p' s'
  | String _ _, EmptyString => false
  end.

(** [s.endswith(p)] *)
Definition endswith (p s : string) : bool :=
  (String.length p <=? String.length s)
  && String.eqb (drop (String.length s - String.length p) s) p.

(** [p in s] *)
Fixpoint contains (p s : string) : bool :=
  startswith p s
  || match s with
     | EmptyString => false
     | String _ s' => contains p s'
     end.

(** [s.lstrip()], [s.rstrip()], [s.strip()] *)
Fixpoint lstrip (s : string) : string :=
  match s with
  | String c s' => if is_space c then lstrip s' else s
  | EmptyString => EmptyString
  end.

Fixpoint rstrip_by (p : ascii -> bool) (s : string) : string :=
  match s with
  | EmptyString => EmptyString
  | String c s' =>
      match rstrip_by p s' with
      | EmptyString => if p c then EmptyString else String c EmptyString
      | r => String c r
      end
  end.

Definition rstrip (s : string) : string := rstrip_by is_space s.
Definition strip (s : string) : string := rstrip (lstrip s).

(** [s.rstrip('/')] *)
Definition rstrip_slash (s : string) : string :=
  rstrip_by (Ascii.eqb "/"%char) s.

(** The characters of [s], last first, put in front of [acc]. *)
Fixpoint rev_onto (s acc : string) : string :=
  match s with
  | EmptyString => acc
  | String c s' => rev_onto s' (String c acc)
  end.

Definition rev (s : string) : string := rev_onto s EmptyString.

(** [s.split(sep)] for a non-empty [sep]: the pieces between the occurrences
    of [sep], found left to right without overlap.  [cur] is the piece being
    read, last character first; [skip] counts the characters of a separator
    that has been recognised and is still to be passed over. *)
Fixpoint split_from (sep : string) (skip : nat) (cur : string) (s : string)
  : list string :=
  match s with
  | EmptyString => [rev cur]
  | String c s' =>
      match skip with
      | S k => split_from sep k cur s'
      | O =>
          if startswith sep s
          then rev cur :: split_from sep (String.length sep - 1) EmptyString s'
          else split_from sep 0 (String c cur) s'
      end
  end.

Definition split (sep s : string) : list string := split_from sep 0 EmptyString s.

(** [sep.join(l)] *)
Fixpoint join (sep : string) (l : list string) : string :=
  match l with
  | [] => EmptyString
  | [x] => x
  | x :: l' => x ++ sep ++ join sep l'
  end.

(** [s.replace(old, new)], for a non-empty [old]: the pieces of
    [s.split(old)] joined by [new]. *)
Definition replace (old new s : string) : string := join new (split old s).

(** [l[0]] and [l[-1]] of the never-empty result of [split]. *)
Definition first (l : list string) : string := hd EmptyString l.
Definition final (l : list string) : string := last l EmptyString.

(** [bool(s)] *)
Definition truthy (s : string) : bool :=
  match s with EmptyString => false | _ => true end.

(** [str(n)] for a natural number and for an integer. *)
Definition of_nat (n : nat) : string := NilEmpty.string_of_uint (Nat.to_uint n).
Definition of_Z (z : Z) : string := NilEmpty.string_of_int (Z.to_int z).

End PyStr.

(* ================================================================= *)
(** ** [re]: the compiled patterns and [findall] *)

Module Re.

(** The constructs the three patterns of the source are built from.  A
    repetition is greedy ([r*]) or lazy ([r*?]); [Ahead r] is [(?=r)], [Eos]
    is [$] and [WordB] is [\b]. *)
Inductive regex : Type :=
| Eps
| Chr (p : ascii -> bool)
| Seq (r1 r2 : regex)
| Alt (r1 r2 : regex)
| Star (greedy : bool) (r : regex)
| Group (i : nat) (r : regex)
| Ahead (r : regex)
| Eos
| WordB.

Definition Opt (r : regex) : regex := Alt r Eps.
Definition Plus (r : regex) : regex := Seq r (Star true r).

Fixpoint Times (n : nat) (r : regex) : regex :=
  match n with
  | O => Eps
  | S n' => Seq r (Times n' r)
  end.

Definition AtLeast (n : nat) (r : regex) : regex := Seq (Times n r) (Star true r).

Fixpoint seq (l : list regex) : regex :=
  match l with
  | [] => Eps
  | [r] => r
  | r :: l' => Seq r (seq l')
  end.

(** A position of the matcher in the text: the character before it, the
    text from it on, and the groups captured on the way. *)
Record state : Type := mkState {
  prev : option ascii;
  rest : string;
  groups : list (nat * string)
}.

Definition remaining (s : state) : nat := String.length (rest s).

Definition word_before (s : state) : bool :=
  match prev s with Some c => PyStr.is_word c | None => false end.
Definition word_after (s : state) : bool :=
  match rest s with String c _ => PyStr.is_word c | EmptyString => false end.

(** The text read between two positions of the same text. *)
Definition consumed (s s' : state) : string :=
  PyStr.take (remaining s - remaining s') (rest s).

Definition capture (i : nat) (s s' : state) : state :=
  mkState (prev s') (rest s') ((i, consumed s s') :: groups s').

(** Backtracking matching in continuation-passing style: [run r k s] is the
    first way, in the order [re] tries them, to match [r] from [s] such that
    [k] accepts the position reached.  An iteration of a repetition that
    reads nothing is not repeated, so the remaining length bounds the number
    of iterations. *)
Fixpoint run (r : regex) (k : state -> option state) (s : state) {struct r}
  : option state :=
  match r with
  | Eps => k s
  | Chr p =>
      match rest s with
      | String c s' => if p c then k (mkState (Some c) s' (groups s)) else None
      | EmptyString => None
      end
  | Seq r1 r2 => run r1 (run r2 k) s
  | Alt r1 r2 =>
      match run r1 k s with
      | Some e => Some e
      | None => run r2 k s
      end
  | Star greedy r1 =>
      (fix loop (n : nat) (s : state) {struct n} : option state :=
         match n with
         | O => k s
         | S n' =>
             let again (_ : unit) :=
               run r1 (fun s' => if remaining s' <? remaining s
                                 then loop n' s' else None) s in
             if greedy
             then match again tt with Some e => Some e | None => k s end
             else match k s with Some e => Some e | None => again tt end
         end) (remaining s) s
  | Group i r1 => run r1 (fun s' => k (capture i s s')) s
  | Ahead r1 =>
      match run r1 Some s with
      | Some _ => k s
      | None => None
      end
  | Eos =>
      match rest s with
      | EmptyString => k s
      | String c EmptyString => if PyStr.code c =? 10 then k s else None
      | _ => None
      end
  | WordB => if xorb (word_before s) (word_after s) then k s else None
  end.

(** One match: its text and its groups. *)
Record found : Type := mkFound {
  whole : string;
  captured : list (nat * string)
}.

Definition match_at (r : regex) (before : option ascii) (s : string)
  : option found :=
  let s0 := mkState before s [] in
  match run r Some s0 with
  | Some e => Some (mkFound (consumed s0 e) (groups e))
  | None => None
  end.

(** [group(i)], empty when the group took no part in the match. *)
Fixpoint group (i : nat) (gs : list (nat * string)) : string :=
  match gs with
  | [] => EmptyString
  | (j, t) :: gs' => if i =? j then t else group i gs'
  end.

(** The scan of [finditer]: the leftmost match from each position, the next
    search starting where the match ended (one character further after an
    empty match).  [skip] counts the characters of the last match still to be
    passed over. *)
Fixpoint scan (r : regex) (before : option ascii) (skip : nat) (s : string)
  : list found :=
  match s with
  | EmptyString =>
      match skip, match_at r before s with
      | O, Some m => [m]
      | _, _ => []
      end
  | String c s' =>
      match skip with
      | S k => scan r (Some c) k s'
      | O =>
          match match_at r before s with
          | Some m => m :: scan r (Some c) (String.length (whole m) - 1) s'
          | None => scan r (Some c) 0 s'
          end
      end
  end.

(** [pattern.findall(text)] for a pattern without groups, and for one with
    two groups. *)
Definition findall (r : regex) (text : string) : list string :=
  List.map whole (scan r None 0 text).

Definition findall2 (r : regex) (text : string) : list (string * string) :=
  List.map (fun m => (group 1 (captured m), group 2 (captured m)))
           (scan r None 0 text).

(** Character classes. *)
Definition one_of (cs : string) (c : ascii) : bool :=
  existsb (Ascii.eqb c) (list_ascii_of_string cs).
Definition lit (c : ascii) : regex := Chr (Ascii.eqb c).
Definition lit_nocase (c : ascii) : regex :=
  Chr (fun x => Ascii.eqb (PyStr.to_lower x) (PyStr.to_lower c)).
Definition not_lit (c : ascii) : regex := Chr (fun x => negb (Ascii.eqb x c)).
Definition not_lit_nocase (c : ascii) : regex :=
  Chr (fun x => negb (Ascii.eqb (PyStr.to_lower x) (PyStr.to_lower c))).
Definition alnum (c : ascii) : bool := PyStr.is_alpha c || PyStr.is_digit c.
Definition digit : regex := Chr PyStr.is_digit.
Definition space : regex := Chr PyStr.is_space.

End Re.

(* ================================================================= *)
(** ** Decoded JSON and the dynamic operations the source applies to it *)

Module Json.

(** What [response.json()] returns; a number is an [int] or a [float]. *)
Inductive value : Type :=
| JNone
| JBool (b : bool)
| JInt (n : Z)
| JFloat (x : float)
| JStr (s : string)
| JList (l : list value)
| JDict (d : list (string * value)).

Definition type_name (v : value) : string :=
  match v with
  | JNone => "'NoneType'"
  | JBool _ => "'bool'"
  | JInt _ => "'int'"
  | JFloat _ => "'float'"
  | JStr _ => "'str'"
  | JList _ => "'list'"
  | JDict _ => "'dict'"
  end.

(** [bool(v)] *)
Definition truthy (v : value) : bool :=
  match v with
  | JNone => false
  | JBool b => b
  | JInt n => negb (Z.eqb n 0)
  | JFloat x => negb (PrimFloat.eqb x 0%float)
  | JStr s => PyStr.truthy s
  | JList l => match l with [] => false | _ => true end
  | JDict d => match d with [] => false | _ => true end
  end.

Fixpoint lookup (key : string) (d : list (string * value)) : option value :=
  match d with
  | [] => None
  | (k, v) :: d' => if String.eqb key k then Some v else lookup key d'
  end.

(** [v.get(key, default)]: only a dict has the method. *)
Definition get (v : value) (key : string) (default : value) : outcome value :=
  match v with
  | JDict d =>
      match lookup key d with
      | Some x => Ok x
      | None => Ok default
      end
  | _ => Raise (AttributeError (type_name v))
  end.

(** [v[0]] *)
Definition index0 (v : value) : outcome value :=
  match v with
  | JList [] => Raise (IndexError "list")
  | JList (x :: _) => Ok x
  | JStr EmptyString => Raise (IndexError "string")
  | JStr (String c _) => Ok (JStr (String c EmptyString))
  | JDict _ => Raise (KeyError "0")
  | _ => Raise (TypeError (type_name v ++ " object is not subscriptable"))
  end.

(** The items a [for] loop over [v] visits: the elements of a list, the
    characters of a string, the keys of a dict. *)
Definition iter (v : value) : outcome (list value) :=
  match v with
  | JList l => Ok l
  | JStr s =>
      Ok (List.map (fun c => JStr (String c EmptyString)) (list_ascii_of_string s))
  | JDict d => Ok (List.map (fun kv => JStr (fst kv)) d)
  | _ => Raise (TypeError (type_name v ++ " object is not iterable"))
  end.

(** [len(v)] *)
Definition len (v : value) : outcome nat :=
  match v with
  | JList l => Ok (List.length l)
  | JStr s => Ok (String.length s)
  | JDict d => Ok (List.length d)
  | _ => Raise (TypeError ("object of type " ++ type_name v ++ " has no len()"))
  end.

End Json.

(* ================================================================= *)
(** ** Parsed markup and the BeautifulSoup queries *)

Module Bs4.

(** A parsed document is a tree of tags and strings; the document itself is
    the tag at the root.  An attribute list holds each name once.  A string
    is a [NavigableString] (or [CData]), [Text], or an object of another
    class of strings, [Other]: the content of a [script], [style] or
    [template] element and ruby annotations ([rt], [rp]), kept with the name
    of that element as [owner], and comments, declarations, doctypes and
    processing instructions, with an empty [owner]. *)
Inductive node : Type :=
| Text (s : string)
| Other (owner : string) (s : string)
| Tag (name : string) (attrs : list (string * string)) (children : list node).

Definition is_tag (n : node) : bool :=
  match n with Tag _ _ _ => true | _ => false end.

Definition name_of (n : node) : string :=
  match n with Tag t _ _ => t | _ => EmptyString end.

Fixpoint assoc (key : string) (l : list (string * string)) : option string :=
  match l with
  | [] => None
  | (k, v) :: l' => if String.eqb key k then Some v else assoc key l'
  end.

(** [tag.get(key)] *)
Definition get (n : node) (key : string) : option string :=
  match n with
  | Tag _ attrs _ => assoc key attrs
  | _ => None
  end.

(** [tag.get(key, '')] *)
Definition get_or_empty (n : node) (key : string) : string :=
  match get n key with Some v => v | None => EmptyString end.

(** The tags below [n], in document order. *)
Fixpoint descendants (n : node) : list node :=
  match n with
  | Tag _ _ cs =>
      flat_map (fun c => match c with
                         | Tag _ _ _ => c :: descendants c
                         | _ => []
                         end) cs
  | _ => []
  end.

(** The elements whose strings are of a class of their own. *)
Definition string_containers : list string :=
  ["rt"; "rp"; "style"; "script"; "template"].

(** The strings below [n] of one class, in document order: those of the
    class of [owner], or the plain ones when there is no [owner]. *)
Fixpoint strings_of (owner : option string) (n : node) : list string :=
  match n with
  | Text s => match owner with None => [s] | Some _ => [] end
  | Other o s =>
      match owner with
      | Some t => if String.eqb o t then [s] else []
      | None => []
      end
  | Tag _ _ cs => flat_map (strings_of owner) cs
  end.

(** The strings [n.get_text()] joins: the plain ones, or, when [n] is one of
    the elements above, those of its own class. *)
Definition strings (n : node) : list string :=
  strings_of (if existsb (String.eqb (name_of n)) string_containers
              then Some (name_of n) else None) n.

(** [n.find_all(...)] and [n.find(...)] for a test [p] on tags. *)
Definition find_all (p : node -> bool) (n : node) : list node :=
  filter p (descendants n).

Definition find (p : node -> bool) (n : node) : option node :=
  hd_error (find_all p n).

(** [n.get_text()] *)
Definition get_text (n : node) : string := String.concat EmptyString (strings n).

(** [n.get_text(separator=sep, strip=True)]: every string stripped, the empty
    ones left out. *)
Definition stripped_strings (n : node) : list string :=
  filter PyStr.truthy (List.map PyStr.strip (strings n)).

Definition get_text_strip (sep : string) (n : node) : string :=
  PyStr.join sep (stripped_strings n).

(** The tests the source passes to [find] and [find_all]. *)
Definition named (t : string) (n : node) : bool := String.eqb (name_of n) t.

Definition named_any (ts : list string) (n : node) : bool :=
  existsb (String.eqb (name_of n)) ts.

Definition attr_is (key v : string) (n : node) : bool :=
  match get n key with Some x => String.eqb x v | None => false end.

Definition attr_has (key part : string) (n : node) : bool :=
  match get n key with Some x => PyStr.contains part x | None => false end.

Definition attr_has_nocase (key part : string) (n : node) : bool :=
  match get n key with
  | Some x => PyStr.contains part (PyStr.lower x)
  | None => false
  end.

Definition has_attr (key : string) (n : node) : bool :=
  match get n key with Some _ => true | None => false end.

(** The whitespace-separated words of an attribute value. *)
Fixpoint words_from (cur : string) (s : string) : list string :=
  match s with
  | EmptyString => if PyStr.truthy cur then [PyStr.rev cur] else []
  | String c s' =>
      if PyStr.is_space c
      then (if PyStr.truthy cur then [PyStr.rev cur] else []) ++ words_from EmptyString s'
      else words_from (String c cur) s'
  end.

Definition words (s : string) : list string := words_from EmptyString s.

Definition has_class (c : string) (n : node) : bool :=
  match get n "class" with
  | Some v => existsb (String.eqb c) (words v)
  | None => false
  end.

(** The CSS selectors that occur in the source: [.c], [t], [#i] and
    [[class*="s"]]. *)
Inductive selector : Type :=
| ByClass (c : string)
| ByName (t : string)
| ById (i : string)
| ClassContains (s : string).

Definition matches (sel : selector) (n : node) : bool :=
  match sel with
  | ByClass c => has_class c n
  | ByName t => named t n
  | ById i => attr_is "id" i n
  | ClassContains s =>
      match get n "class" with
      | Some v => PyStr.contains s (PyStr.join " " (words v))
      | None => false
      end
  end.

(** [n.select(sel)] and [n.select_one(sel)] *)
Definition select (sel : selector) (n : node) : list node :=
  find_all (matches sel) n.

Definition select_one (sel : selector) (n : node) : option node :=
  hd_error (select sel n).

End Bs4.

(* ================================================================= *)
(** ** What the Python runtime and the libraries decide *)

(** The source relies on things that are fixed outside it: the order in
    which a [set] of strings is iterated (some order of its elements),
    BeautifulSoup's HTML parser, which returns a tree or rejects the markup
    (the empty markup it reads as the empty document),
    [urllib.parse.urljoin], which returns an address or raises, the check
    [urllib.parse] makes of a network location that holds both brackets (an
    address in brackets has to be an IPv6 or IPvFuture one), and [repr] of a
    float, a list or a dict.  Every definition and theorem below is stated
    for an arbitrary such runtime. *)
Class Runtime : Type := {
  set_iter : list string -> list string;
  set_iter_perm : forall l, NoDup l -> Permutation l (set_iter l);
  parse_html : string -> result Bs4.node;
  parse_html_empty :
    parse_html EmptyString = Returns (Bs4.Tag "[document]" [] []);
  urljoin : string -> string -> result string;
  check_bracketed_netloc : string -> result unit;
  repr : Json.value -> string
}.

(** A [set] of strings is kept as the list of its elements, each once, in the
    order they were added. *)
Fixpoint set_add (x : string) (s : list string) : list string :=
  match s with
  | [] => [x]
  | y :: s' => if String.eqb x y then s else y :: set_add x s'
  end.

(** [set(l)] *)
Definition set_of (l : list string) : list string :=
  fold_left (fun s x => set_add x s) l [].

(* ================================================================= *)
(** ** The network, and calls that use it *)

(** What a GET comes to, as the method that makes it sees it: the body of a
    successful response, read ([Served]); an exception the method has a
    handler for ([Refused]); or any other exception, which leaves the method
    ([Escaped], with its class and message). *)
Inductive reply (A : Type) : Type :=
| Served (a : A)
| Refused
| Escaped (cls msg : string).
Arguments Served {A} a.
Arguments Refused {A}.
Arguments Escaped {A} cls msg.

(** [get_html] is what [fetch_page] meets: the body read by the HTML parser;
    [Refused] when [httpx] raises an [HTTPError] (transport failure or error
    status); [Escaped] otherwise, as when [httpx] rejects the address
    ([InvalidURL]) or the parser the markup.  [get_json] is what [fetch_json]
    meets: the decoded body; [Refused] when [httpx] raises an [HTTPError] or
    the body is not JSON ([JSONDecodeError]); [Escaped] otherwise, as for a
    body that is not valid UTF-8 ([UnicodeDecodeError]). *)
Record World : Type := {
  get_html : string -> reply Bs4.node;
  get_json : string -> reply Json.value
}.

(** A call that may fetch: it reads the list of the addresses the session was
    asked for so far and returns its outcome with the list extended by its
    own. *)
Definition M (A : Type) : Type := list string -> outcome A * list string.

Definition ret {A} (a : A) : M A := fun log => (Ok a, log).

Definition lift {A} (o : outcome A) : M A := fun log => (o, log).

Definition bind {A B} (m : M A) (k : A -> M B) : M B :=
  fun log =>
    match m log with
    | (Ok a, log') => k a log'
    | (Raise e, log') => (Raise e, log')
    | (Diverge, log') => (Diverge, log')
    end.

(** [try: m  except Exception as e: h e] *)
Definition try_except {A} (m : M A) (h : exn -> M A) : M A :=
  fun log =>
    match m log with
    | (Raise e, log') => h e log'
    | r => r
    end.

Notation "x <~ c ;; k" := (bind c (fun x => k))
  (at level 61, c at next level, right associativity) : py_scope.

Local Open Scope py_scope.

(* ================================================================= *)
(** ** Pydantic models *)

Record ProductModel : Type := {
  id : option string;
  title : option string;
  description : option string;
  price : option string;
  images : option (list string);
  variants : option (list (list (string * Json.value)))
}.

Record ContactDetails : Type := {
  emails : list string;
  phone_numbers : list string;
  addresses : list string
}.

Record SocialHandles : Type := {
  instagram : option string;
  facebook : option string;
  twitter : option string;
  tiktok : option string;
  youtube : option string;
  linkedin : option string
}.

Record FAQ : Type := {
  question : string;
  answer : string
}.

Record ImportantLinks : Type := {
  order_tracking : option string;
  contact_us : option string;
  blogs : option string;
  shipping_info : option string;
  size_guide : option string
}.

Record BrandInsightsModel : Type := {
  website_url : string;
  brand_name : option string;
  product_catalog : list ProductModel;
  hero_products : list ProductModel;
  privacy_policy : option string;
  return_refund_policy : option string;
  faqs : list FAQ;
  social_handles : SocialHandles;
  contact_details : ContactDetails;
  brand_context : option string;
  important_links : ImportantLinks;
  competitors : list (list (string * Json.value))
}.

(** Validation of the three fields of [ProductModel] that receive a decoded
    JSON value as it came: [Optional[str]], [Optional[List[str]]] and
    [Optional[List[Dict[str, Any]]]].  A value of another type is refused, as
    pydantic 2 does (pydantic 1 would turn a number into a string); no
    statement below turns on this. *)
Definition validate_str (field : string) (v : Json.value)
  : outcome (option string) :=
  match v with
  | Json.JStr s => Ok (Some s)
  | Json.JNone => Ok None
  | _ => Raise (ValidationError field)
  end.

Definition validate_strs (field : string) (l : list Json.value)
  : outcome (option (list string)) :=
  l' <- omap (fun v => match v with
                       | Json.JStr s => Ok s
                       | _ => Raise (ValidationError field)
                       end) l ;;
  Ok (Some l').

Definition validate_dicts (field : string) (v : Json.value)
  : outcome (option (list (list (string * Json.value)))) :=
  match v with
  | Json.JNone => Ok None
  | Json.JList l =>
      l' <- omap (fun x => match x with
                           | Json.JDict d => Ok d
                           | _ => Raise (ValidationError field)
                           end) l ;;
      Ok (Some l')
  | _ => Raise (ValidationError field)
  end.

(** [ProductModel(id=.., title=.., description=.., price=.., images=..,
    variants=..)] *)
Definition ProductModel_init (a_id : string) (a_title : Json.value)
    (a_description a_price : string) (a_images : list Json.value)
    (a_variants : Json.value) : outcome ProductModel :=
  v_title <- validate_str "title" a_title ;;
  v_images <- validate_strs "images" a_images ;;
  v_variants <- validate_dicts "variants" a_variants ;;
  Ok {| id := Some a_id; title := v_title; description := Some a_description;
        price := Some a_price; images := v_images; variants := v_variants |}.

Definition SocialHandles_init : SocialHandles :=
  {| instagram := None; facebook := None; twitter := None;
     tiktok := None; youtube := None; linkedin := None |}.

Definition ImportantLinks_init : ImportantLinks :=
  {| order_tracking := None; contact_us := None; blogs := None;
     shipping_info := None; size_guide := None |}.

(* ================================================================= *)
(** ** [class ShopifyInsightsFetcher] *)

Module ShopifyInsightsFetcher.
Import Json Bs4.

Section Methods.
Context {RT : Runtime}.

(** [fetch_page]: the parsed page; [HTTPException(401)] when [httpx] raises
    an [HTTPError]; any other exception as it is. *)
Definition fetch_page (W : World) (url : string) : M node :=
  fun log =>
    (match get_html W url with
     | Served soup => Ok soup
     | Refused => Raise (HTTPException 401
                           ("Website not found or inaccessible: " ++ url)%string)
     | Escaped cls msg => Raise (PyExn cls msg)
     end, log ++ [url]).

(** [fetch_json]: the decoded body; the empty dict when [httpx] raises an
    [HTTPError] or the body is not JSON; any other exception as it is. *)
Definition fetch_json (W : World) (url : string) : M value :=
  fun log =>
    (match get_json W url with
     | Served data => Ok data
     | Refused => Ok (JDict [])
     | Escaped cls msg => Raise (PyExn cls msg)
     end, log ++ [url]).

(** *** [extract_brand_name] *)

(** [urlparse(url).netloc].  Leading characters up to the space (code 32)
    are dropped, then every tab, carriage return and line feed.  When a
    scheme (a letter, then letters, digits, [+], [-] or [.], before the first
    colon) is present it is removed; if [//] follows, the network location is
    what stands between it and the first [/], [?] or [#], and is refused with
    a [ValueError] when it holds one bracket without the other or brackets
    the runtime's check rejects.  (The last check of [urlsplit], on the
    compatibility normal form of the location, never fails for characters
    below 256.) *)
Definition scheme_char (c : ascii) : bool :=
  PyStr.is_alpha c || PyStr.is_digit c || Re.one_of "+-." c.

Fixpoint until (stop : ascii -> bool) (s : string) : string :=
  match s with
  | EmptyString => EmptyString
  | String c s' => if stop c then EmptyString else String c (until stop s')
  end.

Fixpoint lstrip_by (p : ascii -> bool) (s : string) : string :=
  match s with
  | String c s' => if p c then lstrip_by p s' else s
  | EmptyString => EmptyString
  end.

Fixpoint without (p : ascii -> bool) (s : string) : string :=
  match s with
  | EmptyString => EmptyString
  | String c s' => if p c then without p s' else String c (without p s')
  end.

(** [url.lstrip(_WHATWG_C0_CONTROL_OR_SPACE)] without the characters of
    [_UNSAFE_URL_BYTES_TO_REMOVE]. *)
Definition cleaned (url : string) : string :=
  without (fun c => (PyStr.code c =? 9) || (PyStr.code c =? 13)
                    || (PyStr.code c =? 10))
          (lstrip_by (fun c => PyStr.code c <=? 32) url).

Definition after_scheme (url : string) : string :=
  let head := until (Ascii.eqb ":"%char) url in
  match head with
  | String c _ =>
      if (String.length head <? String.length url)
         && PyStr.is_alpha c
         && forallb scheme_char (list_ascii_of_string head)
      then PyStr.drop (String.length head + 1) url
      else url
  | EmptyString => url
  end.

Definition netloc (url : string) : outcome string :=
  let rest := after_scheme (cleaned url) in
  if PyStr.startswith "//" rest
  then
    let netloc := until (Re.one_of "/?#") (PyStr.drop 2 rest) in
    let opened := PyStr.contains "[" netloc in
    let closed := PyStr.contains "]" netloc in
    if xorb opened closed then Raise (ValueError "Invalid IPv6 URL")
    else if opened && closed
    then _ <- outcome_of (check_bracketed_netloc netloc) ;; Ok netloc
    else Ok netloc
  else Ok EmptyString.

Definition is_site_name_meta (n : node) : bool :=
  named "meta" n && attr_is "property" "og:site_name" n.

Definition is_logo_img (n : node) : bool :=
  named "img" n && attr_has_nocase "class" "logo" n.

(** [not brand_name] for a value that is [None] or a string. *)
Definition falsy (brand_name : option string) : bool :=
  match brand_name with
  | Some s => negb (PyStr.truthy s)
  | None => true
  end.

Definition title_brand (title : node) : string :=
  PyStr.strip
    (PyStr.first (PyStr.split "-" (PyStr.first (PyStr.split "|" (get_text title))))).

(** [domain.replace('www.', '').split('.')[0].capitalize()] *)
Definition domain_label (domain : string) : string :=
  PyStr.first (PyStr.split "." (PyStr.replace "www." "" domain)).

Definition domain_brand (url : string) : outcome string :=
  domain <- netloc url ;;
  Ok (PyStr.capitalize (domain_label domain)).

Definition extract_brand_name (soup : node) (url : string) : outcome string :=
  let brand_name : option string := None in
  (* Method 1: Meta property *)
  let brand_name :=
    match find is_site_name_meta soup with
    | Some meta_brand => get meta_brand "content"
    | None => brand_name
    end in
  (* Method 2: Title tag *)
  let brand_name :=
    if falsy brand_name
    then match find (named "title") soup with
         | Some title => Some (title_brand title)
         | None => brand_name
         end
    else brand_name in
  (* Method 3: Header logo alt text *)
  let brand_name :=
    if falsy brand_name
    then match find is_logo_img soup with
         | Some logo => Some (get_or_empty logo "alt")
         | None => brand_name
         end
    else brand_name in
  (* Method 4: Domain name as fallback *)
  brand_name <-
    (if falsy brand_name
     then brand <- domain_brand url ;; Ok (Some brand)
     else Ok brand_name) ;;
  Ok (match brand_name with
      | Some s => if PyStr.truthy s then s else "Unknown Brand"
      | None => "Unknown Brand"
      end).

(** *** [fetch_product_catalog] *)

(** [str(v)] *)
Definition py_str (v : value) : string :=
  match v with
  | JStr s => s
  | JInt n => PyStr.of_Z n
  | JBool true => "True"
  | JBool false => "False"
  | JNone => "None"
  | _ => repr v
  end.

(** [BeautifulSoup(v, 'html.parser')]: markup has to be a string, and the
    parser may reject it. *)
Definition BeautifulSoup (v : value) : outcome node :=
  match v with
  | JStr s => outcome_of (parse_html s)
  | _ => Raise (TypeError ("markup of type " ++ type_name v)%string)
  end.

(** [str(product.get('variants', [{}])[0].get('price', '0'))] *)
Definition first_variant_price (product : value) : outcome string :=
  vs <- Json.get product "variants" (JList [JDict []]) ;;
  v0 <- index0 vs ;;
  p <- Json.get v0 "price" (JStr "0") ;;
  Ok (py_str p).

(** The body of the [for] loop: the arguments of [ProductModel(...)] are
    evaluated in the order they are written, then the model is built. *)
Definition product_model (product : value) : outcome ProductModel :=
  a_id <- Json.get product "id" (JStr "") ;;
  a_title <- Json.get product "title" (JStr "") ;;
  body_html <- Json.get product "body_html" (JStr "") ;;
  html <- BeautifulSoup body_html ;;
  a_price <- first_variant_price product ;;
  imgs <- Json.get product "images" (JList []) ;;
  imgs <- iter imgs ;;
  a_images <- omap (fun img => Json.get img "src" (JStr "")) imgs ;;
  a_variants <- Json.get product "variants" (JList []) ;;
  ProductModel_init (py_str a_id) a_title (PyStr.take 500 (get_text html))
                    a_price a_images a_variants.

Definition products_url (base_url : string) (page : nat) : string :=
  (PyStr.rstrip_slash base_url ++ "/products.json?limit=250&page="
   ++ PyStr.of_nat page)%string.

(** The [while True] loop, with the number of iterations it may still make:
    [fuel] exhausted is [Diverge]. *)
Fixpoint catalog_loop (fuel : nat) (W : World) (base_url : string)
    (page : nat) (products : list ProductModel) : M (list ProductModel) :=
  match fuel with
  | O => lift Diverge
  | S fuel' =>
      data <~ fetch_json W (products_url base_url page) ;;
      listed <~ lift (Json.get data "products" JNone) ;;
      if negb (truthy listed) then ret products
      else
        entries <~ lift (iter listed) ;;
        models <~ lift (omap product_model entries) ;;
        let products := products ++ models in
        n <~ lift (len listed) ;;
        if n <? 250 then ret products
        else catalog_loop fuel' W base_url (page + 1) products
  end.

Definition fetch_product_catalog (fuel : nat) (W : World) (base_url : string)
  : M (list ProductModel) :=
  catalog_loop fuel W base_url 1 [].

(** *** [extract_hero_products] *)

Definition is_product_link (n : node) : bool :=
  named "a" n && attr_has "href" "/products/" n.

(** [href.split('/products/')[-1].split('?')[0]] *)
Definition handle_of (href : string) : string :=
  PyStr.first (PyStr.split "?" (PyStr.final (PyStr.split "/products/" href))).

(** The first loop: the handles of the links, as a set. *)
Definition collect_handles (links : list node) : list string :=
  fold_left (fun product_handles link =>
               let href := get_or_empty link "href" in
               if PyStr.contains "/products/" href
               then set_add (handle_of href) product_handles
               else product_handles) links [].

Definition title_matches (product_handles : list string) (product : ProductModel)
  : bool :=
  match title product with
  | Some t =>
      PyStr.truthy t
      && existsb (fun handle =>
                    PyStr.contains (PyStr.lower handle)
                                   (PyStr.replace " " "-" (PyStr.lower t)))
                 (set_iter product_handles)
  | None => false
  end.

(** The second loop, left at the sixth hero product. *)
Fixpoint match_products (product_handles : list string)
    (all_products hero_products : list ProductModel) : list ProductModel :=
  match all_products with
  | [] => hero_products
  | product :: more =>
      if title_matches product_handles product
      then let hero_products := hero_products ++ [product] in
           if 6 <=? List.length hero_products then hero_products
           else match_products product_handles more hero_products
      else match_products product_handles more hero_products
  end.

Definition extract_hero_products (soup : node) (all_products : list ProductModel)
  : list ProductModel :=
  let product_links := find_all is_product_link soup in
  let product_handles := collect_handles (firstn 10 product_links) in
  match_products product_handles all_products [].

(** *** [fetch_policy_content] *)

Definition common_paths (policy_type : string) : list string :=
  if String.eqb policy_type "privacy"
  then ["/pages/privacy-policy"; "/privacy-policy"; "/privacy"; "/pages/privacy"]
  else if String.eqb policy_type "refund"
  then ["/pages/refund-policy"; "/pages/return-policy"; "/refund-policy";
        "/return-policy"; "/pages/returns"; "/returns"; "/pages/refunds";
        "/refunds"]
  else [].

Definition content_selectors : list selector :=
  [ByClass "page-content"; ByClass "main-content"; ByClass "policy-content";
   ByName "article"; ByName "main"; ByClass "content"; ById "content"].

(** The inner loop over the selectors: the first container whose text is
    longer than 100 characters. *)
Fixpoint first_content (soup : node) (selectors : list selector) : option string :=
  match selectors with
  | [] => None
  | sel :: more =>
      match select_one sel soup with
      | Some content_div =>
          let text := get_text_strip " " content_div in
          if 100 <? String.length text then Some (PyStr.take 2000 text)
          else first_content soup more
      | None => first_content soup more
      end
  end.

Definition page_policy (soup : node) : option string :=
  match first_content soup content_selectors with
  | Some text => Some text
  | None =>
      let body_text := get_text_strip " " soup in
      if 100 <? String.length body_text then Some (PyStr.take 2000 body_text)
      else None
  end.

(** The loop over the paths; an exception while a path is tried, in
    [urljoin] or in [fetch_page], moves on to the next path. *)
Fixpoint try_paths (W : World) (base_url : string) (paths : list string)
  : M (option string) :=
  match paths with
  | [] => ret None
  | path :: more =>
      fun log =>
        match urljoin base_url path with
        | Returns url =>
            match fetch_page W url log with
            | (Ok soup, log') =>
                match page_policy soup with
                | Some text => (Ok (Some text), log')
                | None => try_paths W base_url more log'
                end
            | (Raise _, log') => try_paths W base_url more log'
            | (Diverge, log') => (Diverge, log')
            end
        | Throws _ _ => try_paths W base_url more log
        end
  end.

Definition fetch_policy_content (W : World) (base_url policy_type : string)
  : M (option string) :=
  try_paths W base_url (common_paths policy_type).

(** *** [extract_faqs] *)

Definition faq_selectors : list selector :=
  [ByClass "faq-item"; ByClass "faq"; ByClass "accordion-item";
   ByClass "question-answer"; ByClass "qa-item"].

Definition question_names : list string :=
  ["h2"; "h3"; "h4"; "h5"; ".question"; ".faq-question"].
Definition answer_names : list string := [".answer"; ".faq-answer"; "p"].

(** The body of the inner loop: the FAQ an element contributes, if any. *)
Definition element_faq (element : node) : list FAQ :=
  match find (named_any question_names) element,
        find (named_any answer_names) element with
  | Some question_elem, Some answer_elem =>
      let question := get_text_strip "" question_elem in
      let answer := get_text_strip "" answer_elem in
      if PyStr.truthy question && PyStr.truthy answer
         && (10 <? String.length question)
      then [{| question := question; answer := answer |}]
      else []
  | _, _ => []
  end.

Definition structured_faqs (soup : node) : list FAQ :=
  flat_map (fun sel => flat_map element_faq (select sel soup)) faq_selectors.

(** [Q[:\.]?\s*([^?]*\?)\s*A[:\.]?\s*([^Q]*?)(?=Q[:\.]|$)] with
    [re.IGNORECASE | re.DOTALL] *)
Definition q_pattern : Re.regex :=
  let colon_or_dot := Re.Chr (Re.one_of ":.") in
  Re.seq [Re.lit_nocase "Q"; Re.Opt colon_or_dot; Re.Star true Re.space;
          Re.Group 1 (Re.Seq (Re.Star true (Re.not_lit "?")) (Re.lit "?"));
          Re.Star true Re.space;
          Re.lit_nocase "A"; Re.Opt colon_or_dot; Re.Star true Re.space;
          Re.Group 2 (Re.Star false (Re.not_lit_nocase "Q"));
          Re.Ahead (Re.Alt (Re.Seq (Re.lit_nocase "Q") colon_or_dot) Re.Eos)].

(** The body of the loop over the matches. *)
Definition match_faq (m : string * string) : list FAQ :=
  let question := PyStr.strip (fst m) in
  let answer := PyStr.take 300 (PyStr.strip (snd m)) in
  if PyStr.truthy question && PyStr.truthy answer
  then [{| question := question; answer := answer |}]
  else [].

Definition pattern_faqs (soup : node) : list FAQ :=
  let text := get_text soup in
  let matches := Re.findall2 q_pattern text in
  flat_map match_faq (firstn 10 matches).

Definition extract_faqs (soup : node) : list FAQ :=
  let faqs := structured_faqs soup in
  let faqs := match faqs with
              | [] => pattern_faqs soup
              | _ => faqs
              end in
  firstn 15 faqs.

(** *** [extract_social_handles] *)

Definition social_domains : list string :=
  ["instagram.com"; "facebook.com"; "twitter.com"; "tiktok.com";
   "youtube.com"; "linkedin.com"].

(** [href=re.compile(r'(instagram|facebook|twitter|tiktok|youtube|linkedin)\.com')]:
    the pattern is searched in the attribute as it is written. *)
Definition is_social_link (n : node) : bool :=
  named "a" n
  && match get n "href" with
     | Some href => existsb (fun d => PyStr.contains d href) social_domains
     | None => false
     end.

Definition social_step (social_handles : SocialHandles) (link : node)
  : SocialHandles :=
  let href := PyStr.lower (get_or_empty link "href") in
  let h := social_handles in
  if PyStr.contains "instagram.com" href then
    {| instagram := Some href; facebook := facebook h; twitter := twitter h;
       tiktok := tiktok h; youtube := youtube h; linkedin := linkedin h |}
  else if PyStr.contains "facebook.com" href then
    {| instagram := instagram h; facebook := Some href; twitter := twitter h;
       tiktok := tiktok h; youtube := youtube h; linkedin := linkedin h |}
  else if PyStr.contains "twitter.com" href || PyStr.contains "x.com" href then
    {| instagram := instagram h; facebook := facebook h; twitter := Some href;
       tiktok := tiktok h; youtube := youtube h; linkedin := linkedin h |}
  else if PyStr.contains "tiktok.com" href then
    {| instagram := instagram h; facebook := facebook h; twitter := twitter h;
       tiktok := Some href; youtube := youtube h; linkedin := linkedin h |}
  else if PyStr.contains "youtube.com" href then
    {| instagram := instagram h; facebook := facebook h; twitter := twitter h;
       tiktok := tiktok h; youtube := Some href; linkedin := linkedin h |}
  else if PyStr.contains "linkedin.com" href then
    {| instagram := instagram h; facebook := facebook h; twitter := twitter h;
       tiktok := tiktok h; youtube := youtube h; linkedin := Some href |}
  else h.

Definition extract_social_handles (soup : node) : SocialHandles :=
  let social_links := find_all is_social_link soup in
  fold_left social_step social_links SocialHandles_init.

(** *** [extract_contact_details] *)

(** [\b[A-Za-z0-9._%+-]+@[A-Za-z0-9.-]+\.[A-Z|a-z]{2,}\b] *)
Definition email_pattern : Re.regex :=
  let user c := Re.alnum c || Re.one_of "._%+-" c in
  let host c := Re.alnum c || Re.one_of ".-" c in
  let tld c := PyStr.is_alpha c || Re.one_of "|" c in
  Re.seq [Re.WordB; Re.Plus (Re.Chr user); Re.lit "@"; Re.Plus (Re.Chr host);
          Re.lit "."; Re.AtLeast 2 (Re.Chr tld); Re.WordB].

(** [[\+]?[1-9]?[\s\-\(\)]?\d{3}[\s\-\(\)]?\d{3}[\s\-]?\d{4}] *)
Definition phone_pattern : Re.regex :=
  let sep c := PyStr.is_space c || Re.one_of "-()" c in
  let dash c := PyStr.is_space c || Re.one_of "-" c in
  Re.seq [Re.Opt (Re.lit "+"); Re.Opt (Re.Chr (PyStr.between 49 57));
          Re.Opt (Re.Chr sep); Re.Times 3 Re.digit;
          Re.Opt (Re.Chr sep); Re.Times 3 Re.digit;
          Re.Opt (Re.Chr dash); Re.Times 4 Re.digit].

(** [email.endswith(('.png', '.jpg', '.gif'))] *)
Definition is_image_name (email : string) : bool :=
  PyStr.endswith ".png" email || PyStr.endswith ".jpg" email
  || PyStr.endswith ".gif" email.

Definition extract_contact_details (soup : node) : ContactDetails :=
  let text := get_text soup in
  let emails := set_iter (set_of (Re.findall email_pattern text)) in
  let phones := set_iter (set_of (Re.findall phone_pattern text)) in
  {| emails := firstn 5 (filter (fun email => negb (is_image_name email)) emails);
     phone_numbers := firstn 3 (List.map PyStr.strip phones);
     addresses := [] |}.

(** *** [extract_brand_context] *)

Definition about_selectors : list selector :=
  [ByClass "about"; ByClass "brand-story"; ByClass "our-story";
   ByClass "company-info"; ClassContains "about"].

Fixpoint first_about (soup : node) (selectors : list selector) : option string :=
  match selectors with
  | [] => None
  | sel :: more =>
      match select_one sel soup with
      | Some about_section =>
          let text := get_text_strip " " about_section in
          if 50 <? String.length text then Some (PyStr.take 1000 text)
          else first_about soup more
      | None => first_about soup more
      end
  end.

Definition is_description_meta (n : node) : bool :=
  named "meta" n && attr_is "name" "description" n.

Definition extract_brand_context (soup : node) : option string :=
  match first_about soup about_selectors with
  | Some text => Some text
  | None =>
      match find is_description_meta soup with
      | Some meta_desc =>
          let content := get_or_empty meta_desc "content" in
          if 50 <? String.length content then Some content else None
      | None => None
      end
  end.

(** *** [extract_important_links] *)

(** [any(term in text for term in terms)] *)
Definition any_in (terms : list string) (text : string) : bool :=
  existsb (fun term => PyStr.contains term text) terms.

Definition links_step (base_url : string) (important_links : ImportantLinks)
    (link : node) : outcome ImportantLinks :=
  let text := PyStr.strip (PyStr.lower (get_text link)) in
  let href := get_or_empty link "href" in
  href <- (if negb (PyStr.startswith "http" href)
           then outcome_of (urljoin base_url href) else Ok href) ;;
  let l := important_links in
  Ok (if any_in ["track"; "order"; "tracking"] text then
        {| order_tracking := Some href; contact_us := contact_us l;
           blogs := blogs l;
           shipping_info := shipping_info l; size_guide := size_guide l |}
      else if any_in ["contact"; "contact us"] text then
        {| order_tracking := order_tracking l; contact_us := Some href;
           blogs := blogs l;
           shipping_info := shipping_info l; size_guide := size_guide l |}
      else if any_in ["blog"; "news"; "articles"] text then
        {| order_tracking := order_tracking l; contact_us := contact_us l;
           blogs := Some href;
           shipping_info := shipping_info l; size_guide := size_guide l |}
      else if any_in ["shipping"; "delivery"] text then
        {| order_tracking := order_tracking l; contact_us := contact_us l;
           blogs := blogs l;
           shipping_info := Some href; size_guide := size_guide l |}
      else if any_in ["size"; "guide"; "sizing"] text then
        {| order_tracking := order_tracking l; contact_us := contact_us l;
           blogs := blogs l;
           shipping_info := shipping_info l; size_guide := Some href |}
      else l).

Definition is_link (n : node) : bool := named "a" n && has_attr "href" n.

Definition extract_important_links (soup : node) (base_url : string)
  : outcome ImportantLinks :=
  let links := find_all is_link soup in
  ofold (links_step base_url) links ImportantLinks_init.

(** *** [search_competitors] *)

Definition search_competitors (brand_name : string) : list string := [].

(** *** [fetch_store_insights] *)

(** The methods [fetch_store_insights] calls on [self].  Each is looked up on
    the object when it is called and may raise. *)
Record Self : Type := {
  self_fetch_page : string -> M node;
  self_extract_brand_name : node -> string -> M string;
  self_fetch_product_catalog : string -> M (list ProductModel);
  self_extract_hero_products : node -> list ProductModel -> M (list ProductModel);
  self_fetch_policy_content : string -> string -> M (option string);
  self_extract_faqs : node -> M (list FAQ);
  self_extract_social_handles : node -> M SocialHandles;
  self_extract_contact_details : node -> M ContactDetails;
  self_extract_brand_context : node -> M (option string);
  self_extract_important_links : node -> string -> M ImportantLinks;
  self_search_competitors : string -> M (list string)
}.

(** An object of the class as the source defines it. *)
Definition new (fuel : nat) (W : World) : Self := {|
  self_fetch_page := fetch_page W;
  self_extract_brand_name := fun soup url => lift (extract_brand_name soup url);
  self_fetch_product_catalog := fetch_product_catalog fuel W;
  self_extract_hero_products :=
    fun soup all_products => ret (extract_hero_products soup all_products);
  self_fetch_policy_content := fetch_policy_content W;
  self_extract_faqs := fun soup => ret (extract_faqs soup);
  self_extract_social_handles := fun soup => ret (extract_social_handles soup);
  self_extract_contact_details := fun soup => ret (extract_contact_details soup);
  self_extract_brand_context := fun soup => ret (extract_brand_context soup);
  self_extract_important_links :=
    fun soup base_url => lift (extract_important_links soup base_url);
  self_search_competitors := fun brand_name => ret (search_competitors brand_name)
|}.

(** [if not website_url.startswith(('http://', 'https://')): ...] *)
Definition with_scheme (website_url : string) : string :=
  if PyStr.startswith "http://" website_url
     || PyStr.startswith "https://" website_url
  then website_url
  else ("https://" ++ website_url)%string.

(** The body of the [try] block. *)
Definition gather (self : Self) (website_url : string) : M BrandInsightsModel :=
  let website_url := with_scheme website_url in
  soup <~ self_fetch_page self website_url ;;
  brand_name <~ self_extract_brand_name self soup website_url ;;
  product_catalog <~ self_fetch_product_catalog self website_url ;;
  hero_products <~ self_extract_hero_products self soup product_catalog ;;
  privacy_policy <~ self_fetch_policy_content self website_url "privacy" ;;
  return_refund_policy <~ self_fetch_policy_content self website_url "refund" ;;
  faqs <~ self_extract_faqs self soup ;;
  social_handles <~ self_extract_social_handles self soup ;;
  contact_details <~ self_extract_contact_details self soup ;;
  brand_context <~ self_extract_brand_context self soup ;;
  important_links <~ self_extract_important_links self soup website_url ;;
  competitors <~ self_search_competitors self brand_name ;;
  ret {| website_url := website_url;
         brand_name := Some brand_name;
         product_catalog := product_catalog;
         hero_products := hero_products;
         privacy_policy := privacy_policy;
         return_refund_policy := return_refund_policy;
         faqs := faqs;
         social_handles := social_handles;
         contact_details := contact_details;
         brand_context := brand_context;
         important_links := important_links;
         competitors := [] |}.

(** The two [except] clauses: an [HTTPException] is raised again, any other
    exception becomes [HTTPException(500)] with its message. *)
Definition reported (e : exn) : exn :=
  match e with
  | HTTPException _ _ => e
  | PyExn _ msg => HTTPException 500 ("Internal server error: " ++ msg)%string
  end.

Definition fetch_store_insights (self : Self) (website_url : string)
  : M BrandInsightsModel :=
  try_except (gather self website_url) (fun e => lift (Raise (reported e))).

End Methods.
End ShopifyInsightsFetcher.

(* ================================================================= *)
(** ** A runtime to evaluate with *)

(** Sets iterated in insertion order; markup read as one string (what the
    parser yields for markup without tags); references resolved by putting
    them after the base; every bracketed location accepted; [repr] left
    empty.  It serves to run the definitions
    on concrete inputs; no theorem about the program depends on it. *)
Module Plain.

#[export] Instance runtime : Runtime := {|
  set_iter := fun l => l;
  set_iter_perm := fun l _ => Permutation_refl l;
  parse_html := fun s =>
    Returns (Bs4.Tag "[document]" []
               match s with EmptyString => [] | _ => [Bs4.Text s] end);
  parse_html_empty := eq_refl;
  urljoin := fun base ref => Returns (PyStr.rstrip_slash base ++ ref)%string;
  check_bracketed_netloc := fun _ => Returns tt;
  repr := fun _ => EmptyString
|}.

End Plain.

(* ================================================================= *)
(** ** The database *)

(** The rows of the three tables.  A column holds the value that was stored
    in it; [created_at] and [updated_at] are readings of the clock. *)
Module BrandInsights.
Record t : Type := {
  id : nat;
  website_url : string;
  brand_name : option string;
  hero_products : list ProductModel;
  privacy_policy : option string;
  return_refund_policy : option string;
  faqs : list FAQ;
  social_handles : SocialHandles;
  contact_details : ContactDetails;
  brand_context : option string;
  important_links : ImportantLinks;
  created_at : nat;
  updated_at : nat
}.
End BrandInsights.

Module Product.
Record t : Type := {
  id : nat;
  brand_id : nat;
  product_id : option string;
  title : option string;
  description : option string;
  price : option string;
  images : option (list string);
  variants : option (list (list (string * Json.value)))
}.
End Product.

Module Competitor.
Record t : Type := {
  id : nat;
  brand_id : nat;
  competitor_url : string;
  competitor_data : Json.value
}.
End Competitor.

(** The content of the database, each table in the order its rows were
    inserted. *)
Record Database : Type := {
  brand_insights : list BrandInsights.t;
  products : list Product.t;
  competitors_table : list Competitor.t
}.

(** What the database server decides: when two strings of the [website_url]
    column are equal (an equivalence: the column's collation), the key it
    gives to a new row (one not in use in the table), the order in which it
    lists the rows a query selects, and whether the statements of a
    transaction leading from one content to another go through (a
    [SQLAlchemyError] is raised otherwise). *)
Class Engine : Type := {
  same : string -> string -> bool;
  same_refl : forall a, same a a = true;
  same_sym : forall a b, same a b = same b a;
  same_trans : forall a b c, same a b = true -> same b c = true -> same a c = true;
  fresh : list nat -> nat;
  fresh_spec : forall l, ~ In (fresh l) l;
  listed : forall {A : Type}, list A -> list A;
  listed_perm : forall (A : Type) (l : list A), Permutation l (listed l);
  accepts : Database -> Database -> bool
}.

(* ================================================================= *)
(** ** [class DatabaseOperations] *)

Module DatabaseOperations.

Section Operations.
Context {EN : Engine}.

(** [db.query(BrandInsights).filter(BrandInsights.website_url == url).first()] *)
Definition brand_of_url (db : Database) (url : string) : option BrandInsights.t :=
  hd_error (listed (filter (fun b => same (BrandInsights.website_url b) url)
                           (brand_insights db))).

(** [db.query(Product).filter(Product.brand_id == brand_id).all()] *)
Definition products_of_brand (db : Database) (brand_id : nat) : list Product.t :=
  listed (filter (fun p => Product.brand_id p =? brand_id) (products db)).

(** The assignments to the fields of [existing_brand]. *)
Definition updated (existing_brand : BrandInsights.t) (insights : BrandInsightsModel)
    (now : nat) : BrandInsights.t :=
  {| BrandInsights.id := BrandInsights.id existing_brand;
     BrandInsights.website_url := BrandInsights.website_url existing_brand;
     BrandInsights.brand_name := brand_name insights;
     BrandInsights.hero_products := hero_products insights;
     BrandInsights.privacy_policy := privacy_policy insights;
     BrandInsights.return_refund_policy := return_refund_policy insights;
     BrandInsights.faqs := faqs insights;
     BrandInsights.social_handles := social_handles insights;
     BrandInsights.contact_details := contact_details insights;
     BrandInsights.brand_context := brand_context insights;
     BrandInsights.important_links := important_links insights;
     BrandInsights.created_at := BrandInsights.created_at existing_brand;
     BrandInsights.updated_at := now |}.

(** [BrandInsights(website_url=..., ...)], added and flushed: the two
    timestamps are the defaults of their columns, two readings of the clock. *)
Definition created (key : nat) (insights : BrandInsightsModel) (now later : nat)
  : BrandInsights.t :=
  {| BrandInsights.id := key;
     BrandInsights.website_url := website_url insights;
     BrandInsights.brand_name := brand_name insights;
     BrandInsights.hero_products := hero_products insights;
     BrandInsights.privacy_policy := privacy_policy insights;
     BrandInsights.return_refund_policy := return_refund_policy insights;
     BrandInsights.faqs := faqs insights;
     BrandInsights.social_handles := social_handles insights;
     BrandInsights.contact_details := contact_details insights;
     BrandInsights.brand_context := brand_context insights;
     BrandInsights.important_links := important_links insights;
     BrandInsights.created_at := now;
     BrandInsights.updated_at := later |}.

(** [Product(brand_id=brand.id, product_id=product.id, ...)] *)
Definition product_row (key brand_id : nat) (product : ProductModel) : Product.t :=
  {| Product.id := key;
     Product.brand_id := brand_id;
     Product.product_id := id product;
     Product.title := title product;
     Product.description := description product;
     Product.price := price product;
     Product.images := images product;
     Product.variants := variants product |}.

(** The loop that adds the products, each under a new key. *)
Fixpoint add_products (brand_id : nat) (product_catalog : list ProductModel)
    (table : list Product.t) : list Product.t :=
  match product_catalog with
  | [] => table
  | product :: more =>
      let key := fresh (List.map Product.id table) in
      add_products brand_id more (table ++ [product_row key brand_id product])
  end.

(** The content the [try] block leads to, with the row it returns; [now] and
    [later] are the readings of the clock. *)
Definition saved (db : Database) (insights : BrandInsightsModel) (now later : nat)
  : BrandInsights.t * Database :=
  match brand_of_url db (website_url insights) with
  | Some existing_brand =>
      let brand := updated existing_brand insights now in
      let key := BrandInsights.id existing_brand in
      (brand,
       {| brand_insights :=
            List.map (fun b => if BrandInsights.id b =? key then brand else b)
                     (brand_insights db);
          products :=
            add_products key (product_catalog insights)
              (filter (fun p => negb (Product.brand_id p =? key)) (products db));
          competitors_table := competitors_table db |})
  | None =>
      let key := fresh (List.map BrandInsights.id (brand_insights db)) in
      let brand := created key insights now later in
      (brand,
       {| brand_insights := brand_insights db ++ [brand];
          products := add_products key (product_catalog insights) (products db);
          competitors_table := competitors_table db |})
  end.

(** [save_brand_insights]: the transaction is committed, or rolled back with
    [HTTPException(500)] when the database raises. *)
Definition save_brand_insights (db : Database) (insights : BrandInsightsModel)
    (now later : nat) : outcome BrandInsights.t * Database :=
  let (brand, db') := saved db insights now later in
  if accepts db db' then (Ok brand, db')
  else (Raise (HTTPException 500 "Database error occurred"), db).

End Operations.
End DatabaseOperations.

(* ================================================================= *)
(** ** The endpoints *)

Module Endpoints.
Import DatabaseOperations.

(** The answer of [get_stored_insights]. *)
Record Stored : Type := {
  brand : BrandInsights.t;
  stored_products : list Product.t;
  total_products : nat
}.

(** The answer of [list_all_brands]. *)
Record Brands : Type := {
  brands : list BrandInsights.t;
  total : nat
}.

Section Handlers.
Context {RT : Runtime} {EN : Engine}.

(** [POST /fetch-insights], for the string of the validated address: the
    insights are fetched, saved and returned.  The state is the list of
    requests with the content of the database. *)
Definition fetch_store_insights (fuel : nat) (W : World) (now later : nat)
    (website_url : string) (log : list string) (db : Database)
  : outcome BrandInsightsModel * (list string * Database) :=
  let fetcher := ShopifyInsightsFetcher.new fuel W in
  match ShopifyInsightsFetcher.fetch_store_insights fetcher website_url log with
  | (Ok insights, log') =>
      match save_brand_insights db insights now later with
      | (Ok _, db') => (Ok insights, (log', db'))
      | (Raise e, db') => (Raise e, (log', db'))
      | (Diverge, db') => (Diverge, (log', db'))
      end
  | (Raise e, log') => (Raise e, (log', db))
  | (Diverge, log') => (Diverge, (log', db))
  end.

(** [GET /insights/{website_url}] *)
Definition get_stored_insights (db : Database) (website_url : string)
  : outcome Stored :=
  match brand_of_url db website_url with
  | None => Raise (HTTPException 404 "Brand insights not found")
  | Some b =>
      let ps := products_of_brand db (BrandInsights.id b) in
      Ok {| brand := b; stored_products := ps; total_products := List.length ps |}
  end.

(** [GET /brands] *)
Definition list_all_brands (db : Database) : Brands :=
  let all := listed (brand_insights db) in
  {| brands := all; total := List.length all |}.

End Handlers.
End Endpoints.

(* ================================================================= *)
(** * The vocabulary of the statements *)

Import Json Bs4 ShopifyInsightsFetcher.

(** ** Brand name *)

(** The first element below [soup], in document order, that passes a
    test. *)
Definition first_element (test : node -> bool) (soup : node) : option node :=
  List.find test (descendants soup).

(** The candidates of the first three methods: the [content] of the first
    [meta] element whose [property] is [og:site_name]; the text of the first
    [title] element up to its first [|] or [-], stripped; the [alt] (empty
    when it has none) of the first [img] element whose [class] holds [logo]
    in letters of either case. *)
Definition site_name_candidate (soup : node) : option string :=
  match first_element
          (fun n => String.eqb (name_of n) "meta"
                    && match get n "property" with
                       | Some v => String.eqb v "og:site_name"
                       | None => false
                       end) soup with
  | Some meta => get meta "content"
  | None => None
  end.

Definition title_candidate (soup : node) : option string :=
  match first_element (fun n => String.eqb (name_of n) "title") soup with
  | Some title =>
      Some (PyStr.strip (until (Re.one_of "|-") (get_text title)))
  | None => None
  end.

Definition logo_candidate (soup : node) : option string :=
  match first_element
          (fun n => String.eqb (name_of n) "img"
                    && match get n "class" with
                       | Some v => PyStr.contains "logo" (PyStr.lower v)
                       | None => false
                       end) soup with
  | Some logo => Some (match get logo "alt" with
                       | Some alt => alt
                       | None => EmptyString
                       end)
  | None => None
  end.

(** The first label of a domain without [www.]: what stands before its
    first dot. *)
Definition first_label (domain : string) : string :=
  until (Ascii.eqb "."%char) (PyStr.replace "www." "" domain).

(** The first candidate that is a non-empty string. *)
Fixpoint first_truthy (candidates : list (option string)) : option string :=
  match candidates with
  | [] => None
  | c :: more => if falsy c then first_truthy more else c
  end.

(** ** Product catalog *)

(** The endpoint answers [url] with a dict whose [products] is the list
    [entries]. *)
Definition serves (W : World) (url : string) (entries : list value) : Prop :=
  exists d, get_json W url = Served (JDict d)
            /\ lookup "products" d = Some (JList entries).



(** ** Hero products *)

(** A list whose elements occur, in the same order, in another. *)
Inductive subseq {A : Type} : list A -> list A -> Prop :=
| subseq_nil : subseq [] []
| subseq_skip x l1 l2 : subseq l1 l2 -> subseq l1 (x :: l2)
| subseq_take x l1 l2 : subseq l1 l2 -> subseq (x :: l1) (x :: l2).

(** ** Social handles *)

(** The last element of a list, if it has one. *)
Fixpoint last_opt {A} (l : list A) : option A :=
  match l with
  | [] => None
  | x :: l' => match last_opt l' with
               | Some y => Some y
               | None => Some x
               end
  end.

Inductive platform : Type :=
| Instagram | Facebook | Twitter | Tiktok | Youtube | Linkedin.

Definition handle (p : platform) (h : SocialHandles) : option string :=
  match p with
  | Instagram => instagram h
  | Facebook => facebook h
  | Twitter => twitter h
  | Tiktok => tiktok h
  | Youtube => youtube h
  | Linkedin => linkedin h
  end.

Definition lowered_href (link : node) : string :=
  PyStr.lower (get_or_empty link "href").

(** The branch of the [if]/[elif] chain a link takes. *)
Definition assigned (link : node) : option platform :=
  let href := lowered_href link in
  if PyStr.contains "instagram.com" href then Some Instagram
  else if PyStr.contains "facebook.com" href then Some Facebook
  else if PyStr.contains "twitter.com" href || PyStr.contains "x.com" href
  then Some Twitter
  else if PyStr.contains "tiktok.com" href then Some Tiktok
  else if PyStr.contains "youtube.com" href then Some Youtube
  else if PyStr.contains "linkedin.com" href then Some Linkedin
  else None.

(** The anchors that are scanned: the [a] elements of the page, in document
    order, whose [href] holds one of the six domains as it is written. *)
Definition social_anchors (soup : node) : list node :=
  filter (fun n =>
            String.eqb (name_of n) "a"
            && match get n "href" with
               | Some href =>
                   PyStr.contains "instagram.com" href
                   || PyStr.contains "facebook.com" href
                   || PyStr.contains "twitter.com" href
                   || PyStr.contains "tiktok.com" href
                   || PyStr.contains "youtube.com" href
                   || PyStr.contains "linkedin.com" href
               | None => false
               end)
         (descendants soup).

Definition assigned_to (p : platform) (link : node) : bool :=
  match assigned link, p with
  | Some Instagram, Instagram
  | Some Facebook, Facebook
  | Some Twitter, Twitter
  | Some Tiktok, Tiktok
  | Some Youtube, Youtube
  | Some Linkedin, Linkedin => true
  | _, _ => false
  end.

(** ** Brand context *)

(** The text, joined with spaces, of the first element that each of the
    five about-like selectors finds, in the order of the selectors. *)
Definition about_texts (soup : node) : list string :=
  flat_map (fun sel => match select_one sel soup with
                       | Some section => [get_text_strip " " section]
                       | None => []
                       end)
           [ByClass "about"; ByClass "brand-story"; ByClass "our-story";
            ByClass "company-info"; ClassContains "about"].

(** The first [meta] element whose [name] is [description]. *)
Definition description_meta (soup : node) : option node :=
  first_element (fun n => String.eqb (name_of n) "meta"
                          && match get n "name" with
                             | Some v => String.eqb v "description"
                             | None => false
                             end)
                soup.

(** The context of a page: the first of those texts that is longer than 50
    characters, cut to 1000; without one, the content of the description
    meta element when that is longer than 50 characters. *)
Definition context_of (soup : node) : option string :=
  match List.find (fun text => 50 <? String.length text) (about_texts soup) with
  | Some text => Some (PyStr.take 1000 text)
  | None =>
      match description_meta soup with
      | Some meta =>
          match get meta "content" with
          | Some content =>
              if 50 <? String.length content then Some content else None
          | None => None
          end
      | None => None
      end
  end.

(** ** Important links *)

(** The five fields of [ImportantLinks], in the order of the [if]/[elif]
    chain, with the terms each branch looks for. *)
Inductive category : Type :=
| OrderTracking | ContactUs | Blogs | ShippingInfo | SizeGuide.

Definition categories : list category :=
  [OrderTracking; ContactUs; Blogs; ShippingInfo; SizeGuide].

Definition keywords (c : category) : list string :=
  match c with
  | OrderTracking => ["track"; "order"; "tracking"]
  | ContactUs => ["contact"; "contact us"]
  | Blogs => ["blog"; "news"; "articles"]
  | ShippingInfo => ["shipping"; "delivery"]
  | SizeGuide => ["size"; "guide"; "sizing"]
  end.

(** The place of a category in the chain. *)
Definition rank (c : category) : nat :=
  match c with
  | OrderTracking => 0
  | ContactUs => 1
  | Blogs => 2
  | ShippingInfo => 3
  | SizeGuide => 4
  end.

Definition field (c : category) (l : ImportantLinks) : option string :=
  match c with
  | OrderTracking => order_tracking l
  | ContactUs => contact_us l
  | Blogs => blogs l
  | ShippingInfo => shipping_info l
  | SizeGuide => size_guide l
  end.

(** The first category, in that order, one of whose terms occurs in the
    text. *)
Definition classify (text : string) : option category :=
  List.find (fun c => any_in (keywords c) text) categories.

Definition link_text (link : node) : string :=
  PyStr.strip (PyStr.lower (get_text link)).

Definition classified (c : category) (link : node) : bool :=
  match classify (link_text link), c with
  | Some OrderTracking, OrderTracking
  | Some ContactUs, ContactUs
  | Some Blogs, Blogs
  | Some ShippingInfo, ShippingInfo
  | Some SizeGuide, SizeGuide => true
  | _, _ => false
  end.

(** The address stored for a link: its [href], resolved against the base
    unless it starts with [http]. *)
Definition link_href {RT : Runtime} (base_url : string) (link : node)
  : result string :=
  let href := get_or_empty link "href" in
  if negb (PyStr.startswith "http" href) then urljoin base_url href
  else Returns href.

(** The address a resolution gave, if it gave one. *)
Definition resolved (r : result string) : option string :=
  match r with
  | Returns href => Some href
  | Throws _ _ => None
  end.

(** ** The orchestrator *)

(** What the request raises when its [try] block raises [e]: an
    [HTTPException] as it is, any other exception as [HTTPException(500)]
    with its message. *)
Definition raised_for (e : exn) : exn :=
  match e with
  | HTTPException status_code detail => HTTPException status_code detail
  | PyExn _ msg =>
      HTTPException 500 (String.append "Internal server error: " msg)
  end.

(** Every call of the [try] block returns, one after the other, each on the
    requests of those before it, and [agg] is built from what they return. *)
Definition all_return (self : Self) (url : string) (log : list string)
    (agg : BrandInsightsModel) (log' : list string) : Prop :=
  exists soup name catalog hero privacy refund fs social contact context links
         rivals l1 l2 l3 l4 l5 l6 l7 l8 l9 l10 l11,
    self_fetch_page self url log = (Ok soup, l1)
    /\ self_extract_brand_name self soup url l1 = (Ok name, l2)
    /\ self_fetch_product_catalog self url l2 = (Ok catalog, l3)
    /\ self_extract_hero_products self soup catalog l3 = (Ok hero, l4)
    /\ self_fetch_policy_content self url "privacy" l4 = (Ok privacy, l5)
    /\ self_fetch_policy_content self url "refund" l5 = (Ok refund, l6)
    /\ self_extract_faqs self soup l6 = (Ok fs, l7)
    /\ self_extract_social_handles self soup l7 = (Ok social, l8)
    /\ self_extract_contact_details self soup l8 = (Ok contact, l9)
    /\ self_extract_brand_context self soup l9 = (Ok context, l10)
    /\ self_extract_important_links self soup url l10 = (Ok links, l11)
    /\ self_search_competitors self name l11 = (Ok rivals, log')
    /\ agg = {| website_url := url;
                brand_name := Some name;
                product_catalog := catalog;
                hero_products := hero;
                privacy_policy := privacy;
                return_refund_policy := refund;
                faqs := fs;
                social_handles := social;
                contact_details := contact;
                brand_context := context;
                important_links := links;
                competitors := [] |}.

(** ** Product entries *)

(** An entry of the listing whose fields have the types the loop body
    reads: a dict whose [title] is a string, [None] or missing, whose
    [body_html] is a string or missing, whose [variants] is missing or a
    non-empty list of dicts, and whose [images] is missing or a list of dicts
    with a string (or no) [src]. *)
Definition title_ok (o : option value) : bool :=
  match o with
  | None | Some (JStr _) | Some JNone => true
  | _ => false
  end.

Definition body_ok (o : option value) : bool :=
  match o with
  | None | Some (JStr _) => true
  | _ => false
  end.

Definition is_dict (v : value) : bool :=
  match v with JDict _ => true | _ => false end.

Definition variants_ok (o : option value) : bool :=
  match o with
  | None => true
  | Some (JList (JDict _ :: more)) => forallb is_dict more
  | _ => false
  end.

Definition image_ok (img : value) : bool :=
  match img with
  | JDict d => match lookup "src" d with
               | None | Some (JStr _) => true
               | _ => false
               end
  | _ => false
  end.

Definition images_ok (o : option value) : bool :=
  match o with
  | None => true
  | Some (JList l) => forallb image_ok l
  | _ => false
  end.

Definition well_formed (product : value) : bool :=
  match product with
  | JDict d =>
      title_ok (lookup "title" d) && body_ok (lookup "body_html" d)
      && variants_ok (lookup "variants" d) && images_ok (lookup "images" d)
  | _ => false
  end.

(** The value a key has in a dict, or a default. *)
Definition value_or (d : list (string * value)) (key : string) (default : value)
  : value :=
  match lookup key d with Some x => x | None => default end.

(** The [src] an image contributes, and the dict a variant is. *)
Definition src_of (img : value) : string :=
  match img with
  | JDict d => match lookup "src" d with
               | Some (JStr s) => s
               | _ => EmptyString
               end
  | _ => EmptyString
  end.

Definition dict_of (v : value) : list (string * value) :=
  match v with JDict d => d | _ => [] end.

(** The markup of an entry: its [body_html], empty when missing. *)
Definition markup_of (d : list (string * value)) : string :=
  match lookup "body_html" d with
  | Some (JStr s) => s
  | _ => EmptyString
  end.

(** The model of an entry, read off its fields and the tree [html] its markup
    was parsed to: the identifier and the price are the strings of [id] and
    of the first variant's [price] (empty and [0] when missing), the
    description is the text of [html] cut to 500 characters, the images are
    the [src] of the entry's images in their order, and the variants are the
    entry's own dicts. *)
Definition read_off (RT : Runtime) (d : list (string * value)) (html : node)
    (m : ProductModel) : Prop :=
  id m = Some (py_str (value_or d "id" (JStr "")))
  /\ title m = match lookup "title" d with
               | Some (JStr s) => Some s
               | Some _ => None
               | None => Some EmptyString
               end
  /\ description m = Some (PyStr.take 500 (get_text html))
  /\ price m
     = Some (match lookup "variants" d with
             | Some (JList (JDict v :: _)) => py_str (value_or v "price" (JStr "0"))
             | _ => "0"
             end)
  /\ images m
     = Some (match lookup "images" d with
             | Some (JList l) => List.map src_of l
             | _ => []
             end)
  /\ exists ds, variants m = Some ds
                /\ List.map JDict ds
                   = match lookup "variants" d with
                     | Some (JList l) => l
                     | _ => []
                     end.

(** What every model of a catalog has: an identifier, a price, a list of
    images, and a description of at most 500 characters. *)
Definition complete (m : ProductModel) : Prop :=
  id m <> None /\ price m <> None /\ images m <> None
  /\ exists text, description m = Some text /\ String.length text <= 500.

(** The endpoint answers the request for [page] with a full page of
    entries that all have a model. *)
Definition full_page (RT : Runtime) (W : World) (base_url : string) (page : nat)
  : Prop :=
  exists entries models,
    serves W (products_url base_url page) entries
    /\ List.length entries = 250
    /\ omap product_model entries = Ok models.

(** ** Policies *)

(** The texts of a page that are looked at for a policy, in this order: the
    text of the first element of class [page-content], of class
    [main-content], of class [policy-content], named [article], named
    [main], of class [content], with identifier [content], for those that
    exist, and last the text of the whole page; each text is the strings
    stripped and joined by a space. *)
Definition policy_texts (soup : node) : list string :=
  flat_map (fun sel => match select_one sel soup with
                       | Some element => [get_text_strip " " element]
                       | None => []
                       end)
           [ByClass "page-content"; ByClass "main-content";
            ByClass "policy-content"; ByName "article"; ByName "main";
            ByClass "content"; ById "content"]
  ++ [get_text_strip " " soup].

(** The policy a page holds: the first of these texts that has more than 100
    characters, cut to 2000. *)
Definition policy_of (soup : node) : option string :=
  option_map (PyStr.take 2000)
             (List.find (fun text => 100 <? String.length text)
                        (policy_texts soup)).

(** What trying a path comes to: the address asked for, when [urljoin] gives
    one, and the policy of the page served there. *)
Definition asked {RT : Runtime} (base_url path : string) : list string :=
  match urljoin base_url path with
  | Returns url => [url]
  | Throws _ _ => []
  end.

Definition offered {RT : Runtime} (W : World) (base_url path : string)
  : option string :=
  match urljoin base_url path with
  | Returns url =>
      match get_html W url with
      | Served soup => policy_of soup
      | _ => None
      end
  | Throws _ _ => None
  end.

(** ** Exceptions *)

(** An exception that is not an [HTTPException]. *)
Definition internal (e : exn) : Prop := exists cls msg, e = PyExn cls msg.

(** A computation that raises internal exceptions only. *)
Definition raises_internal {A : Type} (o : outcome A) : Prop :=
  forall e, o = Raise e -> internal e.

(** ** The database *)

Section Tables.
Context {EN : Engine}.

(** No two rows of [brand_insights] hold the same address. *)
Definition unique_urls (db : Database) : Prop :=
  ForallOrdPairs (fun a b => same a b = false)
                 (List.map BrandInsights.website_url (brand_insights db)).

(** The primary keys of the two tables the program writes. *)
Definition unique_keys (db : Database) : Prop :=
  NoDup (List.map BrandInsights.id (brand_insights db))
  /\ NoDup (List.map Product.id (products db)).

(** The foreign key of [products]. *)
Definition referenced (db : Database) : Prop :=
  forall p, In p (products db) ->
    In (Product.brand_id p) (List.map BrandInsights.id (brand_insights db)).

Definition consistent (db : Database) : Prop :=
  unique_urls db /\ unique_keys db /\ referenced db.

End Tables.

(** The product a row of [products] holds. *)
Definition product_of (p : Product.t) : ProductModel :=
  {| id := Product.product_id p;
     title := Product.title p;
     description := Product.description p;
     price := Product.price p;
     images := Product.images p;
     variants := Product.variants p |}.

(** The row holds what the insights say, the catalog and the competitors
    apart. *)
Definition holds (b : BrandInsights.t) (insights : BrandInsightsModel) : Prop :=
  BrandInsights.brand_name b = brand_name insights
  /\ BrandInsights.hero_products b = hero_products insights
  /\ BrandInsights.privacy_policy b = privacy_policy insights
  /\ BrandInsights.return_refund_policy b = return_refund_policy insights
  /\ BrandInsights.faqs b = faqs insights
  /\ BrandInsights.social_handles b = social_handles insights
  /\ BrandInsights.contact_details b = contact_details insights
  /\ BrandInsights.brand_context b = brand_context insights
  /\ BrandInsights.important_links b = important_links insights.

(* ================================================================= *)
(** * Inputs *)



(** A product entry as the listing endpoint gives it, and its model. *)
Definition mug : value :=
  JDict [("id", JInt 7); ("title", JStr "Mug");
         ("variants", JList [JDict [("price", JStr "9.50")]])].

Definition mug_model : ProductModel :=
  {| id := Some "7"; title := Some "Mug"; description := Some "";
     price := Some "9.50"; images := Some [];
     variants := Some [[("price", JStr "9.50")]] |}.

(** A shop with 252 products: a full first page and a second page of two. *)
Definition two_page_shop : World := {|
  get_html := fun _ => Refused;
  get_json := fun url =>
    if String.eqb url "https://shop.example/products.json?limit=250&page=1"
    then Served (JDict [("products", JList (repeat mug 250))])
    else if String.eqb url "https://shop.example/products.json?limit=250&page=2"
    then Served (JDict [("products", JList [mug; mug])])
    else Refused
|}.

(** A reachable shop whose listing holds one product with an empty list of
    variants. *)
Definition no_variant_shop : World := {|
  get_html := fun url =>
    if String.eqb url "https://shop.example"
    then Served (Tag "[document]" [] [Tag "title" [] [Text "Shop"]])
    else Refused;
  get_json := fun url =>
    if String.eqb url "https://shop.example/products.json?limit=250&page=1"
    then Served (JDict [("products",
                       JList [JDict [("id", JInt 7); ("title", JStr "Mug");
                                     ("variants", JList [])]])])
    else Refused
|}.

(** A page whose only text is one short question with its answer. *)
Definition short_question_page : node :=
  Tag "[document]" [] [Tag "p" [] [Text "Q: Why? A: Because."]].

(** A page with two FAQ items, the second with a question of three
    characters, and a text the pattern would match. *)
Definition faq_page : node :=
  Tag "[document]" []
    [Tag "div" [("class", "faq-item")]
       [Tag "h3" [] [Text " Do you ship abroad? "];
        Tag "p" [] [Text "Yes, "; Tag "b" [] [Text "worldwide"]; Text "."]];
     Tag "div" [("class", "faq-item")]
       [Tag "h3" [] [Text "Why"]; Tag "p" [] [Text "Because."]];
     Tag "p" [] [Text "Q: Is it free? A: It is."]].

(** A page whose only anchor points to x.com. *)
Definition x_com_page : node :=
  Tag "[document]" []
    [Tag "a" [("href", "https://x.com/acme")] [Text "Follow us"]].

(** A page whose text holds one phone number twice, once at its start and
    once after a space. *)
Definition repeated_phone_page : node :=
  Tag "[document]" [] [Text "555-123-4567 555-123-4567"].

(** Seven different addresses in a text, two of them names of images. *)
Definition seven_emails_page : node :=
  Tag "[document]" []
    [Text "Write to ann@shop.example, bob@shop.example or cy@shop.example. ";
     Tag "img" [("alt", "logo@2x.png")] [];
     Text "logo@2x.png icon@3x.png dee@shop.example eve@shop.example"].

(** A text of [n] letters. *)
Definition letters (n : nat) : string :=
  string_of_list_ascii (repeat "a"%char n).

(** A page with no about-like section and a description of 1001 characters. *)
Definition long_description_page : node :=
  Tag "[document]" []
    [Tag "meta" [("name", "description"); ("content", letters 1001)] []].

(** A page whose about section holds 1200 characters. *)
Definition about_page : node :=
  Tag "[document]" []
    [Tag "div" [("class", "section about-us")] [Text (letters 1200)]].

(** A page with one anchor whose text holds a term of order tracking
    ([track]) and a term of shipping ([shipping]). *)
Definition track_shipping_page : node :=
  Tag "[document]" []
    [Tag "a" [("href", "https://acme.example/track")]
       [Text "Track your shipping"]].

(** The fields of an entry with every key the loop body reads. *)
Definition shirt_fields : list (string * value) :=
  [("id", JInt 42); ("title", JStr "Shirt");
   ("body_html", JStr "Soft cotton");
   ("variants", JList [JDict [("price", JStr "19.00")]; JDict [("sku", JStr "S")]]);
   ("images", JList [JDict [("src", JStr "https://cdn.example/shirt.png")];
                     JDict []])].

(** An entry whose list of variants is empty. *)
Definition bare : value :=
  JDict [("id", JInt 8); ("title", JStr "Bare"); ("variants", JList [])].

(** A shop whose every page is full. *)
Definition endless_shop : World := {|
  get_html := fun _ => Refused;
  get_json := fun _ => Served (JDict [("products", JList (repeat mug 250))])
|}.

(** A shop with a full first page and, on its second page, an entry without
    variants. *)
Definition flawed_shop : World := {|
  get_html := fun _ => Refused;
  get_json := fun url =>
    if String.eqb url "https://shop.example/products.json?limit=250&page=1"
    then Served (JDict [("products", JList (repeat mug 250))])
    else if String.eqb url "https://shop.example/products.json?limit=250&page=2"
    then Served (JDict [("products", JList [mug; bare; mug])])
    else Refused
|}.

(** A shop whose privacy policy stands at the second path tried: an
    [article] of 150 characters. *)
Definition policy_shop : World := {|
  get_html := fun url =>
    if String.eqb url "https://shop.example/privacy-policy"
    then Served (Tag "[document]" [] [Tag "article" [] [Text (letters 150)]])
    else Refused;
  get_json := fun _ => Refused
|}.

(** A reachable shop with one product. *)
Definition mug_shop : World := {|
  get_html := fun url =>
    if String.eqb url "https://shop.example"
    then Served (Tag "[document]" [] [Tag "title" [] [Text "Shop"]])
    else Refused;
  get_json := fun url =>
    if String.eqb url "https://shop.example/products.json?limit=250&page=1"
    then Served (JDict [("products", JList [mug])])
    else Refused
|}.

(** ** A database server to evaluate with *)

(** Addresses compared character by character, keys counted upwards, rows
    listed in the order of insertion and every transaction accepted.  It
    serves to run the definitions on concrete inputs. *)
Module Simple.

#[export, refine] Instance engine : Engine := {
  same := String.eqb;
  fresh := fun l => S (list_max l);
  listed := fun _ l => l;
  accepts := fun _ _ => true
}.
Proof.
  - exact String.eqb_refl.
  - exact String.eqb_sym.
  - intros a b c Hab Hbc. apply String.eqb_eq in Hab, Hbc. subst.
    apply String.eqb_refl.
  - intros l Hin.
    assert (Hle : forall k, In k l -> k <= list_max l).
    { clear Hin. induction l as [|x l IH]; simpl; intros k [].
      - subst. apply Nat.le_max_l.
      - etransitivity; [apply IH; assumption | apply Nat.le_max_r]. }
    apply Hle in Hin. lia.
  - intros A l. apply Permutation_refl.
Defined.

End Simple.

(** What was gathered from a shop with one product, and later from the same
    shop with two. *)
Definition gathered (product_catalog : list ProductModel) : BrandInsightsModel :=
  {| website_url := "https://shop.example";
     brand_name := Some "Shop";
     product_catalog := product_catalog;
     hero_products := [];
     privacy_policy := None;
     return_refund_policy := None;
     faqs := [];
     social_handles := {| instagram := None; facebook := None; twitter := None;
                          tiktok := None; youtube := None; linkedin := None |};
     contact_details := {| emails := []; phone_numbers := []; addresses := [] |};
     brand_context := None;
     important_links := {| order_tracking := None; contact_us := None;
                           blogs := None; shipping_info := None;
                           size_guide := None |};
     competitors := [] |}.

Definition empty_database : Database :=
  {| brand_insights := []; products := []; competitors_table := [] |}.

(** The database after the shop was saved with one product, the clock
    reading 10 and 11. *)
Definition shop_row : BrandInsights.t :=
  {| BrandInsights.id := 1;
     BrandInsights.website_url := "https://shop.example";
     BrandInsights.brand_name := Some "Shop";
     BrandInsights.hero_products := [];
     BrandInsights.privacy_policy := None;
     BrandInsights.return_refund_policy := None;
     BrandInsights.faqs := [];
     BrandInsights.social_handles := social_handles (gathered []);
     BrandInsights.contact_details := contact_details (gathered []);
     BrandInsights.brand_context := None;
     BrandInsights.important_links := important_links (gathered []);
     BrandInsights.created_at := 10;
     BrandInsights.updated_at := 11 |}.

Definition mug_row : Product.t :=
  {| Product.id := 1;
     Product.brand_id := 1;
     Product.product_id := Some "7";
     Product.title := Some "Mug";
     Product.description := Some "";
     Product.price := Some "9.50";
     Product.images := Some [];
     Product.variants := Some [[("price", JStr "9.50")]] |}.

Definition one_shop : Database :=
  {| brand_insights := [shop_row]; products := [mug_row];
     competitors_table := [] |}.

(* ================================================================= *)
(** * Properties *)

Arguments PyStr.take : simpl never.
Arguments PyStr.strip : simpl never.
Arguments PyStr.contains : simpl never.
Arguments PyStr.lower : simpl never.

(** ** The model on concrete inputs *)

(** The values are those Python gives for the same arguments. *)
Example split_products :
  PyStr.split "/products/" "https://acme.example/products/blue-mug?variant=1"
  = ["https://acme.example"; "blue-mug?variant=1"].
Proof. reflexivity. Qed.

Example handle_of_link :
  handle_of "https://acme.example/products/blue-mug?variant=1" = "blue-mug".
Proof. reflexivity. Qed.

Example replace_www : PyStr.replace "www." "" "www.acme-shop.com" = "acme-shop.com".
Proof. reflexivity. Qed.

Example netloc_of_url (RT : Runtime) :
  netloc "https://www.acme-shop.com/collections?page=2" = Ok "www.acme-shop.com"
  /\ netloc " HTTPS://user@Acme.example:80?q#f" = Ok "user@Acme.example:80"
  /\ netloc (String (ascii_of_nat 9) "ht" ++ String (ascii_of_nat 10) "tp://a.b/c")
     = Ok "a.b"
  /\ netloc (String (ascii_of_nat 133) "https://a.b") = Ok ""
  /\ netloc "1https://a.b" = Ok ""
  /\ netloc "https:a.b" = Ok ""
  /\ netloc "https://a]b.example" = Raise (ValueError "Invalid IPv6 URL").
Proof. repeat split; reflexivity. Qed.

Example products_url_page :
  products_url "https://shop.example/" 12
  = "https://shop.example/products.json?limit=250&page=12".
Proof. reflexivity. Qed.

Example findall_emails :
  Re.findall email_pattern "mail a.b@ex.com, logo@2x.png and x@y.co.uk; bad@x.c"
  = ["a.b@ex.com"; "logo@2x.png"; "x@y.co.uk"].
Proof. vm_compute. reflexivity. Qed.

Example findall_phones :
  Re.findall phone_pattern "Call +1 (555) 123-4567 or 5551234567x"
  = [" 5551234567"].
Proof. vm_compute. reflexivity. Qed.

Example findall_questions :
  Re.findall2 q_pattern "Q: Why is it so? A: Because. Q. How? a: somehow q: more? A. yes"
  = [("Why is it so?", "Because. "); ("How?", "somehow "); ("more?", "yes")].
Proof. vm_compute. reflexivity. Qed.

(** ** Lists, strings, sets and outcomes *)

Lemma firstn_incl {A} (n : nat) (l : list A) (x : A) :
  In x (firstn n l) -> In x l.
Proof.
  revert l; induction n as [|n IH]; intros [|y l]; simpl; try tauto.
  intros [H|H]; [now left | right; now apply IH].
Qed.

Lemma firstn_length_le {A} (n : nat) (l : list A) :
  List.length (firstn n l) <= n.
Proof. rewrite length_firstn. apply Nat.le_min_l. Qed.

Lemma firstn_NoDup {A} (n : nat) (l : list A) : NoDup l -> NoDup (firstn n l).
Proof.
  revert l; induction n as [|n IH]; intros [|y l] H; simpl; try constructor.
  - inversion H; subst. intro Hin. now apply firstn_incl in Hin.
  - inversion H; subst. now apply IH.
Qed.

Lemma flat_map_length_le {A B} (f : A -> list B) (l : list A) :
  (forall x, List.length (f x) <= 1) ->
  List.length (flat_map f l) <= List.length l.
Proof.
  intros Hf; induction l as [|x l IH]; simpl; [lia|].
  rewrite length_app. specialize (Hf x). lia.
Qed.

Lemma filter_Permutation {A} (f : A -> bool) (l l' : list A) :
  Permutation l l' -> Permutation (filter f l) (filter f l').
Proof.
  induction 1 as [|x l l' _ IH|x y l|l l' l'' _ IH1 _ IH2]; simpl.
  - constructor.
  - destruct (f x); [now constructor | assumption].
  - destruct (f x), (f y); try apply Permutation_refl. apply perm_swap.
  - now transitivity (filter f l').
Qed.

Lemma take_length_le (n : nat) (s : string) : String.length (PyStr.take n s) <= n.
Proof.
  revert s; induction n as [|n IH]; intros [|c s];
    unfold PyStr.take; fold PyStr.take; cbn [String.length]; try lia.
  specialize (IH s). lia.
Qed.

Lemma truthy_nonempty (s : string) : PyStr.truthy s = true <-> s <> EmptyString.
Proof. destruct s; simpl; split; congruence. Qed.

Lemma subseq_nil_l {A} (l : list A) : subseq [] l.
Proof. induction l; constructor; assumption. Qed.

Lemma subseq_filter {A} (f : A -> bool) (l : list A) : subseq (filter f l) l.
Proof.
  induction l as [|x l IH]; simpl; [constructor|].
  destruct (f x); constructor; assumption.
Qed.

Lemma subseq_firstn {A} (n : nat) (l : list A) : subseq (firstn n l) l.
Proof.
  revert l; induction n as [|n IH]; intros l; simpl; [apply subseq_nil_l|].
  destruct l; [constructor | apply subseq_take, IH].
Qed.

Lemma subseq_trans {A} (l1 l2 l3 : list A) :
  subseq l1 l2 -> subseq l2 l3 -> subseq l1 l3.
Proof.
  intros H12 H23; revert l1 H12.
  induction H23 as [|x l2 l3 H IH|x l2 l3 H IH]; intros l1 H12.
  - assumption.
  - constructor. now apply IH.
  - inversion H12; subst; constructor; now apply IH.
Qed.

Lemma find_all_In (p : node -> bool) (soup n : node) :
  In n (find_all p soup) -> p n = true.
Proof. unfold find_all. intros H. now apply filter_In in H. Qed.

Lemma set_add_In (x y : string) (s : list string) :
  In y (set_add x s) <-> y = x \/ In y s.
Proof.
  induction s as [|z s IH]; simpl.
  - intuition congruence.
  - destruct (String.eqb_spec x z) as [->|Hne]; simpl.
    + intuition congruence.
    + rewrite IH. intuition congruence.
Qed.

Lemma set_add_NoDup (x : string) (s : list string) :
  NoDup s -> NoDup (set_add x s).
Proof.
  induction s as [|y s IH]; intros H; simpl.
  - repeat constructor. intros [].
  - destruct (String.eqb_spec x y) as [->|Hne]; [assumption|].
    inversion H; subst. constructor; [|now apply IH].
    rewrite set_add_In. intros [->|Hin]; [now apply Hne | contradiction].
Qed.

Lemma set_of_from (l acc : list string) :
  NoDup acc ->
  NoDup (fold_left (fun s x => set_add x s) l acc)
  /\ forall x, In x (fold_left (fun s x => set_add x s) l acc)
               <-> In x acc \/ In x l.
Proof.
  revert acc; induction l as [|y l IH]; intros acc Hacc; simpl.
  - split; [assumption | intros x; tauto].
  - destruct (IH (set_add y acc) (set_add_NoDup y acc Hacc)) as [Hnd Hin].
    split; [assumption|]. intros x. rewrite Hin, set_add_In.
    intuition congruence.
Qed.

Lemma set_of_NoDup (l : list string) : NoDup (set_of l).
Proof. apply set_of_from. constructor. Qed.

Lemma set_of_In (l : list string) (x : string) : In x (set_of l) <-> In x l.
Proof.
  unfold set_of. destruct (set_of_from l [] (NoDup_nil _)) as [_ H].
  rewrite H. simpl. tauto.
Qed.

Lemma omap_app {A B} (f : A -> outcome B) (l1 l2 : list A) (ys : list B) :
  omap f (l1 ++ l2) = Ok ys ->
  exists ys1 ys2, omap f l1 = Ok ys1 /\ omap f l2 = Ok ys2 /\ ys = ys1 ++ ys2.
Proof.
  revert ys; induction l1 as [|x l1 IH]; intros ys; simpl.
  - intros H. now exists [], ys.
  - destruct (f x) as [y| |]; try discriminate.
    destruct (omap f (l1 ++ l2)) as [ys'| |] eqn:H'; try discriminate.
    intros [= <-]. destruct (IH ys' eq_refl) as [ys1 [ys2 [H1 [H2 ->]]]].
    exists (y :: ys1), ys2. now rewrite H1.
Qed.


Lemma get_dict (d : list (string * value)) (key : string) (default : value) :
  Json.get (JDict d) key default
  = Ok (match lookup key d with Some x => x | None => default end).
Proof. unfold Json.get. destruct (lookup key d); reflexivity. Qed.

Lemma bind_Ok_inv {A B} (m : M A) (k : A -> M B) (log log' : list string) (b : B) :
  bind m k log = (Ok b, log') ->
  exists a l, m log = (Ok a, l) /\ k a l = (Ok b, log').
Proof.
  unfold bind. destruct (m log) as [[a|e|] l]; try discriminate.
  intros H. now exists a, l.
Qed.

Lemma bind_Ok {A B} (m : M A) (k : A -> M B) (log l : list string) (a : A) :
  m log = (Ok a, l) -> bind m k log = k a l.
Proof. unfold bind. now intros ->. Qed.


(** ** [extract_brand_name] *)

Lemma rev_onto_until (c : ascii) (s cur : string) :
  PyStr.first (PyStr.split_from (String c EmptyString) 0 cur s)
  = PyStr.rev_onto cur (until (Ascii.eqb c) s).
Proof.
  revert cur; induction s as [|a s IH]; intros cur; [reflexivity|].
  cbn [PyStr.split_from PyStr.startswith until].
  destruct (Ascii.eqb c a); cbn [andb]; [reflexivity|].
  rewrite IH. reflexivity.
Qed.

Lemma split_first (c : ascii) (s : string) :
  PyStr.first (PyStr.split (String c EmptyString) s) = until (Ascii.eqb c) s.
Proof. unfold PyStr.split. now rewrite rev_onto_until. Qed.

Lemma until_until (p q : ascii -> bool) (s : string) :
  until p (until q s) = until (fun c => q c || p c) s.
Proof.
  induction s as [|a s IH]; [reflexivity|]. cbn [until].
  destruct (q a); cbn [orb until]; [reflexivity|].
  destruct (p a); [reflexivity | now rewrite IH].
Qed.

(** The title up to its first [|] or [-], stripped. *)
Lemma title_brand_until (title : node) :
  title_brand title
  = PyStr.strip (until (Re.one_of "|-") (get_text title)).
Proof.
  unfold title_brand. rewrite !split_first, until_until. f_equal.
  induction (get_text title) as [|a s IH]; [reflexivity|]. cbn [until].
  unfold Re.one_of at 1. cbn [list_ascii_of_string existsb].
  rewrite (Ascii.eqb_sym a "|"), (Ascii.eqb_sym a "-"), orb_false_r.
  destruct (_ || _); [reflexivity | now rewrite IH].
Qed.

Lemma find_first_element (p q : node -> bool) (soup : node) :
  (forall n, p n = q n) -> find p soup = first_element q soup.
Proof.
  intros H. unfold find, find_all, first_element.
  induction (descendants soup) as [|n l IH]; [reflexivity|].
  cbn [filter List.find]. rewrite <- H. destruct (p n); [reflexivity | exact IH].
Qed.


Lemma netloc_returns (RT : Runtime) (url : string) : netloc url <> Diverge.
Proof.
  unfold netloc. destruct (PyStr.startswith "//" _); [|discriminate].
  destruct (xorb _ _); [discriminate|].
  destruct (_ && _); [|discriminate].
  destruct (check_bracketed_netloc _); discriminate.
Qed.

Lemma domain_label_first (domain : string) :
  domain_label domain = first_label domain.
Proof. unfold domain_label, first_label. apply split_first. Qed.

Section BrandName.
Context {RT : Runtime}.

(** What the function computes, in terms of the candidates. *)
Lemma extract_brand_name_chain (soup : node) (url : string) :
  extract_brand_name soup url
  = match first_truthy [site_name_candidate soup; title_candidate soup;
                        logo_candidate soup] with
    | Some name => Ok name
    | None =>
        domain <- netloc url ;;
        Ok (let brand := PyStr.capitalize (first_label domain) in
            if PyStr.truthy brand then brand else "Unknown Brand")
    end.
Proof.
  unfold extract_brand_name, site_name_candidate, title_candidate,
    logo_candidate, domain_brand.
  rewrite (find_first_element is_site_name_meta
             (fun n => String.eqb (name_of n) "meta"
                       && match get n "property" with
                          | Some v => String.eqb v "og:site_name"
                          | None => false
                          end)) by reflexivity.
  rewrite (find_first_element (named "title")
             (fun n => String.eqb (name_of n) "title")) by reflexivity.
  rewrite (find_first_element is_logo_img
             (fun n => String.eqb (name_of n) "img"
                       && match get n "class" with
                          | Some v => PyStr.contains "logo" (PyStr.lower v)
                          | None => false
                          end)) by reflexivity.
  unfold first_element.
  repeat match goal with
         | |- context [List.find ?f (descendants soup)] =>
             let o := fresh "o" in
             generalize (List.find f (descendants soup)); intro o
         end.
  destruct o as [x|], o0 as [y|], o1 as [z|];
    rewrite ?title_brand_until; unfold get_or_empty;
    repeat (cbn [first_truthy falsy PyStr.truthy negb obind];
            match goal with
            | |- context [get ?m ?k] => destruct (get m k) as [[|? ?]|]
            | |- context [PyStr.strip ?t] => destruct (PyStr.strip t) as [|? ?]
            | |- context [netloc url] =>
                destruct (netloc url) as [domain| |]; cbn [obind];
                rewrite ?domain_label_first
            | |- context [PyStr.capitalize ?t] => destruct (PyStr.capitalize t)
            end);
    reflexivity.
Qed.


End BrandName.


(** ** [fetch_product_catalog] *)


Section Catalog.
Context {RT : Runtime}.




(** C10.  The price of a product entry is read from the first element of
    its [variants]: an entry without the key gets the price [0] (the default
    is the list of one empty dict), and so does an entry whose first variant
    has no [price].  For a [variants] that is a list, indexing its first
    element succeeds exactly when the list is not empty; with the empty list
    it raises [IndexError], the price and the whole product model with it.
    So a product model is only obtained from entries whose [variants], when
    present as a list, is not empty, and the entry whose [variants] is [[]]
    is one for which the index is out of range. *)
Theorem first_variant_price_spec (d : list (string * value)) :
  (lookup "variants" d = None -> first_variant_price (JDict d) = Ok "0")
  /\ (forall v rest,
        lookup "variants" d = Some (JList (JDict v :: rest)) ->
        first_variant_price (JDict d)
        = Ok (match lookup "price" v with
              | Some p => py_str p
              | None => "0"
              end))
  /\ (forall vs, (exists v0, index0 (JList vs) = Ok v0) <-> vs <> [])
  /\ (forall vs, index0 (JList vs) = Raise (IndexError "list") <-> vs = [])
  /\ (lookup "variants" d = Some (JList []) ->
        first_variant_price (JDict d) = Raise (IndexError "list")
        /\ exists e, product_model (JDict d) = Raise e)
  /\ (forall vs m,
        lookup "variants" d = Some (JList vs) ->
        product_model (JDict d) = Ok m -> vs <> [])
  /\ product_model (JDict [("id", JInt 7); ("title", JStr "Mug");
                           ("variants", JList [])])
     = Raise (PyExn "IndexError" "list index out of range").
Proof.
  assert (Hempty : lookup "variants" d = Some (JList []) ->
                   first_variant_price (JDict d) = Raise (IndexError "list")).
  { intros H. unfold first_variant_price. cbn [Json.get obind]. now rewrite H. }
  assert (Hmodel : lookup "variants" d = Some (JList []) ->
                   exists e, product_model (JDict d) = Raise e).
  { intros H. unfold product_model. rewrite !get_dict. cbn [obind].
    destruct (BeautifulSoup _) as [html|e|] eqn:Hb; cbn [obind].
    - rewrite (Hempty H). eexists; reflexivity.
    - eexists; reflexivity.
    - unfold BeautifulSoup in Hb.
      destruct (match lookup "body_html" d with Some x => x | None => _ end);
        try discriminate.
      destruct (parse_html s); discriminate. }
  split; [|split; [|split; [|split; [|split; [|split]]]]].
  - intros H. unfold first_variant_price. cbn [Json.get obind]. now rewrite H.
  - intros v rest H. unfold first_variant_price. cbn [Json.get obind].
    rewrite H. cbn [index0 obind Json.get].
    destruct (lookup "price" v); reflexivity.
  - intros vs; split.
    + intros [v0 H] ->. discriminate.
    + intros H. destruct vs as [|v0 vs]; [congruence|]. now exists v0.
  - intros vs; split.
    + destruct vs; [reflexivity | discriminate].
    + intros ->. reflexivity.
  - intros H. split; [now apply Hempty | now apply Hmodel].
  - intros vs m H Hm ->. destruct (Hmodel H) as [e He]. congruence.
  - unfold product_model. cbn [Json.get lookup String.eqb Ascii.eqb Bool.eqb obind].
    unfold BeautifulSoup. rewrite parse_html_empty. reflexivity.
Qed.

End Catalog.



(** ** [extract_hero_products] *)

Section HeroProducts.
Context {RT : Runtime}.

Lemma match_products_spec (handles : list string) (all acc : list ProductModel) :
  List.length acc < 6 ->
  match_products handles all acc
  = acc ++ firstn (6 - List.length acc) (filter (title_matches handles) all).
Proof.
  revert acc; induction all as [|p all IH]; intros acc Hacc.
  - simpl. now rewrite firstn_nil, app_nil_r.
  - cbn [match_products filter]. destruct (title_matches handles p) eqn:Hp.
    + cbv zeta.
      destruct (Nat.leb_spec 6 (List.length (acc ++ [p]))) as [Hfull|Hfull];
        rewrite length_app in Hfull; cbn [List.length] in Hfull.
      * replace (6 - List.length acc) with 1 by lia. reflexivity.
      * rewrite IH by (rewrite length_app; cbn [List.length]; lia).
        rewrite length_app; cbn [List.length].
        replace (6 - List.length acc) with (S (6 - (List.length acc + 1))) by lia.
        cbn [firstn]. now rewrite <- app_assoc.
    + now apply IH.
Qed.

Lemma extract_hero_products_eq (soup : node) (all_products : list ProductModel) :
  extract_hero_products soup all_products
  = firstn 6 (filter
                (title_matches
                   (collect_handles (firstn 10 (find_all is_product_link soup))))
                all_products).
Proof.
  unfold extract_hero_products. rewrite match_products_spec by (simpl; lia).
  reflexivity.
Qed.

Lemma collect_handles_from (links : list node) (acc : list string) (h : string) :
  In h (fold_left (fun product_handles link =>
                     let href := get_or_empty link "href" in
                     if PyStr.contains "/products/" href
                     then set_add (handle_of href) product_handles
                     else product_handles) links acc)
  <-> In h acc
      \/ exists link, In link links
           /\ PyStr.contains "/products/" (get_or_empty link "href") = true
           /\ h = handle_of (get_or_empty link "href").
Proof.
  revert acc; induction links as [|l links IH]; intros acc; simpl.
  - split; [tauto | intros [H|[x [[] _]]]; exact H].
  - rewrite IH.
    destruct (PyStr.contains "/products/" (get_or_empty l "href")) eqn:Hc.
    + rewrite set_add_In. split.
      * intros [[->|H]|[x [H1 H2]]]; eauto 6.
      * intros [H|[x [[->|H1] [H2 ->]]]]; eauto 7.
    + split.
      * intros [H|[x [H1 H2]]]; eauto 6.
      * intros [H|[x [[->|H1] [H2 H3]]]]; [tauto|congruence|eauto 6].
Qed.

(** C3.  The hero products are at most six, each is an element of the
    catalog, they stand in catalog order (they are the first six products of
    the catalog whose title matches a handle), the handles are exactly those
    of the first ten anchors whose [href] contains [/products/], and a page
    that agrees on these ten anchors yields the same hero products. *)
Theorem extract_hero_products_spec (soup : node) (all_products : list ProductModel) :
  let hero := extract_hero_products soup all_products in
  let links := find_all is_product_link soup in
  let handles := collect_handles (firstn 10 links) in
  List.length hero <= 6
  /\ (forall p, In p hero -> In p all_products)
  /\ subseq hero all_products
  /\ hero = firstn 6 (filter (title_matches handles) all_products)
  /\ (forall link, In link links ->
        named "a" link = true /\ attr_has "href" "/products/" link = true)
  /\ (forall h, In h handles <->
        exists link, In link (firstn 10 links)
                     /\ h = handle_of (get_or_empty link "href"))
  /\ (forall soup', firstn 10 (find_all is_product_link soup') = firstn 10 links ->
        extract_hero_products soup' all_products = hero).
Proof.
  intros hero links handles.
  assert (Heq : hero = firstn 6 (filter (title_matches handles) all_products))
    by apply extract_hero_products_eq.
  repeat split.
  - rewrite Heq. apply firstn_length_le.
  - intros p Hp. rewrite Heq in Hp. apply firstn_incl in Hp.
    apply filter_In in Hp. tauto.
  - rewrite Heq. eapply subseq_trans; [apply subseq_firstn | apply subseq_filter].
  - exact Heq.
  - apply find_all_In in H. unfold is_product_link in H.
    apply andb_true_iff in H. tauto.
  - apply find_all_In in H. unfold is_product_link in H.
    apply andb_true_iff in H. tauto.
  - intros Hin. unfold handles, collect_handles in Hin.
    apply collect_handles_from in Hin. destruct Hin as [[]|[l [H1 [_ H2]]]].
    eauto.
  - intros [l [H1 H2]]. unfold handles, collect_handles.
    apply collect_handles_from. right. exists l. repeat split; try assumption.
    apply firstn_incl in H1. apply find_all_In in H1.
    unfold is_product_link, attr_has in H1. apply andb_true_iff in H1.
    destruct H1 as [_ H1]. unfold get_or_empty.
    destruct (get l "href"); [assumption | discriminate].
  - intros soup' Hs. unfold hero. rewrite !extract_hero_products_eq.
    unfold links in Hs. now rewrite Hs.
Qed.

End HeroProducts.

(** ** [extract_faqs] *)

Lemma element_faq_accepts (element : node) (f : FAQ) :
  In f (element_faq element) ->
  question f <> EmptyString /\ answer f <> EmptyString
  /\ 10 < String.length (question f).
Proof.
  unfold element_faq.
  destruct (find (named_any question_names) element) as [q|]; [|intros []].
  destruct (find (named_any answer_names) element) as [a|]; [|intros []].
  destruct (PyStr.truthy (get_text_strip "" q) && PyStr.truthy (get_text_strip "" a)
            && (10 <? String.length (get_text_strip "" q))) eqn:H; [|intros []].
  apply andb_true_iff in H; destruct H as [H Hlen].
  apply andb_true_iff in H; destruct H as [Hq Ha].
  intros [<-|[]]; cbn [question answer]. repeat split.
  - now apply truthy_nonempty.
  - now apply truthy_nonempty.
  - now apply Nat.ltb_lt.
Qed.

Lemma match_faq_accepts (m : string * string) (f : FAQ) :
  In f (match_faq m) ->
  question f <> EmptyString /\ answer f <> EmptyString
  /\ question f = PyStr.strip (fst m)
  /\ String.length (answer f) <= 300.
Proof.
  unfold match_faq.
  destruct (PyStr.truthy (PyStr.strip (fst m))
            && PyStr.truthy (PyStr.take 300 (PyStr.strip (snd m)))) eqn:H;
    [|intros []].
  apply andb_true_iff in H; destruct H as [Hq Ha].
  intros [<-|[]]; cbn [question answer]. repeat split.
  - now apply truthy_nonempty.
  - now apply truthy_nonempty.
  - apply take_length_le.
Qed.

Lemma match_faq_length (m : string * string) : List.length (match_faq m) <= 1.
Proof.
  unfold match_faq.
  destruct (PyStr.truthy _ && PyStr.truthy _); simpl; lia.
Qed.

Lemma structured_faqs_accept (soup : node) (f : FAQ) :
  In f (structured_faqs soup) ->
  question f <> EmptyString /\ answer f <> EmptyString
  /\ 10 < String.length (question f).
Proof.
  unfold structured_faqs. intros H.
  apply in_flat_map in H; destruct H as [sel [_ H]].
  apply in_flat_map in H; destruct H as [el [_ H]].
  now apply element_faq_accepts in H.
Qed.

Lemma pattern_faqs_accept (soup : node) (f : FAQ) :
  In f (pattern_faqs soup) ->
  question f <> EmptyString /\ answer f <> EmptyString
  /\ String.length (answer f) <= 300.
Proof.
  unfold pattern_faqs. intros H.
  apply in_flat_map in H; destruct H as [m [_ H]].
  apply match_faq_accepts in H. tauto.
Qed.

Lemma pattern_faqs_length (soup : node) : List.length (pattern_faqs soup) <= 10.
Proof.
  unfold pattern_faqs.
  etransitivity; [apply flat_map_length_le, match_faq_length|].
  apply firstn_length_le.
Qed.

(** C5, at the failing input.  No structural selector matches on the page,
    the pattern finds the pair, and the FAQ is returned although its
    question, trimmed, has 4 characters: the fallback applies no test of the
    length, which the structural branch does. *)
Lemma extract_faqs_short_question :
  extract_faqs short_question_page
  = [{| question := "Why?"; answer := "Because." |}]
  /\ String.length (PyStr.strip "Why?") = 4.
Proof. split; vm_compute; reflexivity. Qed.

(** At most 15 FAQs are returned, each with a non-empty question and a
    non-empty answer.  When the structural selectors yield FAQs these are
    the ones returned and every question is longer than 10 characters;
    otherwise the FAQs come from at most 10 matches of the pattern, and
    their answers have at most 300 characters (their questions are only
    known to be non-empty).  On a page with two FAQ items and a text the
    pattern matches, the item with the long question is the one FAQ
    returned, its texts stripped and joined without separator. *)
Theorem extract_faqs_spec (soup : node) :
  List.length (extract_faqs soup) <= 15
  /\ (forall f, In f (extract_faqs soup) ->
        question f <> EmptyString /\ answer f <> EmptyString)
  /\ (structured_faqs soup <> [] ->
        extract_faqs soup = firstn 15 (structured_faqs soup)
        /\ forall f, In f (extract_faqs soup) -> 10 < String.length (question f))
  /\ (structured_faqs soup = [] ->
        extract_faqs soup = pattern_faqs soup
        /\ List.length (extract_faqs soup) <= 10
        /\ forall f, In f (extract_faqs soup) -> String.length (answer f) <= 300)
  /\ extract_faqs faq_page
     = [{| question := "Do you ship abroad?"; answer := "Yes,worldwide." |}].
Proof.
  assert (Hpage : extract_faqs faq_page
                  = [{| question := "Do you ship abroad?";
                        answer := "Yes,worldwide." |}])
    by (vm_compute; reflexivity).
  revert Hpage. generalize faq_page as page. intros page Hpage.
  assert (Hpat : structured_faqs soup = [] -> extract_faqs soup = pattern_faqs soup).
  { intros H. unfold extract_faqs. rewrite H.
    apply firstn_all2. pose proof (pattern_faqs_length soup). lia. }
  assert (Hstr : structured_faqs soup <> [] ->
                 extract_faqs soup = firstn 15 (structured_faqs soup)).
  { intros H. unfold extract_faqs. destruct (structured_faqs soup); congruence. }
  split; [unfold extract_faqs; apply firstn_length_le|].
  split; [|split; [|split; [|exact Hpage]]].
  - intros f Hf. destruct (structured_faqs soup) as [|f0 l] eqn:Hs.
    + rewrite (Hpat eq_refl) in Hf. apply pattern_faqs_accept in Hf. tauto.
    + rewrite Hstr in Hf by congruence. apply firstn_incl in Hf.
      rewrite <- Hs in Hf. apply structured_faqs_accept in Hf. tauto.
  - intros H. split; [now apply Hstr|].
    intros f Hf. rewrite (Hstr H) in Hf. apply firstn_incl in Hf.
    apply structured_faqs_accept in Hf. tauto.
  - intros H. split; [now apply Hpat|]. rewrite (Hpat H). split.
    + apply pattern_faqs_length.
    + intros f Hf. apply pattern_faqs_accept in Hf. tauto.
Qed.

(** ** [extract_social_handles] *)

(** C7, at the failing input.  The anchor's [href] contains [x.com], the
    branch that assigns [twitter] would accept it, but the anchor is not among
    those [find_all] returns: no handle is set. *)
Lemma extract_social_handles_x_com :
  PyStr.contains "x.com" (PyStr.lower "https://x.com/acme") = true
  /\ find_all is_social_link x_com_page = []
  /\ twitter (social_step SocialHandles_init
                (Tag "a" [("href", "https://x.com/acme")] [Text "Follow us"]))
     = Some "https://x.com/acme"
  /\ extract_social_handles x_com_page = SocialHandles_init.
Proof. repeat split; vm_compute; reflexivity. Qed.

Lemma social_step_handle (h : SocialHandles) (link : node) (p : platform) :
  handle p (social_step h link)
  = if assigned_to p link then Some (lowered_href link) else handle p h.
Proof.
  unfold social_step, assigned_to, assigned, lowered_href.
  destruct (PyStr.contains "instagram.com" _); [destruct p; reflexivity|].
  destruct (PyStr.contains "facebook.com" _); [destruct p; reflexivity|].
  destruct (PyStr.contains "twitter.com" _ || PyStr.contains "x.com" _);
    [destruct p; reflexivity|].
  destruct (PyStr.contains "tiktok.com" _); [destruct p; reflexivity|].
  destruct (PyStr.contains "youtube.com" _); [destruct p; reflexivity|].
  destruct (PyStr.contains "linkedin.com" _); destruct p; reflexivity.
Qed.

Lemma social_fold_handle (links : list node) (h : SocialHandles) (p : platform) :
  handle p (fold_left social_step links h)
  = match last_opt (filter (assigned_to p) links) with
    | Some link => Some (lowered_href link)
    | None => handle p h
    end.
Proof.
  revert h; induction links as [|link links IH]; intros h; [reflexivity|].
  cbn [fold_left filter]. rewrite IH, social_step_handle.
  destruct (assigned_to p link); cbn [last_opt];
    destruct (last_opt (filter (assigned_to p) links)); reflexivity.
Qed.

Lemma find_all_social_anchors (soup : node) :
  find_all is_social_link soup = social_anchors soup.
Proof.
  unfold find_all, social_anchors. apply filter_ext. intros n.
  unfold is_social_link, named, social_domains. cbn [existsb].
  destruct (get n "href"); [|reflexivity].
  now rewrite orb_false_r, !orb_assoc.
Qed.

(** The anchors scanned are all the [a] elements of the page whose [href],
    as written, contains one of the six domains, in document order, and no
    other element; each platform gets the lower-cased [href] of the last of
    them that takes its branch, and stays absent when none does. *)
Theorem extract_social_handles_last (soup : node) (p : platform) :
  handle p (extract_social_handles soup)
  = option_map lowered_href
      (last_opt (filter (assigned_to p) (social_anchors soup)))
  /\ (forall link,
        In link (social_anchors soup)
        <-> In link (descendants soup)
            /\ name_of link = "a"
            /\ exists href,
                 get link "href" = Some href
                 /\ (PyStr.contains "instagram.com" href = true
                     \/ PyStr.contains "facebook.com" href = true
                     \/ PyStr.contains "twitter.com" href = true
                     \/ PyStr.contains "tiktok.com" href = true
                     \/ PyStr.contains "youtube.com" href = true
                     \/ PyStr.contains "linkedin.com" href = true))
  /\ (filter (assigned_to p) (social_anchors soup) = [] ->
      handle p (extract_social_handles soup) = None).
Proof.
  assert (H : handle p (extract_social_handles soup)
              = option_map lowered_href
                  (last_opt (filter (assigned_to p) (social_anchors soup)))).
  { unfold extract_social_handles.
    rewrite social_fold_handle, find_all_social_anchors.
    destruct (last_opt _); [reflexivity | destruct p; reflexivity]. }
  split; [exact H|]. split.
  - intros link. unfold social_anchors. rewrite filter_In, andb_true_iff.
    rewrite String.eqb_eq.
    destruct (get link "href") as [href|].
    + rewrite !orb_true_iff. split.
      * intros (Hin & Ha & Hd). split; [exact Hin|]. split; [exact Ha|].
        exists href. split; [reflexivity | tauto].
      * intros (Hin & Ha & href' & [= <-] & Hd). tauto.
    + split.
      * intros (_ & _ & Hf). discriminate.
      * intros (_ & _ & href & Hf & _). discriminate.
  - intros Hnone. rewrite H, Hnone. reflexivity.
Qed.

(** ** [extract_contact_details] *)

Section ContactDetails.
Context {RT : Runtime}.

Lemma set_iter_NoDup (l : list string) : NoDup (set_iter (set_of l)).
Proof.
  eapply Permutation_NoDup; [apply set_iter_perm | ]; apply set_of_NoDup.
Qed.

Lemma set_iter_In (l : list string) (x : string) :
  In x (set_iter (set_of l)) <-> In x l.
Proof.
  pose proof (set_iter_perm _ (set_of_NoDup l)) as Hp. split; intros H.
  - apply set_of_In. exact (Permutation_in _ (Permutation_sym Hp) H).
  - apply (Permutation_in _ Hp). now apply set_of_In.
Qed.

Lemma emails_all_kept (found : list string) :
  let kept := filter (fun email => negb (is_image_name email)) (set_of found) in
  List.length kept <= 5 ->
  Permutation kept
    (firstn 5 (filter (fun email => negb (is_image_name email))
                      (set_iter (set_of found)))).
Proof.
  intros kept Hlen.
  assert (Hp : Permutation kept
                 (filter (fun email => negb (is_image_name email))
                         (set_iter (set_of found)))).
  { apply filter_Permutation, set_iter_perm, set_of_NoDup. }
  rewrite firstn_all2; [exact Hp|].
  rewrite <- (Permutation_length Hp). exact Hlen.
Qed.

(** C9, at the failing input.  The pattern matches the number once without
    and once with the space before it; the two matches are different members
    of the set, and stripped they are the same entry twice, in whichever
    order the set is iterated. *)
Lemma extract_contact_details_repeated_phone :
  Re.findall phone_pattern (get_text repeated_phone_page)
  = ["555-123-4567"; " 555-123-4567"]
  /\ phone_numbers (extract_contact_details repeated_phone_page)
     = ["555-123-4567"; "555-123-4567"].
Proof.
  split; [vm_compute; reflexivity|].
  unfold extract_contact_details; cbn [phone_numbers].
  replace (set_of (Re.findall phone_pattern (get_text repeated_phone_page)))
    with ["555-123-4567"; " 555-123-4567"] by (vm_compute; reflexivity).
  assert (Hnd : NoDup ["555-123-4567"; " 555-123-4567"]).
  { repeat constructor; simpl; intuition discriminate. }
  destruct (Permutation_length_2_inv (set_iter_perm _ Hnd)) as [-> | ->];
    vm_compute; reflexivity.
Qed.

(** At most 5 emails and 3 phone numbers are returned.  The emails are
    matches of the pattern, pairwise different, none ending in [.png],
    [.jpg] or [.gif]; when the text holds at most 5 different matches that
    are not such names, all of them are returned.  Every phone number is a
    match of the phone pattern, stripped. *)
Theorem extract_contact_details_spec (soup : node) :
  let found := Re.findall email_pattern (get_text soup) in
  let kept := filter (fun email => negb (is_image_name email)) (set_of found) in
  let details := extract_contact_details soup in
  List.length (emails details) <= 5
  /\ List.length (phone_numbers details) <= 3
  /\ NoDup (emails details)
  /\ (forall email, In email (emails details) ->
        In email found /\ is_image_name email = false)
  /\ (List.length kept <= 5 -> Permutation kept (emails details))
  /\ (forall phone, In phone (phone_numbers details) ->
        exists m, In m (Re.findall phone_pattern (get_text soup))
                  /\ phone = PyStr.strip m)
  /\ addresses details = [].
Proof.
  intros found kept details. unfold details, extract_contact_details.
  cbn [emails phone_numbers addresses]. fold found.
  split; [apply firstn_length_le|]. split; [apply firstn_length_le|].
  split; [apply firstn_NoDup, NoDup_filter, set_iter_NoDup|].
  split; [|split; [|split; [|reflexivity]]].
  - intros email H. apply firstn_incl, filter_In in H. destruct H as [H1 H2].
    apply (proj1 (set_iter_In _ _)) in H1. apply negb_true_iff in H2.
    split; [exact H1 | exact H2].
  - apply emails_all_kept.
  - intros phone H. apply firstn_incl, in_map_iff in H.
    destruct H as [m [<- Hm]]. apply (proj1 (set_iter_In _ _)) in Hm. eauto.
Qed.

End ContactDetails.

(** When the matches of the email pattern in the text of a page are, without
    repetition, at most five addresses that end in none of [.png], [.jpg]
    and [.gif], and any number of addresses that end in one of them, the
    emails returned are the former, all of them and nothing else, in the
    order the set yields them: of seven different addresses, two of them
    ending in [.png], the five others are returned. *)
Theorem extract_contact_details_seven_emails (RT : Runtime) (soup : node)
    (others images : list string) :
  NoDup (others ++ images) ->
  (forall email, In email (others ++ images)
                 <-> In email (Re.findall email_pattern (get_text soup))) ->
  List.length others <= 5 ->
  (forall email, In email others ->
     PyStr.endswith ".png" email = false
     /\ PyStr.endswith ".jpg" email = false
     /\ PyStr.endswith ".gif" email = false) ->
  (forall email, In email images ->
     PyStr.endswith ".png" email = true
     \/ PyStr.endswith ".jpg" email = true
     \/ PyStr.endswith ".gif" email = true) ->
  Permutation others (emails (extract_contact_details soup))
  /\ List.length (emails (extract_contact_details soup)) = List.length others.
Proof.
  intros Hnd Hin Hlen Hothers Himages.
  set (found := Re.findall email_pattern (get_text soup)) in *.
  set (keep := fun email => negb (is_image_name email)).
  assert (Hp : Permutation (others ++ images) (set_of found)).
  { apply NoDup_Permutation; [exact Hnd | apply set_of_NoDup|].
    intros x. rewrite Hin. symmetry. apply set_of_In. }
  assert (Hf : filter keep (others ++ images) = others).
  { rewrite filter_app.
    replace (filter keep images) with (@nil string).
    - rewrite app_nil_r. apply forallb_filter_id, forallb_forall.
      intros x Hx. destruct (Hothers x Hx) as (H1 & H2 & H3).
      unfold keep, is_image_name. now rewrite H1, H2, H3.
    - clear - Himages. induction images as [|x images IH]; [reflexivity|].
      cbn [filter]. unfold keep at 1, is_image_name.
      destruct (Himages x (or_introl eq_refl)) as [H1|[H1|H1]]; rewrite H1;
        rewrite ?orb_true_r; cbn [orb negb];
        apply IH; intros y Hy; apply Himages; now right. }
  assert (Hk : Permutation others (filter keep (set_of found))).
  { rewrite <- Hf. now apply filter_Permutation. }
  assert (He : Permutation others (emails (extract_contact_details soup))).
  { eapply Permutation_trans; [exact Hk|].
    unfold extract_contact_details; cbn [emails]. fold found.
    apply emails_all_kept. fold keep.
    now rewrite <- (Permutation_length Hk). }
  split; [exact He | symmetry; now apply Permutation_length].
Qed.

(** The page with seven addresses. *)
Lemma extract_contact_details_seven_emails_witness :
  Permutation
    ["ann@shop.example"; "bob@shop.example"; "cy@shop.example";
     "dee@shop.example"; "eve@shop.example"]
    (emails (@extract_contact_details Plain.runtime seven_emails_page))
  /\ List.length (emails (@extract_contact_details Plain.runtime
                            seven_emails_page))
     = List.length ["ann@shop.example"; "bob@shop.example"; "cy@shop.example";
                    "dee@shop.example"; "eve@shop.example"].
Proof.
  apply (extract_contact_details_seven_emails Plain.runtime seven_emails_page
           ["ann@shop.example"; "bob@shop.example"; "cy@shop.example";
            "dee@shop.example"; "eve@shop.example"]
           ["logo@2x.png"; "icon@3x.png"]).
  - repeat constructor; simpl; intuition discriminate.
  - intros email.
    replace (Re.findall email_pattern (get_text seven_emails_page))
      with ["ann@shop.example"; "bob@shop.example"; "cy@shop.example";
            "logo@2x.png"; "icon@3x.png"; "dee@shop.example";
            "eve@shop.example"] by (vm_compute; reflexivity).
    simpl. tauto.
  - simpl. lia.
  - intros email H. simpl in H.
    repeat (destruct H as [<-|H]; [repeat split; vm_compute; reflexivity|]).
    destruct H.
  - intros email H. simpl in H.
    repeat (destruct H as [<-|H]; [left; vm_compute; reflexivity|]).
    destruct H.
Defined.

(** ** [extract_brand_context] *)

Lemma first_about_bound (soup : node) (selectors : list selector) (text : string) :
  first_about soup selectors = Some text -> String.length text <= 1000.
Proof.
  induction selectors as [|sel more IH]; simpl; [discriminate|].
  destruct (select_one sel soup) as [section|]; [|exact IH].
  destruct (50 <? String.length (get_text_strip " " section)); [|exact IH].
  intros [= <-]. apply take_length_le.
Qed.

(** C8, at the failing input.  The description is returned whole. *)
Lemma extract_brand_context_long_description :
  extract_brand_context long_description_page = Some (letters 1001)
  /\ String.length (letters 1001) = 1001.
Proof. split; vm_compute; reflexivity. Qed.

Lemma first_about_find (soup : node) (selectors : list selector) :
  first_about soup selectors
  = option_map (PyStr.take 1000)
      (List.find (fun text => 50 <? String.length text)
         (flat_map (fun sel => match select_one sel soup with
                               | Some section => [get_text_strip " " section]
                               | None => []
                               end) selectors)).
Proof.
  induction selectors as [|sel more IH]; [reflexivity|].
  cbn [first_about flat_map].
  destruct (select_one sel soup) as [section|]; cbn [app List.find]; [|exact IH].
  destruct (50 <? String.length (get_text_strip " " section));
    [reflexivity | exact IH].
Qed.

Lemma find_description_meta (soup : node) :
  find is_description_meta soup = description_meta soup.
Proof.
  unfold description_meta. apply find_first_element. reflexivity.
Qed.

(** The brand context of a page is the text of the first about-like section
    that is longer than 50 characters, cut to 1000 characters, where the
    sections are the first match of each of the five selectors in their
    order and the text is joined with spaces.  When no section qualifies it
    is the whole content of the first description meta element, if that is
    longer than 50 characters; otherwise it is absent.  So a context that is
    returned comes from a section, with at most 1000 characters, or from the
    meta element, with more than 50. *)
Theorem extract_brand_context_cases (soup : node) :
  extract_brand_context soup = context_of soup
  /\ (forall text,
        extract_brand_context soup = Some text ->
        (exists section_text,
           List.find (fun t => 50 <? String.length t) (about_texts soup)
           = Some section_text
           /\ 50 < String.length section_text
           /\ text = PyStr.take 1000 section_text
           /\ String.length text <= 1000)
        \/ (List.find (fun t => 50 <? String.length t) (about_texts soup) = None
            /\ 50 < String.length text
            /\ exists meta_desc,
                 description_meta soup = Some meta_desc
                 /\ get meta_desc "content" = Some text)).
Proof.
  assert (H : extract_brand_context soup = context_of soup).
  { unfold extract_brand_context, context_of, about_texts.
    rewrite first_about_find, find_description_meta. unfold about_selectors.
    destruct (List.find _ (flat_map _ _)) as [t|]; cbn [option_map];
      [reflexivity|].
    destruct (description_meta soup) as [m|]; [|reflexivity].
    unfold get_or_empty. destruct (get m "content") as [c|]; reflexivity. }
  split; [exact H|].
  intros text. rewrite H. unfold context_of.
  destruct (List.find _ (about_texts soup)) as [t|] eqn:Hf.
  - intros [= <-]. left. exists t. split; [reflexivity|].
    apply find_some in Hf. destruct Hf as [_ Hlen]. apply Nat.ltb_lt in Hlen.
    split; [exact Hlen|]. split; [reflexivity | apply take_length_le].
  - destruct (description_meta soup) as [m|]; [|discriminate].
    destruct (get m "content") as [c|] eqn:Hc; [|discriminate].
    destruct (50 <? String.length c) eqn:Hlen; [|discriminate].
    intros [= <-]. right. apply Nat.ltb_lt in Hlen.
    split; [reflexivity|]. split; [exact Hlen|]. now exists m.
Qed.

(** ** [extract_important_links] *)

Section ImportantLinks.
Context {RT : Runtime}.

Lemma links_step_field (base_url : string) (l : ImportantLinks) (link : node) :
  match link_href base_url link with
  | Returns href =>
      exists l', links_step base_url l link = Ok l'
                 /\ forall c, field c l'
                              = if classified c link then Some href else field c l
  | Throws cls msg => links_step base_url l link = Raise (PyExn cls msg)
  end.
Proof.
  unfold links_step, link_href.
  assert (H : (if negb (PyStr.startswith "http" (get_or_empty link "href"))
               then outcome_of (urljoin base_url (get_or_empty link "href"))
               else Ok (get_or_empty link "href"))
              = outcome_of
                  (if negb (PyStr.startswith "http" (get_or_empty link "href"))
                   then urljoin base_url (get_or_empty link "href")
                   else Returns (get_or_empty link "href")))
    by (destruct (negb _); reflexivity).
  rewrite H. clear H.
  destruct (if negb _ then _ else _) as [href|cls msg]; cbn [outcome_of obind];
    [|reflexivity].
  eexists. split; [reflexivity|]. intros c.
  unfold classified, classify, link_text, categories.
  cbn [List.find keywords].
  destruct (any_in ["track"; "order"; "tracking"] _);
    [destruct c; reflexivity|].
  destruct (any_in ["contact"; "contact us"] _); [destruct c; reflexivity|].
  destruct (any_in ["blog"; "news"; "articles"] _); [destruct c; reflexivity|].
  destruct (any_in ["shipping"; "delivery"] _); [destruct c; reflexivity|].
  destruct (any_in ["size"; "guide"; "sizing"] _); destruct c; reflexivity.
Qed.

Lemma links_fold_field (base_url : string) (links : list node)
    (l : ImportantLinks) :
  (forall link, In link links ->
                exists href, link_href base_url link = Returns href) ->
  exists l', ofold (links_step base_url) links l = Ok l'
             /\ forall c, field c l'
                          = match last_opt (filter (classified c) links) with
                            | Some link => resolved (link_href base_url link)
                            | None => field c l
                            end.
Proof.
  revert l; induction links as [|link links IH]; intros l Hall.
  - exists l. split; reflexivity.
  - destruct (Hall link (or_introl eq_refl)) as [href Hhref].
    pose proof (links_step_field base_url l link) as Hstep.
    rewrite Hhref in Hstep. destruct Hstep as (l1 & Hl1 & Hfield).
    destruct (IH l1) as (l' & Hl' & Hfield');
      [intros x Hx; apply Hall; now right|].
    exists l'. cbn [ofold]. rewrite Hl1. split; [exact Hl'|].
    intros c. rewrite Hfield', Hfield. cbn [filter].
    destruct (classified c link); cbn [last_opt];
      destruct (last_opt (filter (classified c) links)); try reflexivity.
    now rewrite Hhref.
Qed.

Lemma links_fold_raises (base_url : string) (before after : list node)
    (link : node) (l : ImportantLinks) (cls msg : string) :
  (forall x, In x before -> exists href, link_href base_url x = Returns href) ->
  link_href base_url link = Throws cls msg ->
  ofold (links_step base_url) (before ++ link :: after) l = Raise (PyExn cls msg).
Proof.
  revert l; induction before as [|x before IH]; intros l Hall Hlink.
  - cbn [app ofold]. pose proof (links_step_field base_url l link) as Hstep.
    rewrite Hlink in Hstep. now rewrite Hstep.
  - destruct (Hall x (or_introl eq_refl)) as [href Hhref].
    pose proof (links_step_field base_url l x) as Hstep.
    rewrite Hhref in Hstep. destruct Hstep as (l1 & Hl1 & _).
    cbn [app ofold]. rewrite Hl1. apply IH; [|exact Hlink].
    intros y Hy. apply Hall. now right.
Qed.

Lemma classified_first (link : node) (c : category) :
  classified c link = true <->
  any_in (keywords c) (link_text link) = true
  /\ forall c', rank c' < rank c -> any_in (keywords c') (link_text link) = false.
Proof.
  unfold classified, classify, categories. cbn [List.find].
  split.
  - intros H.
    destruct (any_in (keywords OrderTracking) (link_text link)) eqn:H1.
    { destruct c; try discriminate. split; [assumption|].
      intros c' Hc'; destruct c'; simpl in Hc'; lia. }
    destruct (any_in (keywords ContactUs) (link_text link)) eqn:H2.
    { destruct c; try discriminate. split; [assumption|].
      intros c' Hc'; destruct c'; simpl in Hc'; try lia; assumption. }
    destruct (any_in (keywords Blogs) (link_text link)) eqn:H3.
    { destruct c; try discriminate. split; [assumption|].
      intros c' Hc'; destruct c'; simpl in Hc'; try lia; assumption. }
    destruct (any_in (keywords ShippingInfo) (link_text link)) eqn:H4.
    { destruct c; try discriminate. split; [assumption|].
      intros c' Hc'; destruct c'; simpl in Hc'; try lia; assumption. }
    destruct (any_in (keywords SizeGuide) (link_text link)) eqn:H5.
    { destruct c; try discriminate. split; [assumption|].
      intros c' Hc'; destruct c'; simpl in Hc'; try lia; assumption. }
    destruct c; discriminate.
  - intros [Hc Hfirst].
    assert (H1 := Hfirst OrderTracking). assert (H2 := Hfirst ContactUs).
    assert (H3 := Hfirst Blogs). assert (H4 := Hfirst ShippingInfo).
    destruct c; cbn [rank] in *;
      repeat match goal with
             | H : ?n < ?m -> _ |- _ =>
                 first [ specialize (H ltac:(lia)); rewrite H | clear H ]
             end;
      rewrite Hc; reflexivity.
Qed.

Lemma classified_unique (link : node) (c c' : category) :
  classified c link = true -> classified c' link = true -> c = c'.
Proof.
  unfold classified.
  destruct (classify (link_text link)) as [[]|]; destruct c, c';
    intros; congruence.
Qed.

(** C6, as amended.  An anchor is classified into at most one category: the
    first, in the order order_tracking, contact_us, blogs, shipping_info,
    size_guide, one of whose terms occurs in its lower-cased trimmed text.
    It sets the field of that category to its address and leaves the other
    four as they were.  After the scan each field holds the address of the
    last anchor, in document order, classified into its category, and is
    absent when there is none.  The address of an anchor is its [href],
    resolved by [urljoin] unless it starts with [http]; where [urljoin]
    raises, for whichever anchor, the step and the scan raise with it. *)
Theorem extract_important_links_spec (soup : node) (base_url : string) :
  (forall link c,
     classified c link = true <->
     any_in (keywords c) (link_text link) = true
     /\ forall c', rank c' < rank c ->
                   any_in (keywords c') (link_text link) = false)
  /\ (forall link c c',
        classified c link = true -> classified c' link = true -> c = c')
  /\ (forall l link,
        match link_href base_url link with
        | Returns href =>
            exists l', links_step base_url l link = Ok l'
                       /\ forall c, field c l'
                                    = if classified c link then Some href
                                      else field c l
        | Throws cls msg => links_step base_url l link = Raise (PyExn cls msg)
        end)
  /\ ((forall link, In link (find_all is_link soup) ->
                    exists href, link_href base_url link = Returns href) ->
      exists l, extract_important_links soup base_url = Ok l
                /\ forall c,
                     field c l
                     = match last_opt (filter (classified c)
                                              (find_all is_link soup)) with
                       | Some link => resolved (link_href base_url link)
                       | None => None
                       end)
  /\ (forall before link after cls msg,
        find_all is_link soup = before ++ link :: after ->
        (forall x, In x before ->
                   exists href, link_href base_url x = Returns href) ->
        link_href base_url link = Throws cls msg ->
        extract_important_links soup base_url = Raise (PyExn cls msg)).
Proof.
  split; [apply classified_first|].
  split; [apply classified_unique|].
  split; [intros; apply links_step_field|].
  split.
  - intros Hall. unfold extract_important_links.
    destruct (links_fold_field base_url _ ImportantLinks_init Hall)
      as (l & Hl & Hfield).
    exists l. split; [exact Hl|]. intros c. rewrite Hfield.
    destruct (last_opt _); [reflexivity|]. destruct c; reflexivity.
  - intros before link after cls msg Hlinks Hall Hlink.
    unfold extract_important_links. rewrite Hlinks.
    now apply links_fold_raises.
Qed.

End ImportantLinks.

(** C6, counterexample.  The text of the anchor matches the terms of two
    categories, and only the first of them is populated. *)
Lemma extract_important_links_exclusive :
  any_in (keywords OrderTracking) (link_text (Tag "a" [] [Text "Track your shipping"])) = true
  /\ any_in (keywords ShippingInfo) (link_text (Tag "a" [] [Text "Track your shipping"])) = true
  /\ @extract_important_links Plain.runtime track_shipping_page "https://acme.example"
     = Ok {| order_tracking := Some "https://acme.example/track";
             contact_us := None; blogs := None;
             shipping_info := None; size_guide := None |}.
Proof. repeat split; vm_compute; reflexivity. Qed.

(** ** [fetch_store_insights] *)

Section Orchestrator.
Context {RT : Runtime}.

Lemma try_paths_returns (W : World) (base_url : string) (paths : list string)
    (log : list string) :
  exists text log', try_paths W base_url paths log = (Ok text, log').
Proof.
  revert log; induction paths as [|path more IH]; intros log.
  - now exists None, log.
  - cbn [try_paths]. unfold fetch_page.
    destruct (urljoin base_url path) as [url|cls msg]; [|apply IH].
    destruct (get_html W url) as [soup| |]; [|apply IH ..].
    destruct (page_policy soup) as [text|]; [|apply IH].
    now exists (Some text), (log ++ [url]).
Qed.

Lemma gather_Ok (self : Self) (website_url : string) (log log' : list string)
    (agg : BrandInsightsModel) :
  gather self website_url log = (Ok agg, log')
  <-> all_return self (with_scheme website_url) log agg log'.
Proof.
  unfold gather, all_return. split.
  - intros H.
    repeat (apply bind_Ok_inv in H; destruct H as [? [? [? H]]]).
    unfold ret in H. injection H as <- <-.
    do 23 eexists. repeat (split; [eassumption|]). reflexivity.
  - intros [soup [name [catalog [hero [privacy [refund [fs [social [contact
            [context [links [rivals [l1 [l2 [l3 [l4 [l5 [l6 [l7 [l8 [l9 [l10
            [l11 [H1 [H2 [H3 [H4 [H5 [H6 [H7 [H8 [H9 [H10 [H11 [H12 ->
            ]]]]]]]]]]]]]]]]]]]]]]]]]]]]]]]]]]].
    rewrite (bind_Ok _ _ _ _ _ H1), (bind_Ok _ _ _ _ _ H2),
      (bind_Ok _ _ _ _ _ H3), (bind_Ok _ _ _ _ _ H4), (bind_Ok _ _ _ _ _ H5),
      (bind_Ok _ _ _ _ _ H6), (bind_Ok _ _ _ _ _ H7), (bind_Ok _ _ _ _ _ H8),
      (bind_Ok _ _ _ _ _ H9), (bind_Ok _ _ _ _ _ H10), (bind_Ok _ _ _ _ _ H11),
      (bind_Ok _ _ _ _ _ H12).
    reflexivity.
Qed.


End Orchestrator.



(* ================================================================= *)
(** * Further properties *)

(** ** The loop body of [fetch_product_catalog] *)

Lemma obind_Ok_inv {A B} (o : outcome A) (k : A -> outcome B) (b : B) :
  obind o k = Ok b -> exists a, o = Ok a /\ k a = Ok b.
Proof. destruct o as [a| |]; simpl; try discriminate. intros H. now exists a. Qed.

Lemma omap_map_Ok {A B} (f : A -> outcome B) (g : A -> B) (l : list A) :
  (forall x, In x l -> f x = Ok (g x)) -> omap f l = Ok (List.map g l).
Proof.
  induction l as [|x l IH]; intros H; [reflexivity|].
  cbn [omap List.map]. rewrite (H x) by (left; reflexivity).
  rewrite IH; [reflexivity|]. intros y Hy. apply H. now right.
Qed.

Lemma srcs_of_images (l : list value) :
  forallb image_ok l = true ->
  omap (fun img => Json.get img "src" (JStr "")) l
  = Ok (List.map (fun img => JStr (src_of img)) l).
Proof.
  intros H. apply omap_map_Ok. intros img Hin.
  rewrite forallb_forall in H. specialize (H img Hin).
  destruct img as [| | | | |?|d]; try discriminate. unfold Json.get, src_of.
  cbn [image_ok] in H.
  destruct (lookup "src" d) as [[| | | |s| |]|]; try discriminate; reflexivity.
Qed.

Lemma validate_strs_srcs (field : string) (l : list value) :
  validate_strs field (List.map (fun img => JStr (src_of img)) l)
  = Ok (Some (List.map src_of l)).
Proof.
  unfold validate_strs.
  rewrite (omap_map_Ok _ (fun v => match v with JStr s => s | _ => EmptyString end)
             (List.map (fun img => JStr (src_of img)) l)).
  - cbn [obind]. now rewrite map_map.
  - intros x Hx. apply in_map_iff in Hx. destruct Hx as [img [<- _]].
    reflexivity.
Qed.

Lemma validate_dicts_list (field : string) (l : list value) :
  forallb is_dict l = true ->
  validate_dicts field (JList l) = Ok (Some (List.map dict_of l))
  /\ List.map JDict (List.map dict_of l) = l.
Proof.
  intros H. split.
  - unfold validate_dicts. rewrite (omap_map_Ok _ dict_of).
    + reflexivity.
    + intros x Hx. rewrite forallb_forall in H. specialize (H x Hx).
      destruct x; try discriminate. reflexivity.
  - induction l as [|x l IH]; [reflexivity|].
    cbn [forallb] in H. apply andb_true_iff in H. destruct H as [Hx Hl].
    cbn [List.map]. rewrite (IH Hl). destruct x; try discriminate. reflexivity.
Qed.

Section LoopBody.
Context {RT : Runtime}.

Lemma first_variant_price_ok (d : list (string * value)) :
  variants_ok (lookup "variants" d) = true ->
  first_variant_price (JDict d)
  = Ok (match lookup "variants" d with
        | Some (JList (JDict v :: _)) => py_str (value_or v "price" (JStr "0"))
        | _ => "0"
        end).
Proof.
  intros H. unfold first_variant_price, value_or. rewrite get_dict. cbn [obind].
  destruct (lookup "variants" d) as [[| | | | |[|[| | | | | |v] more]|]|];
    try discriminate; cbn [index0 obind]; rewrite get_dict; reflexivity.
Qed.

(** For an entry with fields of the expected types, what the parser makes
    of its markup decides: when the parser returns a tree, the entry has a
    model, the one read off the entry and the tree; when it rejects the
    markup, its exception leaves the loop body. *)
Theorem product_model_well_formed (d : list (string * value)) :
  well_formed (JDict d) = true ->
  match parse_html (markup_of d) with
  | Returns html =>
      exists m, product_model (JDict d) = Ok m /\ read_off RT d html m
  | Throws cls msg => product_model (JDict d) = Raise (PyExn cls msg)
  end.
Proof.
  unfold well_formed, read_off. intros H.
  apply andb_true_iff in H; destruct H as [H Himg].
  apply andb_true_iff in H; destruct H as [H Hvar].
  apply andb_true_iff in H; destruct H as [Htitle Hbody].
  unfold product_model. rewrite (first_variant_price_ok d Hvar).
  rewrite !get_dict. cbn [obind]. fold (value_or d "id" (JStr "")).
  assert (Hsoup : BeautifulSoup
                    (match lookup "body_html" d with
                     | Some x => x
                     | None => JStr ""
                     end)
                  = outcome_of (parse_html (markup_of d))).
  { unfold markup_of.
    destruct (lookup "body_html" d) as [[| | | |s| |]|]; try discriminate;
      reflexivity. }
  rewrite Hsoup. clear Hsoup Hbody.
  destruct (parse_html (markup_of d)) as [html|cls msg]; cbn [outcome_of obind];
    [|reflexivity].
  assert (Himgs : exists l,
             match lookup "images" d with Some x => x | None => JList [] end
             = JList l
             /\ forallb image_ok l = true
             /\ match lookup "images" d with
                | Some (JList l) => List.map src_of l
                | _ => []
                end = List.map src_of l).
  { destruct (lookup "images" d) as [[| | | | |l|]|]; try discriminate.
    - now exists l.
    - now exists []. }
  destruct Himgs as [l [-> [Hl ->]]]. cbn [iter obind].
  rewrite (srcs_of_images l Hl). cbn [obind].
  unfold ProductModel_init. rewrite validate_strs_srcs.
  assert (Hds : exists ds,
             validate_dicts "variants"
               (match lookup "variants" d with Some x => x | None => JList [] end)
             = Ok (Some ds)
             /\ List.map JDict ds
                = match lookup "variants" d with
                  | Some (JList l) => l
                  | _ => []
                  end).
  { destruct (lookup "variants" d) as [[| | | | |[|[| | | | | |v] more]|]|];
      try discriminate.
    - cbn [variants_ok] in Hvar.
      destruct (validate_dicts_list "variants" (JDict v :: more)) as [H1 H2];
        [exact Hvar|]. eauto.
    - now exists []. }
  destruct Hds as [ds [Hds1 Hds2]]. rewrite Hds1.
  destruct (lookup "title" d) as [[| | | |s| |]|]; try discriminate;
    cbn [validate_str obind]; eexists; repeat split; cbn [variants]; eauto.
Qed.

Lemma product_model_complete (product : value) (m : ProductModel) :
  product_model product = Ok m -> complete m.
Proof.
  unfold product_model, ProductModel_init. intros H.
  do 10 (apply obind_Ok_inv in H; destruct H as [? [_ H]]).
  apply obind_Ok_inv in H; destruct H as [? [Hi H]].
  apply obind_Ok_inv in H; destruct H as [? [_ H]].
  injection H as <-. unfold validate_strs in Hi.
  apply obind_Ok_inv in Hi; destruct Hi as [? [_ Hi]]. injection Hi as <-.
  unfold complete. cbn [id price images description].
  split; [discriminate|]. split; [discriminate|]. split; [discriminate|].
  eexists. split; [reflexivity | apply take_length_le].
Qed.

Lemma omap_complete (entries : list value) (models : list ProductModel) :
  omap product_model entries = Ok models -> Forall complete models.
Proof.
  revert models; induction entries as [|e entries IH]; intros models; cbn [omap].
  - intros [= <-]. constructor.
  - destruct (product_model e) as [m| |] eqn:He; try discriminate.
    destruct (omap product_model entries) as [ms| |]; try discriminate.
    intros [= <-]. constructor; [now apply product_model_complete in He|].
    now apply IH.
Qed.

Lemma catalog_loop_complete (fuel : nat) (W : World) (base_url : string) :
  forall (page : nat) (acc catalog : list ProductModel) (log log' : list string),
  Forall complete acc ->
  catalog_loop fuel W base_url page acc log = (Ok catalog, log') ->
  Forall complete catalog.
Proof.
  induction fuel as [|fuel IH]; intros page acc catalog log log' Hacc H.
  - discriminate.
  - cbn [catalog_loop] in H.
    apply bind_Ok_inv in H. destruct H as [data [l1 [_ H]]].
    apply bind_Ok_inv in H. destruct H as [listed [l2 [_ H]]].
    destruct (negb (truthy listed)).
    + unfold ret in H. now injection H as <- _.
    + apply bind_Ok_inv in H. destruct H as [entries [l3 [_ H]]].
      apply bind_Ok_inv in H. destruct H as [models [l4 [Hm H]]].
      apply bind_Ok_inv in H. destruct H as [n [l5 [_ H]]].
      unfold lift in Hm. injection Hm as Hm _.
      assert (Hall : Forall complete (acc ++ models)).
      { apply Forall_app. split; [assumption | now apply omap_complete in Hm]. }
      destruct (n <? 250).
      * unfold ret in H. now injection H as <- _.
      * now apply IH in H.
Qed.

(** Whatever the endpoint answers, every model of a catalog that
    [fetch_product_catalog] returns has an identifier, a price, a list of
    images and a description of at most 500 characters. *)
Theorem fetch_product_catalog_complete (fuel : nat) (W : World)
    (base_url : string) (log log' : list string) (catalog : list ProductModel) :
  fetch_product_catalog fuel W base_url log = (Ok catalog, log') ->
  Forall complete catalog.
Proof.
  unfold fetch_product_catalog. apply catalog_loop_complete. constructor.
Qed.

Lemma catalog_loop_full_step (W : World) (base_url : string) (page fuel : nat)
    (entries : list value) (models acc : list ProductModel) (log : list string) :
  serves W (products_url base_url page) entries ->
  List.length entries = 250 ->
  omap product_model entries = Ok models ->
  catalog_loop (S fuel) W base_url page acc log
  = catalog_loop fuel W base_url (page + 1) (acc ++ models)
      (log ++ [products_url base_url page]).
Proof.
  intros [d [Hd Hp]] Hlen Hm.
  cbn [catalog_loop]. unfold bind at 1. unfold fetch_json at 1. rewrite Hd.
  unfold bind at 1. unfold lift at 1. cbn [Json.get]. rewrite Hp.
  assert (Htruthy : truthy (JList entries) = true).
  { destruct entries; [discriminate Hlen | reflexivity]. }
  rewrite Htruthy. cbn [negb].
  unfold bind at 1. unfold lift at 1. cbn [iter].
  unfold bind at 1. unfold lift at 1. rewrite Hm.
  unfold bind at 1. unfold lift at 1. cbn [len]. rewrite Hlen.
  replace (250 <? 250) with false by reflexivity. reflexivity.
Qed.

(** The loop has no bound of its own on the number of pages: against an
    endpoint whose every page is full it is still running after any number
    of iterations, having requested one page per iteration. *)
Theorem fetch_product_catalog_unbounded (W : World) (base_url : string) :
  (forall page, full_page RT W base_url page) ->
  forall fuel log,
    fetch_product_catalog fuel W base_url log
    = (Diverge, log ++ List.map (products_url base_url) (seq 1 fuel)).
Proof.
  intros Hfull fuel. unfold fetch_product_catalog.
  generalize 1 as page. generalize (@nil ProductModel) as acc.
  induction fuel as [|fuel IH]; intros acc page log.
  - cbn. now rewrite app_nil_r.
  - destruct (Hfull page) as [entries [models [Hs [Hlen Hm]]]].
    rewrite (catalog_loop_full_step W base_url page fuel entries models acc log
               Hs Hlen Hm).
    rewrite IH. cbn [seq List.map]. rewrite <- app_assoc.
    replace (page + 1) with (S page) by lia. reflexivity.
Qed.

Lemma catalog_loop_bad_entry (W : World) (base_url : string)
    (pages : list (list value)) (entries : list value) (e : exn) :
  forall (page : nat) (acc models : list ProductModel) (fuel : nat)
         (log : list string),
  (forall i page_entries, nth_error pages i = Some page_entries ->
     serves W (products_url base_url (page + i)) page_entries
     /\ List.length page_entries = 250) ->
  omap product_model (concat pages) = Ok models ->
  serves W (products_url base_url (page + List.length pages)) entries ->
  omap product_model entries = Raise e ->
  List.length pages < fuel ->
  catalog_loop fuel W base_url page acc log
  = (Raise e,
     log ++ List.map (products_url base_url) (seq page (S (List.length pages)))).
Proof.
  induction pages as [|p pages IH];
    intros page acc models fuel log Hfull Hm Hs He Hfuel.
  - destruct fuel as [|fuel]; [cbn in Hfuel; lia|].
    destruct Hs as [d [Hd Hp]]. cbn [List.length] in Hd.
    rewrite Nat.add_0_r in Hd.
    cbn [catalog_loop]. unfold bind at 1. unfold fetch_json at 1. rewrite Hd.
    unfold bind at 1. unfold lift at 1. cbn [Json.get]. rewrite Hp.
    assert (Htruthy : truthy (JList entries) = true).
    { destruct entries; [discriminate He | reflexivity]. }
    rewrite Htruthy. cbn [negb].
    unfold bind at 1. unfold lift at 1. cbn [iter].
    unfold bind at 1. unfold lift at 1. rewrite He. reflexivity.
  - destruct fuel as [|fuel]; [cbn in Hfuel; lia|].
    destruct (Hfull 0 p eq_refl) as [Hs0 Hlen].
    rewrite Nat.add_0_r in Hs0.
    cbn [concat] in Hm. apply omap_app in Hm.
    destruct Hm as [m1 [m2 [Hm1 [Hm2 ->]]]].
    rewrite (catalog_loop_full_step W base_url page fuel p m1 acc log
               Hs0 Hlen Hm1).
    rewrite (IH (page + 1) (acc ++ m1) m2 fuel).
    + rewrite <- app_assoc. cbn [List.length seq List.map app].
      replace (page + 1) with (S page) by lia. reflexivity.
    + intros i pe Hi. replace (page + 1 + i) with (page + S i) by lia.
      now apply Hfull.
    + exact Hm2.
    + cbn [List.length] in Hs.
      replace (page + 1 + List.length pages) with (page + S (List.length pages))
        by lia.
      exact Hs.
    + exact He.
    + cbn [List.length] in Hfuel. lia.
Qed.

Lemma omap_first_Raise {A B} (f : A -> outcome B) (good rest : list A)
    (bad : A) (ys : list B) (e : exn) :
  omap f good = Ok ys -> f bad = Raise e ->
  omap f (good ++ bad :: rest) = Raise e.
Proof.
  revert ys; induction good as [|x good IH]; intros ys Hg Hb; cbn [app omap].
  - now rewrite Hb.
  - cbn [omap] in Hg. destruct (f x) as [y| |]; try discriminate.
    destruct (omap f good) as [ys'| |]; try discriminate.
    now rewrite (IH ys' eq_refl Hb).
Qed.

(** An entry the loop body cannot turn into a model ends the fetch with the
    exception it raises, and what was collected before is lost: after N full
    pages, a page whose first entry without a model is [bad] gives the
    exception of [bad], after N+1 requests. *)
Theorem fetch_product_catalog_bad_entry (W : World) (base_url : string)
    (pages : list (list value)) (good rest : list value) (bad : value)
    (models good_models : list ProductModel) (e : exn) (fuel : nat)
    (log : list string) :
  (forall i page_entries, nth_error pages i = Some page_entries ->
     serves W (products_url base_url (S i)) page_entries
     /\ List.length page_entries = 250) ->
  omap product_model (concat pages) = Ok models ->
  serves W (products_url base_url (S (List.length pages)))
         (good ++ bad :: rest) ->
  omap product_model good = Ok good_models ->
  product_model bad = Raise e ->
  List.length pages < fuel ->
  fetch_product_catalog fuel W base_url log
  = (Raise e,
     log ++ List.map (products_url base_url) (seq 1 (S (List.length pages)))).
Proof.
  intros Hfull Hm Hs Hg Hb Hfuel. unfold fetch_product_catalog.
  apply (catalog_loop_bad_entry W base_url pages (good ++ bad :: rest) e 1 []
           models); try assumption.
  now apply (omap_first_Raise _ good rest bad good_models).
Qed.

End LoopBody.

(** The model of the entry with every field. *)
Lemma product_model_well_formed_witness :
  well_formed (JDict shirt_fields) = true
  /\ exists m, @product_model Plain.runtime (JDict shirt_fields) = Ok m
               /\ read_off Plain.runtime shirt_fields
                    (Tag "[document]" [] [Text "Soft cotton"]) m.
Proof.
  assert (H : well_formed (JDict shirt_fields) = true) by reflexivity.
  split; [exact H|].
  exact (@product_model_well_formed Plain.runtime shirt_fields H).
Defined.

(** The catalog of the shop of 252 products. *)
Lemma fetch_product_catalog_complete_witness :
  @fetch_product_catalog Plain.runtime 2 two_page_shop "https://shop.example" []
  = (Ok (repeat mug_model 252),
     ["https://shop.example/products.json?limit=250&page=1";
      "https://shop.example/products.json?limit=250&page=2"])
  /\ Forall complete (repeat mug_model 252).
Proof.
  assert (H : @fetch_product_catalog Plain.runtime 2 two_page_shop
                "https://shop.example" []
              = (Ok (repeat mug_model 252),
                 ["https://shop.example/products.json?limit=250&page=1";
                  "https://shop.example/products.json?limit=250&page=2"]))
    by (vm_compute; reflexivity).
  split; [exact H|].
  exact (@fetch_product_catalog_complete Plain.runtime 2 two_page_shop
           "https://shop.example" [] _ _ H).
Defined.

Lemma endless_shop_full (base_url : string) (page : nat) :
  full_page Plain.runtime endless_shop base_url page.
Proof.
  exists (repeat mug 250), (repeat mug_model 250). split; [|split].
  - exists [("products", JList (repeat mug 250))]. split; reflexivity.
  - apply repeat_length.
  - vm_compute; reflexivity.
Qed.

(** Three iterations against the shop whose every page is full. *)
Lemma fetch_product_catalog_unbounded_witness :
  (forall page, full_page Plain.runtime endless_shop "https://shop.example" page)
  /\ @fetch_product_catalog Plain.runtime 3 endless_shop "https://shop.example" []
     = (Diverge,
        [] ++ List.map (products_url "https://shop.example") (seq 1 3)).
Proof.
  split; [apply endless_shop_full|].
  apply (@fetch_product_catalog_unbounded Plain.runtime endless_shop
           "https://shop.example" (endless_shop_full "https://shop.example")).
Defined.

(** The shop whose second page holds the entry without variants. *)
Lemma fetch_product_catalog_bad_entry_witness :
  @product_model Plain.runtime bare
  = Raise (PyExn "IndexError" "list index out of range")
  /\ @fetch_product_catalog Plain.runtime 5 flawed_shop "https://shop.example" []
     = (Raise (PyExn "IndexError" "list index out of range"),
        [] ++ List.map (products_url "https://shop.example")
                (seq 1 (S (List.length [repeat mug 250])))).
Proof.
  assert (Hb : @product_model Plain.runtime bare
               = Raise (PyExn "IndexError" "list index out of range"))
    by reflexivity.
  split; [exact Hb|].
  apply (@fetch_product_catalog_bad_entry Plain.runtime flawed_shop
           "https://shop.example" [repeat mug 250] [mug] [mug] bare
           (repeat mug_model 250) [mug_model]
           (PyExn "IndexError" "list index out of range") 5 []).
  - intros [|[|i]] entries H; cbn [nth_error] in H; try discriminate.
    injection H as <-. split; [|vm_compute; reflexivity].
    exists [("products", JList (repeat mug 250))].
    split; vm_compute; reflexivity.
  - vm_compute; reflexivity.
  - exists [("products", JList [mug; bare; mug])]. split; reflexivity.
  - reflexivity.
  - exact Hb.
  - simpl; lia.
Defined.

(** ** The page requests *)

Lemma append_inj_l (a b c : string) : (a ++ b = a ++ c)%string -> b = c.
Proof.
  induction a as [|x a IH]; cbn [append]; intros H; [exact H|].
  injection H as H. now apply IH.
Qed.

Lemma of_nat_inj (n m : nat) : PyStr.of_nat n = PyStr.of_nat m -> n = m.
Proof.
  unfold PyStr.of_nat. intros H. apply Unsigned.to_uint_inj.
  assert (Hs : Some (Nat.to_uint n) = Some (Nat.to_uint m)).
  { rewrite <- (NilEmpty.usu (Nat.to_uint n)), <- (NilEmpty.usu (Nat.to_uint m)).
    now rewrite H. }
  now injection Hs.
Qed.

(** The addresses of the requests for different pages are different, so a
    run of the loop never asks for the same address twice. *)
Theorem products_url_pages (base_url : string) :
  (forall p q, products_url base_url p = products_url base_url q -> p = q)
  /\ (forall start n, NoDup (List.map (products_url base_url) (seq start n))).
Proof.
  assert (Hinj : forall p q,
             products_url base_url p = products_url base_url q -> p = q).
  { unfold products_url. intros p q H.
    apply append_inj_l, append_inj_l in H. now apply of_nat_inj. }
  split; [exact Hinj|].
  intros start n. apply NoDup_map_NoDup_ForallPairs; [|apply seq_NoDup].
  intros p q _ _. apply Hinj.
Qed.

(* ================================================================= *)
(** ** [fetch_policy_content] *)

Lemma take_length (n : nat) (s : string) :
  String.length (PyStr.take n s) = Nat.min n (String.length s).
Proof.
  revert s; induction n as [|n IH]; intros [|c s];
    unfold PyStr.take; fold PyStr.take; cbn [String.length]; try reflexivity.
  rewrite IH. reflexivity.
Qed.

Lemma first_content_bound (soup : node) (selectors : list selector) (text : string) :
  first_content soup selectors = Some text ->
  100 < String.length text <= 2000.
Proof.
  induction selectors as [|sel more IH]; cbn [first_content]; [discriminate|].
  destruct (select_one sel soup) as [content_div|]; [|exact IH].
  destruct (100 <? String.length (get_text_strip " " content_div)) eqn:E;
    [|exact IH].
  intros [= <-]. apply Nat.ltb_lt in E. rewrite take_length. lia.
Qed.

Lemma page_policy_bound (soup : node) (text : string) :
  page_policy soup = Some text -> 100 < String.length text <= 2000.
Proof.
  unfold page_policy.
  destruct (first_content soup content_selectors) as [t|] eqn:F.
  - intros [= <-]. exact (first_content_bound _ _ _ F).
  - destruct (100 <? String.length (get_text_strip " " soup)) eqn:E;
      [|discriminate].
    intros [= <-]. apply Nat.ltb_lt in E. rewrite take_length. lia.
Qed.

Lemma find_app {A} (p : A -> bool) (l1 l2 : list A) :
  List.find p (l1 ++ l2)
  = match List.find p l1 with
    | Some x => Some x
    | None => List.find p l2
    end.
Proof.
  induction l1 as [|x l1 IH]; [reflexivity|]. cbn [app List.find].
  destruct (p x); [reflexivity | exact IH].
Qed.

Lemma first_content_find (soup : node) (selectors : list selector) :
  first_content soup selectors
  = option_map (PyStr.take 2000)
      (List.find (fun text => 100 <? String.length text)
         (flat_map (fun sel => match select_one sel soup with
                               | Some element => [get_text_strip " " element]
                               | None => []
                               end) selectors)).
Proof.
  induction selectors as [|sel more IH]; [reflexivity|].
  cbn [first_content flat_map]. destruct (select_one sel soup) as [element|];
    cbn [app List.find]; [|exact IH].
  destruct (100 <? String.length (get_text_strip " " element)); [reflexivity|].
  exact IH.
Qed.

Lemma page_policy_of (soup : node) : page_policy soup = policy_of soup.
Proof.
  unfold page_policy, policy_of, policy_texts.
  rewrite find_app, first_content_find. unfold content_selectors.
  destruct (List.find _ (flat_map _ _)); [reflexivity|].
  cbn [option_map List.find].
  destruct (100 <? String.length (get_text_strip " " soup)); reflexivity.
Qed.

Section Policies.
Context {RT : Runtime}.

Lemma try_paths_step (W : World) (base_url path : string) (more : list string)
    (log : list string) :
  try_paths W base_url (path :: more) log
  = match offered W base_url path with
    | Some text => (Ok (Some text), log ++ asked base_url path)
    | None => try_paths W base_url more (log ++ asked base_url path)
    end.
Proof.
  cbn [try_paths]. unfold fetch_page, offered, asked.
  destruct (urljoin base_url path) as [url|cls msg];
    [|now rewrite app_nil_r].
  destruct (get_html W url) as [soup| |]; try reflexivity.
  rewrite page_policy_of. reflexivity.
Qed.

Lemma try_paths_first (W : World) (base_url : string) (paths : list string)
    (log : list string) :
  exists r log',
    try_paths W base_url paths log = (Ok r, log')
    /\ match r with
       | Some text =>
           exists before path after,
             paths = before ++ path :: after
             /\ Forall (fun p => offered W base_url p = None) before
             /\ offered W base_url path = Some text
             /\ log' = log ++ flat_map (asked base_url) (before ++ [path])
       | None =>
           Forall (fun p => offered W base_url p = None) paths
           /\ log' = log ++ flat_map (asked base_url) paths
       end.
Proof.
  revert log. induction paths as [|path more IH]; intros log.
  - exists None, log. split; [reflexivity|]. split; [constructor|].
    now rewrite app_nil_r.
  - rewrite try_paths_step.
    destruct (offered W base_url path) as [text|] eqn:O.
    + exists (Some text), (log ++ asked base_url path).
      split; [reflexivity|]. exists [], path, more.
      cbn [app flat_map]. rewrite app_nil_r. now repeat split.
    + destruct (IH (log ++ asked base_url path)) as (r & log' & E & H).
      exists r, log'. split; [exact E|]. destruct r as [text|].
      * destruct H as (before & p & after & -> & Hb & Ho & ->).
        exists (path :: before), p, after.
        split; [reflexivity|]. split; [now constructor|]. split; [exact Ho|].
        cbn [app flat_map]. now rewrite <- app_assoc.
      * destruct H as [Hall ->]. split; [now constructor|].
        cbn [flat_map]. now rewrite <- app_assoc.
Qed.

(** [fetch_policy_content] never raises.  It has four paths for the privacy
    policy, eight for the refund policy and none for any other type, and
    tries them in the order they are listed.  A path offers a policy when
    [urljoin] gives an address for it, the page at that address is served,
    and one of the texts looked at there (that of the first element of each
    of seven containers, then that of the whole page) has more than 100
    characters: the first such text, cut to 2000.  The result is the policy
    of the first path that offers one, and the addresses asked for are those
    of the paths up to that one, one for each path [urljoin] gave an address
    for; when no path offers a policy the result is [None] after every
    path. *)
Theorem fetch_policy_content_first (W : World) (base_url policy_type : string)
    (log : list string) :
  common_paths "privacy"
  = ["/pages/privacy-policy"; "/privacy-policy"; "/privacy"; "/pages/privacy"]
  /\ common_paths "refund"
     = ["/pages/refund-policy"; "/pages/return-policy"; "/refund-policy";
        "/return-policy"; "/pages/returns"; "/returns"; "/pages/refunds";
        "/refunds"]
  /\ (policy_type <> "privacy" -> policy_type <> "refund" ->
      common_paths policy_type = [])
  /\ exists r log',
       fetch_policy_content W base_url policy_type log = (Ok r, log')
       /\ match r with
          | Some text =>
              exists before path after,
                common_paths policy_type = before ++ path :: after
                /\ Forall (fun p => offered W base_url p = None) before
                /\ offered W base_url path = Some text
                /\ log' = log ++ flat_map (asked base_url) (before ++ [path])
          | None =>
              Forall (fun p => offered W base_url p = None)
                     (common_paths policy_type)
              /\ log' = log ++ flat_map (asked base_url)
                                        (common_paths policy_type)
          end.
Proof.
  split; [reflexivity|]. split; [reflexivity|]. split.
  - intros H1 H2. unfold common_paths.
    destruct (String.eqb_spec policy_type "privacy"); [contradiction|].
    destruct (String.eqb_spec policy_type "refund"); [contradiction|].
    reflexivity.
  - apply try_paths_first.
Qed.

Lemma common_paths_length (policy_type : string) :
  List.length (common_paths policy_type)
  = if String.eqb policy_type "privacy" then 4
    else if String.eqb policy_type "refund" then 8 else 0.
Proof.
  unfold common_paths.
  destruct (String.eqb policy_type "privacy"); [reflexivity|].
  destruct (String.eqb policy_type "refund"); reflexivity.
Qed.

(** A policy that is returned has more than 100 and at most 2000 characters;
    the policy type is then one of the two with paths, and between one and
    four (privacy) or eight (refund) requests were made for it. *)
Theorem fetch_policy_content_text (W : World) (base_url policy_type : string)
    (log log' : list string) (text : string) :
  fetch_policy_content W base_url policy_type log = (Ok (Some text), log') ->
  100 < String.length text <= 2000
  /\ (policy_type = "privacy" \/ policy_type = "refund")
  /\ exists tried,
       log' = log ++ tried
       /\ 1 <= List.length tried
          <= (if String.eqb policy_type "privacy" then 4 else 8).
Proof.
  intros H. unfold fetch_policy_content in H.
  destruct (try_paths_first W base_url (common_paths policy_type) log)
    as (r & l & E & Hr).
  rewrite E in H. injection H as -> ->.
  destruct Hr as (before & path & after & Hp & _ & Ho & ->).
  pose proof (common_paths_length policy_type) as Hlen.
  rewrite Hp, length_app in Hlen. cbn [List.length] in Hlen.
  assert (Hasked : forall l, List.length (flat_map (asked base_url) l)
                             <= List.length l).
  { induction l as [|x l IHl]; [reflexivity|]. cbn [flat_map].
    rewrite length_app. unfold asked at 1.
    destruct (urljoin base_url x); cbn [List.length]; lia. }
  split; [|split].
  - unfold offered in Ho.
    destruct (urljoin base_url path); [|discriminate].
    destruct (get_html W a); try discriminate.
    rewrite <- page_policy_of in Ho. exact (page_policy_bound _ _ Ho).
  - destruct (String.eqb_spec policy_type "privacy"); [now left|].
    destruct (String.eqb_spec policy_type "refund"); [now right | lia].
  - exists (flat_map (asked base_url) (before ++ [path])).
    split; [reflexivity|]. rewrite flat_map_app, length_app.
    pose proof (Hasked before) as Hb. cbn [flat_map]. rewrite app_nil_r.
    assert (Hone : List.length (asked base_url path) = 1).
    { unfold offered in Ho. unfold asked.
      destruct (urljoin base_url path); [reflexivity | discriminate]. }
    rewrite Hone.
    destruct (String.eqb policy_type "privacy"); [lia|].
    destruct (String.eqb policy_type "refund"); lia.
Qed.

End Policies.

(** The shop whose privacy policy stands at the second path. *)
Lemma fetch_policy_content_text_witness :
  100 < String.length (letters 150) <= 2000
  /\ ("privacy" = "privacy" \/ "privacy" = "refund")
  /\ exists tried,
       ["https://shop.example/pages/privacy-policy";
        "https://shop.example/privacy-policy"] = [] ++ tried
       /\ 1 <= List.length tried <= 4.
Proof.
  apply (@fetch_policy_content_text Plain.runtime policy_shop
           "https://shop.example" "privacy" []).
  vm_compute. reflexivity.
Defined.

(* ================================================================= *)
(** ** [fetch_store_insights] on an object of the class *)

Lemma startswith_prefix (p s : string) :
  PyStr.startswith p s = true <-> exists rest, s = (p ++ rest)%string.
Proof.
  revert s; induction p as [|a p IH]; intros s; cbn [PyStr.startswith append].
  - split; [intros _; now exists s | reflexivity].
  - destruct s as [|b s]; [split; [discriminate | intros [rest H]; discriminate]|].
    rewrite andb_true_iff, IH. split.
    + intros [Hab [rest ->]]. apply Ascii.eqb_eq in Hab. subst. now exists rest.
    + intros [rest [= -> ->]]. split; [apply Ascii.eqb_refl | now exists rest].
Qed.

(** The address the orchestrator works with is the one given when that
    starts with [http://] or with [https://], in small letters, and is
    [https://] followed by the one given in every other case; it always
    starts with one of the two, so treating an address twice changes
    nothing. *)
Theorem with_scheme_idempotent (website_url : string) :
  ((exists rest, website_url = ("http://" ++ rest)%string)
   \/ (exists rest, website_url = ("https://" ++ rest)%string) ->
   with_scheme website_url = website_url)
  /\ (~ (exists rest, website_url = ("http://" ++ rest)%string) ->
      ~ (exists rest, website_url = ("https://" ++ rest)%string) ->
      with_scheme website_url = ("https://" ++ website_url)%string)
  /\ ((exists rest, with_scheme website_url = ("http://" ++ rest)%string)
      \/ (exists rest, with_scheme website_url = ("https://" ++ rest)%string))
  /\ with_scheme (with_scheme website_url) = with_scheme website_url.
Proof.
  assert (Hgiven : forall url,
            (exists rest, url = ("http://" ++ rest)%string)
            \/ (exists rest, url = ("https://" ++ rest)%string) ->
            with_scheme url = url).
  { intros url H. unfold with_scheme.
    rewrite <- !startswith_prefix in H. apply orb_true_iff in H.
    now rewrite H. }
  assert (Hstarts : (exists rest, with_scheme website_url = ("http://" ++ rest)%string)
                    \/ (exists rest,
                          with_scheme website_url = ("https://" ++ rest)%string)).
  { unfold with_scheme.
    destruct (PyStr.startswith "http://" website_url
              || PyStr.startswith "https://" website_url) eqn:E.
    - apply orb_true_iff in E. now rewrite !startswith_prefix in E.
    - right. now exists website_url. }
  split; [apply Hgiven|]. split; [|split; [exact Hstarts | now apply Hgiven]].
  intros H1 H2. unfold with_scheme.
  rewrite <- startswith_prefix in H1, H2.
  apply not_true_is_false in H1, H2. now rewrite H1, H2.
Qed.

(* ================================================================= *)
(** ** The exceptions that leave the methods *)

Lemma raises_internal_Ok {A} (a : A) : raises_internal (Ok a).
Proof. intros e H. discriminate. Qed.

Lemma raises_internal_Raise {A} (cls msg : string) :
  raises_internal (@Raise A (PyExn cls msg)).
Proof. intros e [= <-]. now exists cls, msg. Qed.

Lemma raises_internal_obind {A B} (o : outcome A) (k : A -> outcome B) :
  raises_internal o -> (forall a, raises_internal (k a)) ->
  raises_internal (obind o k).
Proof.
  intros Ho Hk. destruct o as [a|e|]; cbn [obind].
  - apply Hk.
  - intros e' [= <-]. now apply Ho.
  - intros e H. discriminate.
Qed.

Lemma raises_internal_omap {A B} (f : A -> outcome B) (l : list A) :
  (forall a, raises_internal (f a)) -> raises_internal (omap f l).
Proof.
  intros Hf. induction l as [|x l IH]; cbn [omap]; [apply raises_internal_Ok|].
  pose proof (Hf x) as Hx.
  destruct (f x) as [y|e|];
    [| intros e' [= <-]; now apply Hx | intros e H; discriminate].
  destruct (omap f l) as [ys|e|];
    [apply raises_internal_Ok | exact IH | intros e H; discriminate].
Qed.

Create HintDb internal.
#[local] Hint Resolve raises_internal_Ok raises_internal_Raise : internal.

Ltac by_cases_internal :=
  repeat match goal with
         | |- raises_internal (match ?x with _ => _ end) => destruct x
         end;
  auto with internal; apply raises_internal_Raise.

Lemma get_internal (v : value) (key : string) (default : value) :
  raises_internal (Json.get v key default).
Proof. unfold Json.get, AttributeError. by_cases_internal. Qed.

Lemma index0_internal (v : value) : raises_internal (index0 v).
Proof. unfold index0, IndexError, KeyError, TypeError. by_cases_internal. Qed.

Lemma iter_internal (v : value) : raises_internal (iter v).
Proof. unfold iter, TypeError. by_cases_internal. Qed.

Lemma len_internal (v : value) : raises_internal (len v).
Proof. unfold len, TypeError. by_cases_internal. Qed.

Lemma validate_str_internal (field : string) (v : value) :
  raises_internal (validate_str field v).
Proof. unfold validate_str, ValidationError. by_cases_internal. Qed.

Lemma validate_strs_internal (field : string) (l : list value) :
  raises_internal (validate_strs field l).
Proof.
  unfold validate_strs. apply raises_internal_obind; auto with internal.
  apply raises_internal_omap. intros v. unfold ValidationError.
  by_cases_internal.
Qed.

Lemma validate_dicts_internal (field : string) (v : value) :
  raises_internal (validate_dicts field v).
Proof.
  unfold validate_dicts, ValidationError.
  destruct v; auto with internal; try apply raises_internal_Raise.
  apply raises_internal_obind; auto with internal.
  apply raises_internal_omap. intros x. by_cases_internal.
Qed.

Lemma raises_internal_outcome_of {A} (r : result A) :
  raises_internal (outcome_of r).
Proof. destruct r; [apply raises_internal_Ok | apply raises_internal_Raise]. Qed.

Lemma raises_internal_ofold {A B} (f : B -> A -> outcome B) (l : list A) (acc : B) :
  (forall b a, raises_internal (f b a)) -> raises_internal (ofold f l acc).
Proof.
  intros Hf. revert acc; induction l as [|x l IH]; intros acc; cbn [ofold];
    [apply raises_internal_Ok|].
  pose proof (Hf acc x) as Hx.
  destruct (f acc x) as [acc'|e|];
    [apply IH | intros e' [= <-]; now apply Hx | intros e H; discriminate].
Qed.

Lemma ofold_returns {A B} (f : B -> A -> outcome B) (l : list A) (acc : B) :
  (forall b a, f b a <> Diverge) -> ofold f l acc <> Diverge.
Proof.
  intros Hf. revert acc; induction l as [|x l IH]; intros acc; cbn [ofold];
    [discriminate|].
  pose proof (Hf acc x) as Hx.
  destruct (f acc x) as [acc'|e|]; [apply IH | discriminate | contradiction].
Qed.

Section Exceptions.
Context {RT : Runtime}.

Lemma product_model_internal (product : value) :
  raises_internal (product_model product).
Proof.
  unfold product_model, first_variant_price, ProductModel_init.
  repeat (apply raises_internal_obind; [|intros ?]);
    auto using get_internal, index0_internal, iter_internal,
               validate_str_internal, validate_strs_internal,
               validate_dicts_internal with internal.
  all: try (unfold BeautifulSoup, TypeError, outcome_of; by_cases_internal).
  - apply raises_internal_omap. intros img. apply get_internal.
  - apply raises_internal_omap. intros v. unfold ValidationError.
    by_cases_internal.
Qed.

Lemma catalog_loop_internal (fuel : nat) (W : World) (base_url : string)
    (page : nat) (products : list ProductModel) (log log' : list string)
    (e : exn) :
  catalog_loop fuel W base_url page products log = (Raise e, log') ->
  internal e.
Proof.
  revert page products log.
  induction fuel as [|fuel IH]; intros page products log; cbn [catalog_loop].
  - discriminate.
  - cbv beta iota delta [bind lift ret fetch_json].
    destruct (get_json W (products_url base_url page)) as [data| |cls msg];
      cbv beta iota;
      [| set (data := JDict []) | intros [= <- _]; now exists cls, msg].
    all: pose proof (get_internal data "products" JNone) as Hget.
    all: destruct (Json.get data "products" JNone) as [listed|e0|];
      [| intros [= <- _]; now apply Hget | discriminate].
    all: destruct (negb (truthy listed)); [discriminate|].
    all: pose proof (iter_internal listed) as Hiter.
    all: destruct (iter listed) as [entries|e0|];
      [| intros [= <- _]; now apply Hiter | discriminate].
    all: pose proof (raises_internal_omap product_model entries
                       product_model_internal) as Hmap.
    all: destruct (omap product_model entries) as [models|e0|];
      [| intros [= <- _]; now apply Hmap | discriminate].
    all: pose proof (len_internal listed) as Hlen.
    all: destruct (len listed) as [n|e0|];
      [| intros [= <- _]; now apply Hlen | discriminate].
    all: destruct (n <? 250); [discriminate | apply IH].
Qed.

Lemma netloc_internal (url : string) : raises_internal (netloc url).
Proof.
  unfold netloc, ValueError.
  destruct (PyStr.startswith "//" _); [|apply raises_internal_Ok].
  cbv zeta.
  destruct (xorb _ _); [apply raises_internal_Raise|].
  destruct (_ && _); [|apply raises_internal_Ok].
  apply raises_internal_obind;
    [apply raises_internal_outcome_of | intros; apply raises_internal_Ok].
Qed.

Lemma extract_brand_name_internal (soup : node) (url : string) :
  raises_internal (extract_brand_name soup url)
  /\ extract_brand_name soup url <> Diverge.
Proof.
  rewrite extract_brand_name_chain.
  destruct (first_truthy _); [split; [apply raises_internal_Ok | discriminate]|].
  pose proof (netloc_internal url) as Hn.
  pose proof (netloc_returns RT url) as Hr.
  destruct (netloc url) as [domain|e|]; cbn [obind].
  - split; [apply raises_internal_Ok | discriminate].
  - split; [exact Hn | discriminate].
  - contradiction.
Qed.

Lemma links_step_internal (base_url : string) (l : ImportantLinks) (link : node) :
  raises_internal (links_step base_url l link)
  /\ links_step base_url l link <> Diverge.
Proof.
  unfold links_step.
  destruct (negb (PyStr.startswith "http" (get_or_empty link "href")));
    [|split; [apply raises_internal_Ok | discriminate]].
  destruct (urljoin base_url (get_or_empty link "href")); cbn [outcome_of obind];
    (split; [|discriminate]).
  - apply raises_internal_Ok.
  - apply raises_internal_Raise.
Qed.

Lemma extract_important_links_internal (soup : node) (base_url : string) :
  raises_internal (extract_important_links soup base_url)
  /\ extract_important_links soup base_url <> Diverge.
Proof.
  unfold extract_important_links. split.
  - apply raises_internal_ofold. intros b a. apply links_step_internal.
  - apply ofold_returns. intros b a. apply links_step_internal.
Qed.

(** Whatever the endpoint answers, [fetch_product_catalog] raises no
    [HTTPException]: what leaves it is an exception of the loop body, or one
    that [fetch_json] has no handler for.  On the first page, an [HTTPError]
    or a body that is no JSON text ends the catalog empty after the one
    request, and an exception that [fetch_json] does not catch leaves
    [fetch_product_catalog] as it is, after the one request. *)
Theorem fetch_product_catalog_raises (fuel : nat) (W : World) (base_url : string)
    (log : list string) :
  match fst (fetch_product_catalog fuel W base_url log) with
  | Raise e => exists cls msg, e = PyExn cls msg
  | _ => True
  end
  /\ match get_json W (products_url base_url 1) with
     | Refused =>
         fetch_product_catalog (S fuel) W base_url log
         = (Ok [], log ++ [products_url base_url 1])
     | Escaped cls msg =>
         fetch_product_catalog (S fuel) W base_url log
         = (Raise (PyExn cls msg), log ++ [products_url base_url 1])
     | Served _ => True
     end.
Proof.
  split.
  - destruct (fetch_product_catalog fuel W base_url log)
      as [[catalog|e|] log'] eqn:C; cbn [fst]; try exact I.
    exact (catalog_loop_internal _ _ _ _ _ _ _ _ C).
  - unfold fetch_product_catalog. cbn [catalog_loop].
    cbv beta iota delta [bind lift ret fetch_json].
    destruct (get_json W (products_url base_url 1)); reflexivity || exact I.
Qed.

(** The orchestrator on an object of the class, case by case.  When [httpx]
    raises an [HTTPError] for the home page the answer is
    [HTTPException(401)]; when another exception leaves [fetch_page] it is
    [HTTPException(500)] with that exception's message; in both cases after
    the one request.  With the home page served, the brand name is extracted
    (an exception it raises ends the request the same way), then the catalog
    decides: when it raises, the request ends with what is raised for its
    exception and nothing more is asked for; when it returns, the two
    policies are fetched in turn, which never fails, and the request
    succeeds, every facet computed from the home page by its extractor and
    no competitors, unless the important links raise, which again ends the
    request. *)
Theorem fetch_store_insights_cases (fuel : nat) (W : World)
    (website_url : string) (log : list string) :
  let url := with_scheme website_url in
  let answer := fetch_store_insights (new fuel W) website_url log in
  match get_html W url with
  | Refused =>
      answer
      = (Raise (HTTPException 401
                  ("Website not found or inaccessible: " ++ url)%string),
         log ++ [url])
  | Escaped cls msg =>
      answer
      = (Raise (HTTPException 500 ("Internal server error: " ++ msg)%string),
         log ++ [url])
  | Served soup =>
      match extract_brand_name soup url with
      | Raise e => answer = (Raise (raised_for e), log ++ [url])
      | Diverge => False
      | Ok name =>
          match fetch_product_catalog fuel W url (log ++ [url]) with
          | (Raise e, l) => answer = (Raise (raised_for e), l)
          | (Diverge, l) => answer = (Diverge, l)
          | (Ok catalog, l) =>
              exists privacy refund l' log',
                fetch_policy_content W url "privacy" l = (Ok privacy, l')
                /\ fetch_policy_content W url "refund" l' = (Ok refund, log')
                /\ match extract_important_links soup url with
                   | Raise e => answer = (Raise (raised_for e), log')
                   | Diverge => False
                   | Ok links =>
                       answer
                       = (Ok {| website_url := url;
                                brand_name := Some name;
                                product_catalog := catalog;
                                hero_products :=
                                  extract_hero_products soup catalog;
                                privacy_policy := privacy;
                                return_refund_policy := refund;
                                faqs := extract_faqs soup;
                                social_handles := extract_social_handles soup;
                                contact_details :=
                                  extract_contact_details soup;
                                brand_context := extract_brand_context soup;
                                important_links := links;
                                competitors := [] |}, log')
                   end
          end
      end
  end.
Proof.
  intros url answer. unfold answer, fetch_store_insights, gather.
  change (with_scheme website_url) with url. clearbody url.
  cbv beta iota zeta delta
    [try_except bind ret lift new fetch_page fetch_policy_content
     self_fetch_page self_extract_brand_name self_fetch_product_catalog
     self_extract_hero_products self_fetch_policy_content self_extract_faqs
     self_extract_social_handles self_extract_contact_details
     self_extract_brand_context self_extract_important_links
     self_search_competitors].
  destruct (get_html W url) as [soup| |cls msg]; [|reflexivity ..].
  pose proof (extract_brand_name_internal soup url) as [Hb Hbr].
  destruct (extract_brand_name soup url) as [name|e|];
    [| destruct e; reflexivity | contradiction].
  destruct (fetch_product_catalog fuel W url (log ++ [url]))
    as [[catalog|e|] l]; [| destruct e; reflexivity | reflexivity].
  destruct (try_paths_returns W url (common_paths "privacy") l)
    as (privacy & l' & Hp).
  destruct (try_paths_returns W url (common_paths "refund") l')
    as (refund & log' & Hr).
  exists privacy, refund, l', log'.
  split; [exact Hp|]. split; [exact Hr|].
  rewrite Hp, Hr.
  pose proof (extract_important_links_internal soup url) as [Hl Hlr].
  destruct (extract_important_links soup url) as [links|e|];
    [reflexivity | destruct e; reflexivity | contradiction].
Qed.

(** A request for insights on an object of the class fails with status 401
    only when [httpx] raises an [HTTPError] for the home page.  Every other
    failure has status 500 and the detail [Internal server error: ] followed
    by the message of an exception that is not an [HTTPException], and that
    exception comes from one of four places: it left [fetch_page] on the
    home page, or, with the home page served, it was raised by
    [extract_brand_name], by [fetch_product_catalog] or by
    [extract_important_links].  The policies and the other extractors never
    make the request fail. *)
Theorem fetch_store_insights_failures (fuel : nat) (W : World)
    (website_url : string) (log log' : list string) (e : exn) :
  let url := with_scheme website_url in
  fetch_store_insights (new fuel W) website_url log = (Raise e, log') ->
  (get_html W url = Refused
   /\ e = HTTPException 401 ("Website not found or inaccessible: " ++ url)%string
   /\ log' = log ++ [url])
  \/ exists cls msg,
       e = HTTPException 500 ("Internal server error: " ++ msg)%string
       /\ (get_html W url = Escaped cls msg
           \/ exists soup,
                get_html W url = Served soup
                /\ (extract_brand_name soup url = Raise (PyExn cls msg)
                    \/ fetch_product_catalog fuel W url (log ++ [url])
                       = (Raise (PyExn cls msg), log')
                    \/ extract_important_links soup url
                       = Raise (PyExn cls msg))).
Proof.
  intros url. unfold fetch_store_insights, gather.
  change (with_scheme website_url) with url. clearbody url.
  cbv beta iota zeta delta
    [try_except bind ret lift new fetch_page fetch_policy_content
     self_fetch_page self_extract_brand_name self_fetch_product_catalog
     self_extract_hero_products self_fetch_policy_content self_extract_faqs
     self_extract_social_handles self_extract_contact_details
     self_extract_brand_context self_extract_important_links
     self_search_competitors].
  destruct (get_html W url) as [soup| |cls msg].
  - pose proof (extract_brand_name_internal soup url) as [Hb Hbr].
    destruct (extract_brand_name soup url) as [name|e0|] eqn:EB;
      [| |contradiction].
    + destruct (fetch_product_catalog fuel W url (log ++ [url]))
        as [[catalog|e0|] l] eqn:C.
      * destruct (try_paths_returns W url (common_paths "privacy") l)
          as (privacy & l' & ->).
        destruct (try_paths_returns W url (common_paths "refund") l')
          as (refund & l'' & ->).
        pose proof (extract_important_links_internal soup url) as [Hl Hlr].
        destruct (extract_important_links soup url) as [links|e0|] eqn:EL;
          [discriminate | | contradiction].
        destruct (Hl e0 eq_refl) as (cls & msg & ->).
        intros [= <- <-]. right. exists cls, msg. split; [reflexivity|].
        right. exists soup. split; [reflexivity|]. right. right. exact EL.
      * destruct (catalog_loop_internal _ _ _ _ _ _ _ _ C) as (cls & msg & ->).
        intros [= <- <-]. right. exists cls, msg. split; [reflexivity|].
        right. exists soup. split; [reflexivity|]. right. left. reflexivity.
      * discriminate.
    + destruct (Hb e0 eq_refl) as (cls & msg & ->).
      intros [= <- <-]. right. exists cls, msg. split; [reflexivity|].
      right. exists soup. split; [reflexivity|]. left. exact EB.
  - intros [= <- <-]. now left.
  - intros [= <- <-]. right. exists cls, msg. split; [reflexivity|].
    now left.
Qed.

End Exceptions.

(** The request for the shop whose only entry has no variants. *)
Lemma fetch_store_insights_failures_witness :
  (get_html no_variant_shop (with_scheme "shop.example") = Refused
   /\ HTTPException 500 "Internal server error: list index out of range"
      = HTTPException 401 ("Website not found or inaccessible: "
                           ++ with_scheme "shop.example")%string
   /\ ["https://shop.example";
       "https://shop.example/products.json?limit=250&page=1"]
      = [] ++ [with_scheme "shop.example"])
  \/ exists cls msg,
       HTTPException 500 "Internal server error: list index out of range"
       = HTTPException 500 ("Internal server error: " ++ msg)%string
       /\ (get_html no_variant_shop (with_scheme "shop.example")
           = Escaped cls msg
           \/ exists soup,
                get_html no_variant_shop (with_scheme "shop.example")
                = Served soup
                /\ (@extract_brand_name Plain.runtime soup
                      (with_scheme "shop.example") = Raise (PyExn cls msg)
                    \/ @fetch_product_catalog Plain.runtime 5 no_variant_shop
                         (with_scheme "shop.example")
                         ([] ++ [with_scheme "shop.example"])
                       = (Raise (PyExn cls msg),
                          ["https://shop.example";
                           "https://shop.example/products.json?limit=250&page=1"])
                    \/ @extract_important_links Plain.runtime soup
                         (with_scheme "shop.example")
                       = Raise (PyExn cls msg))).
Proof.
  apply (@fetch_store_insights_failures Plain.runtime 5 no_variant_shop
           "shop.example" []).
  vm_compute. reflexivity.
Defined.

(* ================================================================= *)
(** ** The database *)

Lemma hd_error_In {A} (l : list A) (x : A) : hd_error l = Some x -> In x l.
Proof. destruct l; simpl; [discriminate | intros [= ->]; now left]. Qed.

Lemma filter_none {A} (p : A -> bool) (l : list A) :
  (forall x, In x l -> p x = false) -> filter p l = [].
Proof.
  induction l as [|a l IH]; simpl; intros H; [reflexivity|].
  rewrite (H a) by now left. apply IH. intros x Hx. apply H. now right.
Qed.

Lemma filter_all {A} (p : A -> bool) (l : list A) :
  (forall x, In x l -> p x = true) -> filter p l = l.
Proof.
  induction l as [|a l IH]; simpl; intros H; [reflexivity|].
  rewrite (H a) by now left. f_equal. apply IH. intros x Hx. apply H. now right.
Qed.

Lemma filter_filter_implied {A} (p q : A -> bool) (l : list A) :
  (forall x, In x l -> p x = true -> q x = true) ->
  filter p (filter q l) = filter p l.
Proof.
  induction l as [|a l IH]; simpl; intros H; [reflexivity|].
  assert (IH' : filter p (filter q l) = filter p l)
    by (apply IH; intros x Hx; apply H; now right).
  destruct (q a) eqn:Q; simpl; rewrite IH'; [reflexivity|].
  destruct (p a) eqn:P; [|reflexivity].
  rewrite (H a (or_introl eq_refl) P) in Q. discriminate.
Qed.

Lemma filter_map_fixed {A} (p : A -> bool) (f : A -> A) (l : list A) :
  (forall x, In x l -> f x = x \/ (p x = false /\ p (f x) = false)) ->
  filter p (List.map f l) = filter p l.
Proof.
  induction l as [|a l IH]; simpl; intros H; [reflexivity|].
  rewrite IH by (intros x Hx; apply H; now right).
  destruct (H a (or_introl eq_refl)) as [->|[-> ->]]; reflexivity.
Qed.

Lemma NoDup_map_filter {A B} (f : A -> B) (p : A -> bool) (l : list A) :
  NoDup (List.map f l) -> NoDup (List.map f (filter p l)).
Proof.
  induction l as [|x l IH]; simpl; intros H; [constructor|].
  inversion H as [|? ? Hx Hl]; subst.
  destruct (p x); simpl; [constructor|]; auto.
  intros Hin. apply Hx. apply in_map_iff in Hin as (y & Hy & Hin).
  apply filter_In in Hin as [Hin _]. rewrite <- Hy. now apply in_map.
Qed.

Lemma NoDup_snoc {A} (l : list A) (x : A) :
  NoDup l -> ~ In x l -> NoDup (l ++ [x]).
Proof.
  intros Hl Hx. apply NoDup_app; [assumption | repeat constructor; intros [] |].
  intros y Hy [<-|[]]. now apply Hx.
Qed.

Lemma NoDup_map_eq {A B} (f : A -> B) (l : list A) (x y : A) :
  NoDup (List.map f l) -> In x l -> In y l -> f x = f y -> x = y.
Proof.
  induction l as [|z l IH]; simpl; intros H Hx Hy E; [contradiction|].
  inversion H as [|? ? Hz Hl]; subst.
  destruct Hx as [->|Hx], Hy as [->|Hy]; auto.
  - exfalso. apply Hz. rewrite E. now apply in_map.
  - exfalso. apply Hz. rewrite <- E. now apply in_map.
Qed.

Lemma FOP_snoc {A} (R : A -> A -> Prop) (l : list A) (x : A) :
  ForallOrdPairs R l -> Forall (fun a => R a x) l -> ForallOrdPairs R (l ++ [x]).
Proof.
  induction 1 as [|a l Ha Hl IH]; simpl; intros Hx.
  - repeat constructor.
  - inversion Hx; subst. constructor; [|now apply IH].
    apply Forall_app; split; [assumption | now repeat constructor].
Qed.

Section Saving.
Context {EN : Engine}.
Import DatabaseOperations Endpoints.

Lemma listed_In {A} (l : list A) (x : A) : In x (listed l) <-> In x l.
Proof.
  split; apply Permutation_in;
    [apply Permutation_sym |]; apply listed_perm.
Qed.

Lemma listed_length {A} (l : list A) : List.length (listed l) = List.length l.
Proof. symmetry. apply Permutation_length, listed_perm. Qed.

Lemma listed_short {A} (l : list A) : List.length l <= 1 -> listed l = l.
Proof.
  intros H. pose proof (listed_perm A l) as P.
  destruct l as [|a [|b l]]; simpl in H; try lia.
  - now apply Permutation_nil.
  - now apply Permutation_length_1_inv.
Qed.

Lemma same_apart (a b u : string) :
  same a u = true -> same a b = false -> same b u = false.
Proof.
  intros Hau Hab. destruct (same b u) eqn:Hbu; [|reflexivity].
  rewrite (same_sym b u) in Hbu.
  rewrite (same_trans a u b Hau Hbu) in Hab. discriminate.
Qed.

Lemma same_other (a u v : string) :
  same a u = true -> same v u = false -> same a v = false.
Proof.
  intros Hau Hvu. destruct (same a v) eqn:Hav; [|reflexivity].
  rewrite (same_sym a v) in Hav.
  rewrite (same_trans v a u Hav Hau) in Hvu. discriminate.
Qed.

Lemma selected_short (rows : list BrandInsights.t) (url : string) :
  ForallOrdPairs (fun a b => same a b = false)
                 (List.map BrandInsights.website_url rows) ->
  List.length (filter (fun b => same (BrandInsights.website_url b) url) rows) <= 1.
Proof.
  induction rows as [|r rows IH]; simpl; intros H; [lia|].
  inversion H as [|? ? Hr Hrows]; subst.
  destruct (same (BrandInsights.website_url r) url) eqn:E; [|now apply IH].
  rewrite filter_none; [simpl; lia|].
  intros x Hx. apply (same_apart _ _ _ E).
  rewrite Forall_forall in Hr. apply Hr. now apply in_map.
Qed.

Lemma brand_of_url_Some (db : Database) (url : string) (b : BrandInsights.t) :
  brand_of_url db url = Some b ->
  In b (brand_insights db) /\ same (BrandInsights.website_url b) url = true.
Proof.
  unfold brand_of_url. intros H.
  apply hd_error_In, listed_In, filter_In in H. exact H.
Qed.

Lemma brand_of_url_None (db : Database) (url : string) :
  brand_of_url db url = None ->
  forall b, In b (brand_insights db) ->
            same (BrandInsights.website_url b) url = false.
Proof.
  unfold brand_of_url. intros H b Hb.
  destruct (same (BrandInsights.website_url b) url) eqn:E; [|reflexivity].
  assert (Hin : In b (listed (filter
            (fun b => same (BrandInsights.website_url b) url) (brand_insights db))))
    by (apply listed_In, filter_In; now split).
  destruct (listed _); [contradiction | discriminate].
Qed.

Lemma brand_of_url_known (db : Database) (url : string) (b : BrandInsights.t) :
  unique_urls db -> In b (brand_insights db) ->
  same (BrandInsights.website_url b) url = true ->
  brand_of_url db url = Some b.
Proof.
  intros U Hb E. unfold brand_of_url.
  pose proof (selected_short _ url U) as Hlen.
  rewrite listed_short by exact Hlen.
  assert (Hin : In b (filter (fun b => same (BrandInsights.website_url b) url)
                             (brand_insights db)))
    by (apply filter_In; now split).
  destruct (filter _ _) as [|x [|y l]]; simpl in *;
    [contradiction | destruct Hin as [->|[]]; reflexivity | lia].
Qed.

Lemma add_products_rows (brand_id : nat) (product_catalog : list ProductModel)
    (table : list Product.t) :
  exists rows,
    add_products brand_id product_catalog table = table ++ rows
    /\ List.map product_of rows = product_catalog
    /\ Forall (fun p => Product.brand_id p = brand_id) rows
    /\ (NoDup (List.map Product.id table) ->
        NoDup (List.map Product.id (table ++ rows))).
Proof.
  revert table. induction product_catalog as [|product more IH]; intros table.
  - exists []. rewrite app_nil_r. simpl. repeat split; auto.
  - cbn [add_products].
    set (row := product_row (fresh (List.map Product.id table)) brand_id product).
    destruct (IH (table ++ [row])) as (rows & E & Hm & Hb & Hn).
    exists (row :: rows).
    split; [rewrite E, <- app_assoc; reflexivity|].
    split; [simpl; f_equal; [destruct product; reflexivity | exact Hm]|].
    split; [constructor; [reflexivity | exact Hb]|].
    intros Hnd.
    replace (table ++ row :: rows) with ((table ++ [row]) ++ rows)
      by (rewrite <- app_assoc; reflexivity).
    apply Hn. rewrite map_app. apply NoDup_snoc; [exact Hnd | apply fresh_spec].
Qed.

Lemma replaced_keys (key : nat) (brand : BrandInsights.t)
    (rows : list BrandInsights.t) :
  BrandInsights.id brand = key ->
  List.map BrandInsights.id
    (List.map (fun b => if BrandInsights.id b =? key then brand else b) rows)
  = List.map BrandInsights.id rows.
Proof.
  intros E. rewrite map_map. apply map_ext. intros b.
  destruct (Nat.eqb_spec (BrandInsights.id b) key); congruence.
Qed.

Lemma replaced_urls (e brand : BrandInsights.t) (rows : list BrandInsights.t) :
  NoDup (List.map BrandInsights.id rows) -> In e rows ->
  BrandInsights.website_url brand = BrandInsights.website_url e ->
  List.map BrandInsights.website_url
    (List.map (fun b => if BrandInsights.id b =? BrandInsights.id e
                        then brand else b) rows)
  = List.map BrandInsights.website_url rows.
Proof.
  intros N He E. rewrite map_map. apply map_ext_in. intros b Hb.
  destruct (Nat.eqb_spec (BrandInsights.id b) (BrandInsights.id e)) as [K|K];
    [|reflexivity].
  rewrite E. f_equal. symmetry.
  exact (NoDup_map_eq BrandInsights.id rows b e N Hb He K).
Qed.

Lemma saved_consistent (db : Database) (insights : BrandInsightsModel)
    (now later : nat) :
  consistent db -> consistent (snd (saved db insights now later)).
Proof.
  intros (U & (Kb & Kp) & R). unfold saved.
  destruct (brand_of_url db (website_url insights)) as [e|] eqn:L; cbn [snd].
  - apply brand_of_url_Some in L as [He Hs].
    destruct (add_products_rows (BrandInsights.id e) (product_catalog insights)
                (filter (fun p => negb (Product.brand_id p =? BrandInsights.id e))
                        (products db)))
      as (rows & E & _ & Hb & Hn).
    unfold consistent, unique_urls, unique_keys, referenced.
    cbn [brand_insights products].
    rewrite replaced_urls, replaced_keys; auto.
    split; [exact U|]. split; [split; [exact Kb|]|].
    + rewrite E. apply Hn. now apply NoDup_map_filter.
    + intros p Hp. rewrite E in Hp. apply in_app_or in Hp as [Hp|Hp].
      * apply filter_In in Hp as [Hp _]. now apply R.
      * rewrite Forall_forall in Hb. rewrite (Hb p Hp). now apply in_map.
  - pose proof (brand_of_url_None _ _ L) as Hnone.
    set (key := fresh (List.map BrandInsights.id (brand_insights db))).
    destruct (add_products_rows key (product_catalog insights) (products db))
      as (rows & E & _ & Hb & Hn).
    unfold consistent, unique_urls, unique_keys, referenced.
    cbn [brand_insights products]. rewrite !map_app. cbn [List.map].
    split; [|split; [split|]].
    + apply FOP_snoc; [exact U|]. apply Forall_forall. intros u Hu.
      apply in_map_iff in Hu as (b & <- & Hb'). now apply Hnone.
    + apply NoDup_snoc; [exact Kb | apply fresh_spec].
    + rewrite E. now apply Hn.
    + intros p Hp. rewrite E in Hp. apply in_or_app.
      apply in_app_or in Hp as [Hp|Hp].
      * left. now apply R.
      * right. rewrite Forall_forall in Hb. rewrite (Hb p Hp). now left.
Qed.

(** The row a save returns is in the table under an address the same as the
    one saved, holds the insights, and the rows of [products] with its key are
    those of the catalog. *)
Lemma saved_row (db : Database) (insights : BrandInsightsModel)
    (now later : nat) (b : BrandInsights.t) (db' : Database) :
  consistent db ->
  saved db insights now later = (b, db') ->
  In b (brand_insights db')
  /\ same (BrandInsights.website_url b) (website_url insights) = true
  /\ holds b insights
  /\ exists rows,
       filter (fun p => Product.brand_id p =? BrandInsights.id b) (products db')
       = rows
       /\ List.map product_of rows = product_catalog insights.
Proof.
  intros (U & (Kb & Kp) & R). unfold saved.
  destruct (brand_of_url db (website_url insights)) as [e|] eqn:L;
    intros [= <- <-]; cbn [brand_insights products].
  - apply brand_of_url_Some in L as [He Hs].
    split; [|split; [exact Hs | split; [repeat split|]]].
    + apply in_map_iff. exists e. now rewrite Nat.eqb_refl.
    + destruct (add_products_rows (BrandInsights.id e) (product_catalog insights)
                  (filter (fun p => negb (Product.brand_id p =? BrandInsights.id e))
                          (products db)))
        as (rows & E & Hm & Hb & _).
      exists rows. split; [|exact Hm]. cbn [updated BrandInsights.id].
      rewrite E, filter_app, filter_none, filter_all; [reflexivity | |].
      * intros p Hp. rewrite Forall_forall in Hb. rewrite (Hb p Hp).
        apply Nat.eqb_refl.
      * intros p Hp. apply filter_In in Hp as [_ Hp].
        now apply negb_true_iff in Hp.
  - split; [|split; [apply same_refl | split; [repeat split|]]].
    + apply in_or_app. right. now left.
    + set (key := fresh (List.map BrandInsights.id (brand_insights db))).
      destruct (add_products_rows key (product_catalog insights) (products db))
        as (rows & E & Hm & Hb & _).
      exists rows. split; [|exact Hm]. cbn [created BrandInsights.id].
      fold key. rewrite E, filter_app, filter_none, filter_all; [reflexivity | |].
      * intros p Hp. rewrite Forall_forall in Hb. rewrite (Hb p Hp).
        apply Nat.eqb_refl.
      * intros p Hp. apply Nat.eqb_neq. intros K.
        apply (fresh_spec (List.map BrandInsights.id (brand_insights db))).
        fold key. rewrite <- K. now apply R.
Qed.

(** What a save leaves alone: the row found for another address, the products
    under its key, and the competitors. *)
Lemma saved_frame (db : Database) (insights : BrandInsightsModel)
    (now later : nat) (url : string) :
  consistent db ->
  same url (website_url insights) = false ->
  let db' := snd (saved db insights now later) in
  brand_of_url db' url = brand_of_url db url
  /\ (forall b, brand_of_url db url = Some b ->
        products_of_brand db' (BrandInsights.id b)
        = products_of_brand db (BrandInsights.id b))
  /\ competitors_table db' = competitors_table db.
Proof.
  intros (U & (Kb & Kp) & R) Hurl. unfold saved.
  destruct (brand_of_url db (website_url insights)) as [e|] eqn:L; cbn [snd].
  - apply brand_of_url_Some in L as [He Hs].
    pose proof (same_other _ _ _ Hs Hurl) as Hapart.
    split; [|split; [|reflexivity]].
    + unfold brand_of_url. cbn [brand_insights]. f_equal. f_equal.
      apply filter_map_fixed. intros b Hb.
      destruct (Nat.eqb_spec (BrandInsights.id b) (BrandInsights.id e)) as [K|K];
        [right | now left].
      rewrite (NoDup_map_eq BrandInsights.id _ b e Kb Hb He K).
      split; exact Hapart.
    + intros b Hb. apply brand_of_url_Some in Hb as [Hb Hsb].
      assert (K : BrandInsights.id b <> BrandInsights.id e).
      { intros K. rewrite (NoDup_map_eq BrandInsights.id _ b e Kb Hb He K) in Hsb.
        rewrite Hsb in Hapart. discriminate. }
      unfold products_of_brand. cbn [products]. f_equal.
      destruct (add_products_rows (BrandInsights.id e) (product_catalog insights)
                  (filter (fun p => negb (Product.brand_id p =? BrandInsights.id e))
                          (products db)))
        as (rows & E & _ & Hrows & _).
      rewrite E, filter_app, (filter_none _ rows), app_nil_r.
      * apply filter_filter_implied. intros p _ Hp.
        apply Nat.eqb_eq in Hp. apply negb_true_iff, Nat.eqb_neq. congruence.
      * intros p Hp. rewrite Forall_forall in Hrows. rewrite (Hrows p Hp).
        apply Nat.eqb_neq. congruence.
  - split; [|split; [|reflexivity]].
    + unfold brand_of_url. cbn [brand_insights]. f_equal. f_equal.
      rewrite filter_app. cbn [filter created BrandInsights.website_url].
      rewrite same_sym, Hurl. apply app_nil_r.
    + intros b Hb. apply brand_of_url_Some in Hb as [Hb _].
      set (key := fresh (List.map BrandInsights.id (brand_insights db))).
      assert (K : BrandInsights.id b <> key).
      { intros K. apply (fresh_spec (List.map BrandInsights.id (brand_insights db))).
        fold key. rewrite <- K. now apply in_map. }
      unfold products_of_brand. cbn [products]. f_equal.
      destruct (add_products_rows key (product_catalog insights) (products db))
        as (rows & E & _ & Hrows & _).
      rewrite E, filter_app, (filter_none _ rows), app_nil_r; [reflexivity|].
      intros p Hp. rewrite Forall_forall in Hrows. rewrite (Hrows p Hp).
      apply Nat.eqb_neq. congruence.
Qed.

Lemma save_brand_insights_Ok (db : Database) (insights : BrandInsightsModel)
    (now later : nat) (b : BrandInsights.t) (db' : Database) :
  save_brand_insights db insights now later = (Ok b, db') ->
  saved db insights now later = (b, db').
Proof.
  unfold save_brand_insights. destruct (saved db insights now later) as [b0 db0].
  destruct (accepts db db0); [intros [= <- <-]; reflexivity | discriminate].
Qed.

Lemma stored_answer (db : Database) (insights : BrandInsightsModel)
    (now later : nat) (b : BrandInsights.t) (db' : Database) (url : string) :
  consistent db ->
  saved db insights now later = (b, db') ->
  same url (website_url insights) = true ->
  exists ps,
    get_stored_insights db' url
    = Ok {| brand := b; stored_products := ps;
            total_products := List.length (product_catalog insights) |}
    /\ Permutation (List.map product_of ps) (product_catalog insights).
Proof.
  intros C S Hurl.
  pose proof (saved_consistent db insights now later C) as C'.
  rewrite S in C'. cbn [snd] in C'.
  destruct (saved_row _ _ _ _ _ _ C S) as (Hin & Hs & _ & rows & Hrows & Hm).
  assert (Hs' : same (BrandInsights.website_url b) url = true).
  { apply (same_trans _ _ _ Hs). now rewrite same_sym. }
  unfold get_stored_insights.
  rewrite (brand_of_url_known db' url b (proj1 C') Hin Hs').
  unfold products_of_brand. rewrite Hrows.
  exists (listed rows). split.
  - f_equal. f_equal. now rewrite listed_length, <- Hm, length_map.
  - rewrite <- Hm. apply Permutation_map, Permutation_sym, listed_perm.
Qed.

(** Every save, committed or rolled back, keeps the tables consistent: no two
    rows of [brand_insights] with the same address, no key used twice, every
    product under the key of a stored brand. *)
Theorem save_brand_insights_consistent (db : Database)
    (insights : BrandInsightsModel) (now later : nat) :
  consistent db ->
  consistent (snd (save_brand_insights db insights now later)).
Proof.
  intros C. pose proof (saved_consistent db insights now later C) as C'.
  unfold save_brand_insights. destruct (saved db insights now later) as [b db'].
  destruct (accepts db db'); assumption.
Qed.

(** What a committed save stored is what [get_stored_insights] reads under
    the address saved: the row returned, which holds the facets of the
    insights, and as products those of the catalog, each once, in the order
    the server lists them. *)
Theorem save_then_get (db : Database) (insights : BrandInsightsModel)
    (now later : nat) (b : BrandInsights.t) (db' : Database) :
  consistent db ->
  save_brand_insights db insights now later = (Ok b, db') ->
  holds b insights
  /\ exists ps,
       get_stored_insights db' (website_url insights)
       = Ok {| brand := b; stored_products := ps;
               total_products := List.length (product_catalog insights) |}
       /\ Permutation (List.map product_of ps) (product_catalog insights).
Proof.
  intros C S. apply save_brand_insights_Ok in S.
  split.
  - now destruct (saved_row _ _ _ _ _ _ C S) as (_ & _ & H & _).
  - apply (stored_answer db insights now later b db' _ C S), same_refl.
Qed.

(** A save changes the answer of [get_stored_insights] for no address other
    than the one saved, and never writes to [competitors]. *)
Theorem save_brand_insights_frame (db : Database) (insights : BrandInsightsModel)
    (now later : nat) (url : string) :
  consistent db ->
  same url (website_url insights) = false ->
  get_stored_insights (snd (save_brand_insights db insights now later)) url
  = get_stored_insights db url
  /\ competitors_table (snd (save_brand_insights db insights now later))
     = competitors_table db.
Proof.
  intros C Hurl.
  destruct (saved_frame db insights now later url C Hurl) as (Hb & Hp & Hc).
  unfold save_brand_insights. destruct (saved db insights now later) as [b db'].
  cbn [snd] in Hb, Hp, Hc.
  destruct (accepts db db'); cbn [snd]; [|split; reflexivity].
  split; [|exact Hc].
  unfold get_stored_insights. rewrite Hb.
  destruct (brand_of_url db url) as [b'|] eqn:L; [|reflexivity].
  now rewrite (Hp b' eq_refl).
Qed.

(** Saving again under an address the server holds the same as one saved
    before updates the row in place: key, stored address and creation time
    stay, the time of the update is the reading of the clock, the number of
    brands is unchanged, and the products read afterwards are those of the
    second catalog only. *)
Theorem save_brand_insights_again (db : Database)
    (first second : BrandInsightsModel) (t1 t1' t2 t2' : nat)
    (b1 b2 : BrandInsights.t) (db1 db2 : Database) :
  consistent db ->
  save_brand_insights db first t1 t1' = (Ok b1, db1) ->
  same (website_url second) (website_url first) = true ->
  save_brand_insights db1 second t2 t2' = (Ok b2, db2) ->
  BrandInsights.id b2 = BrandInsights.id b1
  /\ BrandInsights.website_url b2 = BrandInsights.website_url b1
  /\ BrandInsights.created_at b2 = BrandInsights.created_at b1
  /\ BrandInsights.updated_at b2 = t2
  /\ total (list_all_brands db2) = total (list_all_brands db1)
  /\ exists ps,
       get_stored_insights db2 (website_url first)
       = Ok {| brand := b2; stored_products := ps;
               total_products := List.length (product_catalog second) |}
       /\ Permutation (List.map product_of ps) (product_catalog second).
Proof.
  intros C S1 Hurl S2.
  apply save_brand_insights_Ok in S1, S2.
  pose proof (saved_consistent db first t1 t1' C) as C1.
  rewrite S1 in C1. cbn [snd] in C1.
  destruct (saved_row _ _ _ _ _ _ C S1) as (Hin & Hs & _).
  assert (L : brand_of_url db1 (website_url second) = Some b1).
  { apply brand_of_url_known; [exact (proj1 C1) | exact Hin |].
    apply (same_trans _ _ _ Hs). now rewrite same_sym. }
  assert (Hlast : exists ps,
       get_stored_insights db2 (website_url first)
       = Ok {| brand := b2; stored_products := ps;
               total_products := List.length (product_catalog second) |}
       /\ Permutation (List.map product_of ps) (product_catalog second)).
  { apply (stored_answer db1 second t2 t2' b2 db2 _ C1 S2).
    now rewrite same_sym. }
  unfold saved in S2. rewrite L in S2. injection S2 as <- <-.
  repeat (split; [reflexivity|]). split; [|exact Hlast].
  unfold list_all_brands. cbn [total brand_insights].
  now rewrite !listed_length, length_map.
Qed.

(** A committed save of an address for which [get_stored_insights] answers
    404 adds one brand to those [list_all_brands] returns, under a key no
    stored brand has, with the address as given and the two readings of the
    clock as its times. *)
Theorem save_brand_insights_new (db : Database) (insights : BrandInsightsModel)
    (now later : nat) (b : BrandInsights.t) (db' : Database) :
  get_stored_insights db (website_url insights)
  = Raise (HTTPException 404 "Brand insights not found") ->
  save_brand_insights db insights now later = (Ok b, db') ->
  Permutation (brands (list_all_brands db')) (b :: brands (list_all_brands db))
  /\ total (list_all_brands db') = S (total (list_all_brands db))
  /\ ~ In (BrandInsights.id b)
          (List.map BrandInsights.id (brands (list_all_brands db)))
  /\ BrandInsights.website_url b = website_url insights
  /\ BrandInsights.created_at b = now
  /\ BrandInsights.updated_at b = later.
Proof.
  intros G S. apply save_brand_insights_Ok in S.
  unfold get_stored_insights in G. unfold saved in S.
  destruct (brand_of_url db (website_url insights)); [discriminate|].
  injection S as <- <-.
  unfold list_all_brands. cbn [brands total brand_insights].
  split; [|split; [|split; [|repeat split]]].
  - eapply Permutation_trans; [apply Permutation_sym, listed_perm|].
    eapply Permutation_trans; [apply Permutation_sym, Permutation_cons_append|].
    apply perm_skip, listed_perm.
  - rewrite !listed_length, length_app. cbn [List.length]. lia.
  - cbn [created BrandInsights.id]. intros Hin.
    apply (fresh_spec (List.map BrandInsights.id (brand_insights db))).
    revert Hin. apply Permutation_in, Permutation_map, Permutation_sym, listed_perm.
Qed.

(** The insights a request to [/fetch-insights] returns carry the address
    with its scheme, and are what [get_stored_insights] reads under that
    address afterwards. *)
Theorem fetch_insights_then_get {RT : Runtime} (fuel : nat) (W : World)
    (now later : nat) (url : string) (log log' : list string)
    (db db' : Database) (insights : BrandInsightsModel) :
  consistent db ->
  Endpoints.fetch_store_insights fuel W now later url log db
  = (Ok insights, (log', db')) ->
  website_url insights = with_scheme url
  /\ exists b ps,
       get_stored_insights db' (with_scheme url)
       = Ok {| brand := b; stored_products := ps;
               total_products := List.length (product_catalog insights) |}
       /\ holds b insights
       /\ Permutation (List.map product_of ps) (product_catalog insights).
Proof.
  intros C. unfold Endpoints.fetch_store_insights.
  destruct (ShopifyInsightsFetcher.fetch_store_insights _ url log)
    as [[fetched|e|] l] eqn:F; try discriminate.
  destruct (save_brand_insights db fetched now later) as [[b|e|] db0] eqn:S;
    try discriminate.
  intros [= -> <- ->].
  assert (Hurl : website_url insights = with_scheme url).
  { unfold ShopifyInsightsFetcher.fetch_store_insights, try_except in F.
    destruct (gather (new fuel W) url log) as [[agg|e|] l'] eqn:G;
      try discriminate.
    injection F as -> ->. apply gather_Ok in G. unfold all_return in G.
    repeat match type of G with
           | exists _, _ => destruct G as [? G]
           | _ /\ _ => destruct G as [_ G]
           end.
    now rewrite G. }
  split; [exact Hurl|]. rewrite <- Hurl.
  apply save_brand_insights_Ok in S.
  destruct (saved_row _ _ _ _ _ _ C S) as (_ & _ & Hholds & _).
  destruct (stored_answer db insights now later b db' (website_url insights) C S
              (same_refl _)) as (ps & Hget & Hperm).
  now exists b, ps.
Qed.

End Saving.

Lemma one_shop_consistent : @consistent Simple.engine one_shop.
Proof.
  split; [|split; [split|]].
  - unfold unique_urls. vm_compute. repeat constructor.
  - vm_compute. constructor; [intros [] | constructor].
  - vm_compute. constructor; [intros [] | constructor].
  - intros p [<-|[]]. now left.
Defined.

Lemma empty_database_consistent : @consistent Simple.engine empty_database.
Proof.
  split; [|split; [split|]]; try constructor. intros p [].
Defined.

(** The tables after a second save of the shop. *)
Lemma save_brand_insights_consistent_witness :
  @consistent Simple.engine
    (snd (@DatabaseOperations.save_brand_insights Simple.engine one_shop
            (gathered [mug_model; mug_model]) 20 21)).
Proof.
  apply (@save_brand_insights_consistent Simple.engine).
  exact one_shop_consistent.
Defined.

(** The shop is read after it was saved into the empty database. *)
Lemma save_then_get_witness :
  holds shop_row (gathered [mug_model])
  /\ exists ps,
       @Endpoints.get_stored_insights Simple.engine one_shop
         "https://shop.example"
       = Ok {| Endpoints.brand := shop_row; Endpoints.stored_products := ps;
               Endpoints.total_products := 1 |}
       /\ Permutation (List.map product_of ps) [mug_model].
Proof.
  apply (@save_then_get Simple.engine empty_database (gathered [mug_model]) 10 11).
  - exact empty_database_consistent.
  - reflexivity.
Defined.

(** Saving the shop changes nothing for another address. *)
Lemma save_brand_insights_frame_witness :
  @Endpoints.get_stored_insights Simple.engine
    (snd (@DatabaseOperations.save_brand_insights Simple.engine one_shop
            (gathered [mug_model; mug_model]) 20 21))
    "https://other.example"
  = @Endpoints.get_stored_insights Simple.engine one_shop "https://other.example"
  /\ competitors_table
       (snd (@DatabaseOperations.save_brand_insights Simple.engine one_shop
               (gathered [mug_model; mug_model]) 20 21))
     = competitors_table one_shop.
Proof.
  apply (@save_brand_insights_frame Simple.engine).
  - exact one_shop_consistent.
  - reflexivity.
Defined.

(** The shop saved with one product, then with two. *)
Lemma save_brand_insights_again_witness :
  exists b1 b2 db2,
    BrandInsights.id b2 = BrandInsights.id b1
    /\ BrandInsights.website_url b2 = BrandInsights.website_url b1
    /\ BrandInsights.created_at b2 = BrandInsights.created_at b1
    /\ BrandInsights.updated_at b2 = 20
    /\ Endpoints.total (@Endpoints.list_all_brands Simple.engine db2)
       = Endpoints.total (@Endpoints.list_all_brands Simple.engine one_shop)
    /\ exists ps,
         @Endpoints.get_stored_insights Simple.engine db2 "https://shop.example"
         = Ok {| Endpoints.brand := b2; Endpoints.stored_products := ps;
                 Endpoints.total_products := 2 |}
         /\ Permutation (List.map product_of ps) [mug_model; mug_model].
Proof.
  eexists. eexists. eexists.
  apply (@save_brand_insights_again Simple.engine empty_database
           (gathered [mug_model]) (gathered [mug_model; mug_model]) 10 11 20 21).
  - exact empty_database_consistent.
  - reflexivity.
  - reflexivity.
  - reflexivity.
Defined.

(** The shop saved into the empty database. *)
Lemma save_brand_insights_new_witness :
  Permutation
    (Endpoints.brands (@Endpoints.list_all_brands Simple.engine one_shop))
    (shop_row
     :: Endpoints.brands (@Endpoints.list_all_brands Simple.engine empty_database))
  /\ Endpoints.total (@Endpoints.list_all_brands Simple.engine one_shop)
     = S (Endpoints.total (@Endpoints.list_all_brands Simple.engine empty_database))
  /\ ~ In (BrandInsights.id shop_row)
          (List.map BrandInsights.id
             (Endpoints.brands
                (@Endpoints.list_all_brands Simple.engine empty_database)))
  /\ BrandInsights.website_url shop_row = website_url (gathered [mug_model])
  /\ BrandInsights.created_at shop_row = 10
  /\ BrandInsights.updated_at shop_row = 11.
Proof.
  apply (@save_brand_insights_new Simple.engine empty_database
           (gathered [mug_model]) 10 11).
  - reflexivity.
  - reflexivity.
Defined.

(** The shop with one product, requested against the empty database. *)
Lemma fetch_insights_then_get_witness :
  website_url (gathered [mug_model]) = with_scheme "shop.example"
  /\ exists b ps,
       @Endpoints.get_stored_insights Simple.engine one_shop
         (with_scheme "shop.example")
       = Ok {| Endpoints.brand := b; Endpoints.stored_products := ps;
               Endpoints.total_products := 1 |}
       /\ holds b (gathered [mug_model])
       /\ Permutation (List.map product_of ps) [mug_model].
Proof.
  apply (@fetch_insights_then_get Simple.engine Plain.runtime 5 mug_shop 10 11
           "shop.example" []
           ["https://shop.example";
            "https://shop.example/products.json?limit=250&page=1";
            "https://shop.example/pages/privacy-policy";
            "https://shop.example/privacy-policy";
            "https://shop.example/privacy";
            "https://shop.example/pages/privacy";
            "https://shop.example/pages/refund-policy";
            "https://shop.example/pages/return-policy";
            "https://shop.example/refund-policy";
            "https://shop.example/return-policy";
            "https://shop.example/pages/returns";
            "https://shop.example/returns";
            "https://shop.example/pages/refunds";
            "https://shop.example/refunds"]
           empty_database).
  - exact empty_database_consistent.
  - vm_compute. reflexivity.
Defined.
